(** * A shallow embedding of the SQLite database comparator

    The development follows [db_comparator.py]: the schema differ
    ([compare_schemas]), the row-set differ ([compare_table_data] with its
    inner [normalize_row]), the table and database comparators
    ([compare_table], [compare_databases]) and the difference analyzer
    ([analyze_row_differences]).  Python values, dictionaries, sets and
    exceptions are modelled explicitly; the SQLite connection is an oracle
    answering the four catalog queries the comparator issues. *)

From Stdlib Require Import ZArith List String Ascii Bool Lia Permutation.
From Stdlib Require Import SpecFloat DecimalString.
Import ListNotations.

Local Open Scope string_scope.
Local Open Scope Z_scope.
Local Open Scope list_scope.

(** f-string style concatenation of string fragments. *)
Definition fstr (parts : list string) : string := String.concat EmptyString parts.

(** ** Python dictionaries with string keys

    A [dict] is the sequence of its items in insertion order.  Assigning to
    an existing key replaces the value in place; assigning to a new key
    appends the item. *)
Module PyDict.

Definition dict (V : Type) : Type := list (string * V).

Fixpoint dict_get {V} (k : string) (d : dict V) : option V :=
  match d with
  | [] => None
  | (k', v) :: d' => if String.eqb k k' then Some v else dict_get k d'
  end.

Definition dict_mem {V} (k : string) (d : dict V) : bool :=
  match dict_get k d with Some _ => true | None => false end.

Fixpoint dict_set {V} (k : string) (v : V) (d : dict V) : dict V :=
  match d with
  | [] => [(k, v)]
  | (k', v') :: d' =>
      if String.eqb k k' then (k', v) :: d' else (k', v') :: dict_set k v d'
  end.

Definition dict_keys {V} (d : dict V) : list string := map fst d.
Definition dict_values {V} (d : dict V) : list V := map snd d.

(** [{k: v for ...}]: the items are assigned one after the other. *)
Definition dict_of_items {V} (kvs : list (string * V)) : dict V :=
  fold_left (fun d kv => dict_set (fst kv) (snd kv) d) kvs [].

End PyDict.
Import PyDict.

(** ** The schema differ *)

(** One row of [PRAGMA table_info]: (cid, name, type, notnull, dflt_value, pk).
    The source addresses the name as [col[1]] and the declared type as
    [col[2]]. *)
Record column : Type := mkColumn {
  c_cid : Z;
  c_name : string;
  c_type : string;
  c_notnull : Z;
  c_dflt_value : option string;
  c_pk : Z
}.

Definition option_string_eqb (a b : option string) : bool :=
  match a, b with
  | None, None => true
  | Some x, Some y => String.eqb x y
  | _, _ => false
  end.

(** Equality of two fetched rows compares every field. *)
Definition column_eqb (a b : column) : bool :=
  (c_cid a =? c_cid b) && String.eqb (c_name a) (c_name b)
  && String.eqb (c_type a) (c_type b) && (c_notnull a =? c_notnull b)
  && option_string_eqb (c_dflt_value a) (c_dflt_value b) && (c_pk a =? c_pk b).

(** [{col[1]: col for col in schema}] *)
Definition schema_dict (schema : list column) : dict column :=
  dict_of_items (map (fun col => (c_name col, col)) schema).

Definition compare_schemas (schema1 schema2 : list column) : bool * list string :=
  let differences : list string := [] in
  let schema1_dict := schema_dict schema1 in
  let schema2_dict := schema_dict schema2 in
  (* columns only in schema1 *)
  let differences :=
    fold_left (fun diffs col_name =>
      if negb (dict_mem col_name schema2_dict)
      then diffs ++ [fstr ["Column '"; col_name; "' exists in DB1 but not in DB2"]]
      else diffs) (dict_keys schema1_dict) differences in
  (* columns only in schema2 *)
  let differences :=
    fold_left (fun diffs col_name =>
      if negb (dict_mem col_name schema1_dict)
      then diffs ++ [fstr ["Column '"; col_name; "' exists in DB2 but not in DB1"]]
      else diffs) (dict_keys schema2_dict) differences in
  (* column definition differences *)
  let differences :=
    fold_left (fun diffs col_name =>
      match dict_get col_name schema1_dict, dict_get col_name schema2_dict with
      | Some col1, Some col2 =>
          if negb (column_eqb col1 col2)
          then diffs ++ [fstr ["Column '"; col_name; "' has different definitions: ";
                               "DB1="; c_type col1; " vs DB2="; c_type col2]]
          else diffs
      | _, _ => diffs
      end) (dict_keys schema1_dict) differences in
  (Nat.eqb (List.length differences) 0%nat, differences).

(** A fetched schema lists every column of the table once: within one
    table, column names are distinct. *)
Definition wf_schema (schema : list column) : Prop := NoDup (map c_name schema).

(** What each loop of [compare_schemas] emits for one column name. *)
Definition emit_only_in (other : dict column) (suffix : string) (col_name : string)
  : list string :=
  if negb (dict_mem col_name other)
  then [fstr ["Column '"; col_name; suffix]]
  else [].

Definition emit_changed (d1 d2 : dict column) (col_name : string) : list string :=
  match dict_get col_name d1, dict_get col_name d2 with
  | Some col1, Some col2 =>
      if negb (column_eqb col1 col2)
      then [fstr ["Column '"; col_name; "' has different definitions: ";
                  "DB1="; c_type col1; " vs DB2="; c_type col2]]
      else []
  | _, _ => []
  end.

(** The names the third loop reports: present on both sides with different
    rows. *)
Definition changed_name (d1 d2 : dict column) (col_name : string) : bool :=
  match dict_get col_name d1, dict_get col_name d2 with
  | Some col1, Some col2 => negb (column_eqb col1 col2)
  | _, _ => false
  end.

(** ** Python floats

    A float is an IEEE-754 binary64 number, carried as a [spec_float]
    (sign, mantissa below [2^53], exponent from -1074 to 971).  Every
    finite double is a whole number of units of [2^-1074]. *)
Definition prec : Z := 53.
Definition emax : Z := 1024.

(** Nearest integer to [num / den], ties to the even one ([den > 0]). *)
Definition round_half_even (num den : Z) : Z :=
  let q := num / den in
  let r := num mod den in
  match 2 * r ?= den with
  | Lt => q
  | Gt => q + 1
  | Eq => if Z.even q then q else q + 1
  end.

(** For [N / D] units of [2^-1074]: the exponent [j] at which the mantissa
    takes 53 bits (0 for a subnormal) and the mantissa [N / (D * 2^j)]
    rounded to nearest, ties to even. *)
Definition nearest_mantissa (N D : Z) : Z * Z :=
  let j := Z.max 0 (Z.log2 (N / D) - 52) in
  (round_half_even N (D * 2 ^ j), j).

(** The double nearest to [N / D] units; a mantissa rounded up to [2^53]
    moves to the next exponent, and a value beyond the largest double
    becomes an infinity. *)
Definition float_of_units (neg : bool) (N D : Z) : spec_float :=
  let (m, j) := nearest_mantissa N D in
  let (m, j) := if m =? 2 ^ 53 then (2 ^ 52, j + 1) else (m, j) in
  match m with
  | Zpos p =>
      if j - 1074 <=? emax - prec then S754_finite neg p (j - 1074)
      else S754_infinity neg
  | _ => S754_zero neg
  end.

(** The double nearest to [num / den] (ties to even), as produced when a
    decimal text is read back as a float. *)
Definition float_of_ratio (neg : bool) (num den : positive) : spec_float :=
  float_of_units neg (Zpos num * 2 ^ 1074) (Zpos den).


(** [|x| * 10^10] rounded to an integer, for [|x| = m * 2^e]. *)
Definition scaled10 (m : positive) (e : Z) : Z :=
  if 0 <=? e
  then Zpos m * 2 ^ e * 10 ^ 10
  else round_half_even (Zpos m * 10 ^ 10) (2 ^ (- e)).

(** [round(x, 10)]: the exact value of [x] is rounded to ten decimals and
    the decimal is read back as a double; infinities and NaN round to
    themselves. *)
Definition round10 (x : spec_float) : spec_float :=
  match x with
  | S754_finite s m e =>
      match scaled10 m e with
      | Zpos n => float_of_ratio s n (10 ^ 10)%positive
      | _ => S754_zero s
      end
  | _ => x
  end.



(** ** Exceptions and results *)

Inductive exn : Type :=
| TypeError (msg : string)
| OperationalError (msg : string)
| DatabaseError (msg : string).

(** [str(e)] *)
Definition exn_str (e : exn) : string :=
  match e with
  | TypeError msg | OperationalError msg | DatabaseError msg => msg
  end.

Inductive result (A : Type) : Type :=
| Ok (a : A)
| Raise (e : exn).
Arguments Ok {A} a.
Arguments Raise {A} e.

(** ** Python values held in a row

    SQLite hands back NULL, integers, reals, text and blobs.  A row given to
    the differ is a [Dict[str, Any]], so a value of an unhashable type
    (list, dict, bytearray) is representable as well; the source only takes
    its type and its [str()]. *)
Inductive value : Type :=
| VNone
| VInt (z : Z)
| VFloat (f : spec_float)
| VStr (s : string)
| VBytes (b : string)
| VUnhashable (type_name : string) (text : string).

Inductive pytype : Type :=
| TNoneType | TInt | TFloat | TStr | TBytes | TOther (name : string).

Definition type_of (v : value) : pytype :=
  match v with
  | VNone => TNoneType
  | VInt _ => TInt
  | VFloat _ => TFloat
  | VStr _ => TStr
  | VBytes _ => TBytes
  | VUnhashable n _ => TOther n
  end.

Definition pytype_eqb (a b : pytype) : bool :=
  match a, b with
  | TNoneType, TNoneType | TInt, TInt | TFloat, TFloat
  | TStr, TStr | TBytes, TBytes => true
  | TOther n, TOther m => String.eqb n m
  | _, _ => false
  end.

(** [type(v).__name__] *)
Definition type_name (t : pytype) : string :=
  match t with
  | TNoneType => "NoneType"
  | TInt => "int"
  | TFloat => "float"
  | TStr => "str"
  | TBytes => "bytes"
  | TOther n => n
  end.

(** *** Equality of values ([==])

    Integers and floats compare by numeric value ([1 == 1.0]); a NaN is
    equal to nothing.  Numbers are compared through the normal form
    [m * 2^e] with [m] odd. *)
Fixpoint strip_twos (m : positive) (e : Z) : positive * Z :=
  match m with
  | xO m' => strip_twos m' (e + 1)
  | _ => (m, e)
  end.

Inductive number : Type :=
| NFinite (m e : Z)
| NInfinity (neg : bool).

Definition number_of_parts (neg : bool) (m : positive) (e : Z) : number :=
  let (m', e') := strip_twos m e in
  NFinite (if neg then Zneg m' else Zpos m') e'.

Definition number_of_Z (z : Z) : number :=
  match z with
  | Z0 => NFinite 0 0
  | Zpos p => number_of_parts false p 0
  | Zneg p => number_of_parts true p 0
  end.

Definition number_of_float (f : spec_float) : option number :=
  match f with
  | S754_zero _ => Some (NFinite 0 0)
  | S754_infinity s => Some (NInfinity s)
  | S754_nan => None
  | S754_finite s m e => Some (number_of_parts s m e)
  end.

Definition number_eqb (a b : number) : bool :=
  match a, b with
  | NFinite m e, NFinite m' e' => (m =? m') && (e =? e')
  | NInfinity s, NInfinity s' => Bool.eqb s s'
  | _, _ => false
  end.

Definition value_number (v : value) : option number :=
  match v with
  | VInt z => Some (number_of_Z z)
  | VFloat f => number_of_float f
  | _ => None
  end.

Definition value_eqb (a b : value) : bool :=
  match a, b with
  | VNone, VNone => true
  | VStr s, VStr t => String.eqb s t
  | VBytes s, VBytes t => String.eqb s t
  | _, _ =>
      match value_number a, value_number b with
      | Some x, Some y => number_eqb x y
      | _, _ => false
      end
  end.

(** [hash(v)] raises for a value of an unhashable type; the text is the one
    CPython gives for [hash([])]. *)
Definition check_hashable (v : value) : result unit :=
  match v with
  | VUnhashable n _ => Raise (TypeError (fstr ["unhashable type: '"; n; "'"]))
  | _ => Ok tt
  end.

(** The class of a value under [==]; a NaN has none. *)
Inductive vclass : Type :=
| CNone
| CNumber (n : number)
| CStr (s : string)
| CBytes (b : string).

Definition value_class (v : value) : option vclass :=
  match v with
  | VNone => Some CNone
  | VInt _ | VFloat _ => option_map CNumber (value_number v)
  | VStr s => Some (CStr s)
  | VBytes b => Some (CBytes b)
  | VUnhashable _ _ => None
  end.

(** ** Hash sets

    A set is kept as the list of its members, one representative per class
    of equal elements.  Adding an element equal to a member leaves the set
    as it is. *)
Section PySet.
Context {A : Type} (eqb : A -> A -> bool).

Definition set_mem (x : A) (s : list A) : bool := existsb (eqb x) s.

Definition set_add (s : list A) (x : A) : list A :=
  if set_mem x s then s else s ++ [x].

Definition set_of_list (l : list A) : list A := fold_left set_add l [].

(** [s - t] *)
Definition set_diff (s t : list A) : list A :=
  filter (fun x => negb (set_mem x t)) s.

(** [s & t] *)
Definition set_inter (s t : list A) : list A :=
  filter (fun x => set_mem x t) s.

Definition set_subset (s t : list A) : bool :=
  forallb (fun x => set_mem x t) s.

Definition count_in (p : A -> bool) (s : list A) : nat := List.length (filter p s).

(** Two sets agree when they have the same members up to equality and
    the same count. *)
Definition agree (p : A -> bool) (s s' : list A) : Prop :=
  (forall z, set_mem z s = set_mem z s') /\ count_in p s = count_in p s'.

End PySet.

Section PySetDistinct.
Context {A : Type} (eqb : A -> A -> bool).

(** No two members of a set are equal. *)
Fixpoint pairwise_distinct (s : list A) : Prop :=
  match s with
  | [] => True
  | x :: s' => (forall y, In y s' -> eqb x y = false) /\ pairwise_distinct s'
  end.

End PySetDistinct.

Definition len {A : Type} (l : list A) : Z := Z.of_nat (List.length l).

(** ** The Python runtime the comparator relies on

    Builtins whose definition lies outside the repository: [str.strip],
    [str()] of a float and of a bytes object, and the order in which a set
    of strings is iterated (unspecified, but each member comes once). *)
Class PyRuntime : Type := {
  py_strip : string -> string;
  py_repr_float : spec_float -> string;
  py_repr_bytes : string -> string;
  py_set_order : list string -> list string;
  py_set_order_perm : forall s, Permutation (py_set_order s) s
}.

(** [l[:k]] for a Python integer [k]; a negative bound counts from the end. *)
Definition slice_to {A : Type} (l : list A) (k : Z) : list A :=
  if 0 <=? k then firstn (Z.to_nat k) l
  else firstn (List.length l - Z.to_nat (- k)) l.

(** [s[:k]] on a string, for a non-negative literal bound. *)
Definition str_slice_to (s : string) (k : nat) : string := substring 0 k s.

Definition string_of_Z (z : Z) : string := NilZero.string_of_int (Z.to_int z).

(** [str(v)] *)
Definition py_str `{PyRuntime} (v : value) : string :=
  match v with
  | VNone => "None"
  | VInt z => string_of_Z z
  | VFloat f => py_repr_float f
  | VStr s => s
  | VBytes b => py_repr_bytes b
  | VUnhashable _ text => text
  end.

(** ** The row-set differ *)

(** A raw row: column name to value, in column order. *)
Definition row : Type := dict value.

(** A normalized row: the frozenset of the (column, value) items. *)
Definition frozenset : Type := list (string * value).

Definition item_eqb (a b : string * value) : bool :=
  String.eqb (fst a) (fst b) && value_eqb (snd a) (snd b).

(** Two frozensets are equal when each contains the other. *)
Definition frozenset_eqb (a b : frozenset) : bool :=
  set_subset item_eqb a b && set_subset item_eqb b a.

(** [frozenset(items)]: every item is hashed as it is added. *)
Fixpoint make_frozenset (items : list (string * value)) (acc : frozenset)
  : result frozenset :=
  match items with
  | [] => Ok acc
  | it :: rest =>
      match check_hashable (snd it) with
      | Raise e => Raise e
      | Ok _ => make_frozenset rest (set_add item_eqb acc it)
      end
  end.

(** The values SQLite hands back: NULL, an integer, a real that is a
    number, text or a blob. *)
Definition storable (v : value) : bool :=
  match v with
  | VUnhashable _ _ => false
  | VFloat S754_nan => false
  | _ => true
  end.

Definition storable_row (r : row) : Prop := forall kv, In kv r -> storable (snd kv) = true.

Section Differ.
Context `{RT : PyRuntime}.

Definition normalize_value (v : value) : value :=
  match v with
  | VNone => VNone
  | VStr s => VStr (py_strip s)
  | VFloat f => VFloat (round10 f)
  | _ => v
  end.

Definition normalize_row (r : row) : result frozenset :=
  let normalized :=
    fold_left (fun normalized kv => dict_set (fst kv) (normalize_value (snd kv)) normalized)
              r [] in
  make_frozenset normalized [].

(** [{normalize_row(row) for row in data}], starting from [acc]. *)
Fixpoint row_set (data : list row) (acc : list frozenset) : result (list frozenset) :=
  match data with
  | [] => Ok acc
  | r :: rest =>
      match normalize_row r with
      | Raise e => Raise e
      | Ok fs => row_set rest (set_add frozenset_eqb acc fs)
      end
  end.

(** The values stored in the result dictionary. *)
Inductive dval : Type :=
| DBool (b : bool)
| DInt (n : Z)
| DStr (s : string).

Definition compare_table_data (data1 data2 : list row) : dict dval :=
  let differences : dict dval :=
    [ ("row_count_match", DBool (len data1 =? len data2));
      ("rows_only_in_db1", DInt 0);
      ("rows_only_in_db2", DInt 0);
      ("modified_rows", DInt 0);
      ("identical_rows", DInt 0);
      ("is_data_identical", DBool false) ] in
  if (len data1 =? 0) && (len data2 =? 0)
  then dict_set "is_data_identical" (DBool true) differences
  else
    match row_set data1 [] with
    | Raise e =>
        let differences := dict_set "comparison_error" (DStr (exn_str e)) differences in
        let differences := dict_set "rows_only_in_db1" (DInt (len data1)) differences in
        dict_set "rows_only_in_db2" (DInt (len data2)) differences
    | Ok data1_set =>
        match row_set data2 [] with
        | Raise e =>
            let differences := dict_set "comparison_error" (DStr (exn_str e)) differences in
            let differences := dict_set "rows_only_in_db1" (DInt (len data1)) differences in
            dict_set "rows_only_in_db2" (DInt (len data2)) differences
        | Ok data2_set =>
            let only_in_db1 := set_diff frozenset_eqb data1_set data2_set in
            let only_in_db2 := set_diff frozenset_eqb data2_set data1_set in
            let identical := set_inter frozenset_eqb data1_set data2_set in
            let differences := dict_set "rows_only_in_db1" (DInt (len only_in_db1)) differences in
            let differences := dict_set "rows_only_in_db2" (DInt (len only_in_db2)) differences in
            let differences := dict_set "identical_rows" (DInt (len identical)) differences in
            dict_set "is_data_identical"
              (DBool ((len only_in_db1 =? 0) && (len only_in_db2 =? 0)
                      && (len data1 =? len data2)))
              differences
        end
    end.

Definition normalize_item (kv : string * value) : string * value :=
  (fst kv, normalize_value (snd kv)).

(** Normalizing every row in turn; the first failure is the one raised. *)
Fixpoint normalize_rows (data : list row) : result (list frozenset) :=
  match data with
  | [] => Ok []
  | r :: rest =>
      match normalize_row r with
      | Raise e => Raise e
      | Ok fs =>
          match normalize_rows rest with
          | Raise e => Raise e
          | Ok l => Ok (fs :: l)
          end
      end
  end.

(** The result dictionary on the fallback path. *)
Definition differences_fallback (data1 data2 : list row) (e : exn) : dict dval :=
  [ ("row_count_match", DBool (len data1 =? len data2));
    ("rows_only_in_db1", DInt (len data1));
    ("rows_only_in_db2", DInt (len data2));
    ("modified_rows", DInt 0);
    ("identical_rows", DInt 0);
    ("is_data_identical", DBool false);
    ("comparison_error", DStr (exn_str e)) ].

(** The result dictionary computed from the two sets of normalized rows. *)
Definition differences_of_sets (data1 data2 : list row) (s1 s2 : list frozenset)
  : dict dval :=
  [ ("row_count_match", DBool (len data1 =? len data2));
    ("rows_only_in_db1", DInt (len (set_diff frozenset_eqb s1 s2)));
    ("rows_only_in_db2", DInt (len (set_diff frozenset_eqb s2 s1)));
    ("modified_rows", DInt 0);
    ("identical_rows", DInt (len (set_inter frozenset_eqb s1 s2)));
    ("is_data_identical",
      DBool ((len (set_diff frozenset_eqb s1 s2) =? 0)
             && (len (set_diff frozenset_eqb s2 s1) =? 0)
             && (len data1 =? len data2))) ].

(** The outcomes of the differ: both inputs empty, a normalization failure,
    or two sets of normalized rows. *)
Inductive differ_outcome (data1 data2 : list row) : dict dval -> Prop :=
| outcome_empty :
    data1 = [] -> data2 = [] ->
    differ_outcome data1 data2
      [ ("row_count_match", DBool true); ("rows_only_in_db1", DInt 0);
        ("rows_only_in_db2", DInt 0); ("modified_rows", DInt 0);
        ("identical_rows", DInt 0); ("is_data_identical", DBool true) ]
| outcome_fallback (r : row) (e : exn) :
    data1 <> [] \/ data2 <> [] ->
    In r (data1 ++ data2) -> normalize_row r = Raise e ->
    differ_outcome data1 data2 (differences_fallback data1 data2 e)
| outcome_sets (l1 l2 : list frozenset) :
    data1 <> [] \/ data2 <> [] ->
    normalize_rows data1 = Ok l1 -> normalize_rows data2 = Ok l2 ->
    differ_outcome data1 data2
      (differences_of_sets data1 data2
         (set_of_list frozenset_eqb l1) (set_of_list frozenset_eqb l2)).

End Differ.

(** ** The catalog reader

    A connection answers the four queries the comparator sends.  Each
    answer is either the fetched data or the exception [sqlite3] raises
    (for instance [OperationalError: no such table] when the table was
    dropped after it had been listed). *)
Record connection : Type := mkConnection {
  conn_db : string;
  (* SELECT name FROM sqlite_master WHERE type='table' AND name NOT LIKE 'sqlite_%' *)
  q_table_names : result (list string);
  (* PRAGMA table_info([t]) *)
  q_table_info : string -> result (list column);
  (* SELECT COUNT( * ) FROM [t] *)
  q_count : string -> result Z;
  (* SELECT * FROM [t]: the column names of cursor.description and the rows *)
  q_select_all : string -> result (list string * list (list value))
}.

Inductive query : Type :=
| QTableNames
| QTableInfo (table_name : string)
| QCount (table_name : string)
| QSelectAll (table_name : string).

(** A query sent to the database at [ev_db]. *)
Record event : Type := mkEvent { ev_db : string; ev_query : query }.

(** Computations that send queries and may raise: the queries sent so far
    and the outcome. *)
Definition M (A : Type) : Type := list event * result A.

Definition ret {A : Type} (a : A) : M A := ([], Ok a).

Definition bind {A B : Type} (m : M A) (f : A -> M B) : M B :=
  match m with
  | (t, Ok a) => let (t', r) := f a in (t ++ t', r)
  | (t, Raise e) => (t, Raise e)
  end.

Notation "x <- m ;; k" := (bind m (fun x => k))
  (at level 61, m at next level, right associativity).

Definition execute {A : Type} (conn : connection) (q : query) (answer : result A) : M A :=
  ([mkEvent (conn_db conn) q], answer).

Definition get_table_names (conn : connection) : M (list string) :=
  rows <- execute conn QTableNames (q_table_names conn) ;;
  ret (set_of_list String.eqb rows).

Definition get_table_schema (conn : connection) (table_name : string) : M (list column) :=
  execute conn (QTableInfo table_name) (q_table_info conn table_name).

Definition get_row_count (conn : connection) (table_name : string) : M Z :=
  execute conn (QCount table_name) (q_count conn table_name).

(** [[dict(zip(columns, row)) for row in cursor.fetchall()]] *)
Definition rows_of_fetch (fetched : list string * list (list value)) : list row :=
  let columns := fst fetched in
  map (fun r => dict_of_items (combine columns r)) (snd fetched).

Definition get_table_data (conn : connection) (table_name : string) : M (list row) :=
  fetched <- execute conn (QSelectAll table_name) (q_select_all conn table_name) ;;
  ret (rows_of_fetch fetched).

(** The table a query is about. *)
Definition query_table (q : query) : option string :=
  match q with
  | QTableNames => None
  | QTableInfo t | QCount t | QSelectAll t => Some t
  end.

(** Whether a query reads the rows of a table. *)
Definition is_select_all (ev : event) : bool :=
  match ev_query ev with
  | QSelectAll _ => true
  | _ => false
  end.

(** The four queries every table comparison starts with. *)
Definition schema_and_count_queries (conn1 conn2 : connection) (name : string)
  : list event :=
  [ mkEvent (conn_db conn1) (QTableInfo name);
    mkEvent (conn_db conn2) (QTableInfo name);
    mkEvent (conn_db conn1) (QCount name);
    mkEvent (conn_db conn2) (QCount name) ].


(** ** The table comparator *)

Record TableComparison : Type := mkTableComparison {
  table_name : string;
  exists_in_db1 : bool;
  exists_in_db2 : bool;
  schema_match : bool;
  row_count_db1 : Z;
  row_count_db2 : Z;
  schema_diff : list string;
  data_differences : dict dval;
  is_identical : bool
}.

(** [TableComparison(table_name=...)] with the dataclass defaults. *)
Definition new_TableComparison (name : string) : TableComparison :=
  mkTableComparison name true true true 0 0 [] [] true.

(** Truth value of an entry of the result dictionary. *)
Definition dval_truth (v : dval) : bool :=
  match v with
  | DBool b => b
  | DInt n => negb (n =? 0)
  | DStr s => negb (String.eqb s "")
  end.

Section Comparator.
Context `{RT : PyRuntime}.

Definition compare_table (conn1 conn2 : connection) (name : string) : M TableComparison :=
  let comparison := new_TableComparison name in
  schema1 <- get_table_schema conn1 name ;;
  schema2 <- get_table_schema conn2 name ;;
  let sm := compare_schemas schema1 schema2 in
  count1 <- get_row_count conn1 name ;;
  count2 <- get_row_count conn2 name ;;
  differences <-
    (if fst sm
     then data1 <- get_table_data conn1 name ;;
          data2 <- get_table_data conn2 name ;;
          ret (compare_table_data data1 data2)
     else ret (data_differences comparison)) ;;
  ret {| table_name := table_name comparison;
         exists_in_db1 := exists_in_db1 comparison;
         exists_in_db2 := exists_in_db2 comparison;
         schema_match := fst sm;
         row_count_db1 := count1;
         row_count_db2 := count2;
         schema_diff := snd sm;
         data_differences := differences;
         is_identical :=
           fst sm && (count1 =? count2)
           && match dict_get "is_data_identical" differences with
              | Some v => dval_truth v
              | None => false
              end |}.

(** ** The database comparator *)

(** The source names the verdict [is_identical] in both dataclasses; the
    database-level one is [db_is_identical] here. *)
Record DatabaseComparison : Type := mkDatabaseComparison {
  db1_path : string;
  db2_path : string;
  tables_only_in_db1 : list string;
  tables_only_in_db2 : list string;
  common_tables : list string;
  table_comparisons : dict TableComparison;
  db_is_identical : bool
}.

Definition set_is_identical (c : DatabaseComparison) (b : bool) : DatabaseComparison :=
  {| db1_path := db1_path c; db2_path := db2_path c;
     tables_only_in_db1 := tables_only_in_db1 c;
     tables_only_in_db2 := tables_only_in_db2 c;
     common_tables := common_tables c;
     table_comparisons := table_comparisons c;
     db_is_identical := b |}.

Definition set_table_comparison (c : DatabaseComparison) (name : string)
  (tc : TableComparison) : DatabaseComparison :=
  {| db1_path := db1_path c; db2_path := db2_path c;
     tables_only_in_db1 := tables_only_in_db1 c;
     tables_only_in_db2 := tables_only_in_db2 c;
     common_tables := common_tables c;
     table_comparisons := dict_set name tc (table_comparisons c);
     db_is_identical := db_is_identical c |}.

(** One turn of [for table_name in comparison.common_tables]. *)
Definition compare_step (conn1 conn2 : connection) (comparison : DatabaseComparison)
  (name : string) : M DatabaseComparison :=
  table_comp <- compare_table conn1 conn2 name ;;
  let comparison := set_table_comparison comparison name table_comp in
  ret (if negb (is_identical table_comp)
       then set_is_identical comparison false
       else comparison).

(** The loop over the tables still to visit. *)
Fixpoint compare_loop (conn1 conn2 : connection) (names : list string)
  (comparison : DatabaseComparison) : M DatabaseComparison :=
  match names with
  | [] => ret comparison
  | name :: rest =>
      comparison' <- compare_step conn1 conn2 comparison name ;;
      compare_loop conn1 conn2 rest comparison'
  end.

(** The check after the loop: tables on one side only. *)
Definition asymmetry_check (comparison : DatabaseComparison) : DatabaseComparison :=
  if negb (len (tables_only_in_db1 comparison) =? 0)
     || negb (len (tables_only_in_db2 comparison) =? 0)
  then set_is_identical comparison false
  else comparison.

(** The comparison record once the table sets are known, before the loop. *)
Definition classify_tables (conn1 conn2 : connection) (tables1 tables2 : list string)
  : DatabaseComparison :=
  {| db1_path := conn_db conn1; db2_path := conn_db conn2;
     tables_only_in_db1 := set_diff String.eqb tables1 tables2;
     tables_only_in_db2 := set_diff String.eqb tables2 tables1;
     common_tables := set_inter String.eqb tables1 tables2;
     table_comparisons := [];
     db_is_identical := true |}.

Definition compare_databases (conn1 conn2 : connection) : M DatabaseComparison :=
  tables1 <- get_table_names conn1 ;;
  tables2 <- get_table_names conn2 ;;
  let comparison := classify_tables conn1 conn2 tables1 tables2 in
  comparison <- compare_loop conn1 conn2 (py_set_order (common_tables comparison)) comparison ;;
  ret (asymmetry_check comparison).

(** The outcome of comparing one table, when it returns. *)
Definition table_result (conn1 conn2 : connection) (name : string)
  : option TableComparison :=
  match snd (compare_table conn1 conn2 name) with
  | Ok tc => Some tc
  | Raise _ => None
  end.

Definition verdict_of (r : option TableComparison) : bool :=
  match r with
  | Some tc => is_identical tc
  | None => true
  end.

End Comparator.

(** ** The difference analyzer *)

Record type_mismatch : Type := mkTypeMismatch {
  tm_column : string;
  tm_value : string;
  tm_type_db1 : string;
  tm_type_db2 : string;
  tm_sample_row : dict string
}.

Record analysis : Type := mkAnalysis {
  type_mismatches : list type_mismatch;
  value_mismatches : list (dict string);
  sample_rows_db1_only : list (dict string);
  sample_rows_db2_only : list (dict string);
  is_type_only_difference : bool
}.

(** [row.get(col)] *)
Definition row_get (col : string) (r : row) : value :=
  match dict_get col r with
  | Some v => v
  | None => VNone
  end.

Section Analyzer.
Context `{RT : PyRuntime}.

(** ["|".join(str(v) if v is not None else "NULL" for v in row.values())] *)
Definition create_lookup_key (r : row) : string :=
  String.concat "|"
    (map (fun v => match v with VNone => "NULL" | _ => py_str v end) (dict_values r)).

(** [{create_lookup_key(row): row for row in data}] *)
Definition rows_by_key (data : list row) : dict row :=
  dict_of_items (map (fun r => (create_lookup_key r, r)) data).

(** [str(val1) == str(val2) and type(val1) != type(val2)] *)
Definition type_differs (val1 val2 : value) : bool :=
  String.eqb (py_str val1) (py_str val2)
  && negb (pytype_eqb (type_of val1) (type_of val2)).

(** [{k: str(v)[:50] for k, v in row1.items()}] *)
Definition sample_row_50 (r : row) : dict string :=
  dict_of_items (map (fun kv => (fst kv, str_slice_to (py_str (snd kv)) 50)) r).

(** [{k: str(v)[:100] if v is not None else "NULL" for k, v in row.items()}] *)
Definition sample_row_100 (r : row) : dict string :=
  dict_of_items
    (map (fun kv => (fst kv,
                     match snd kv with
                     | VNone => "NULL"
                     | v => str_slice_to (py_str v) 100
                     end)) r).

(** The body of [for col in columns]; the state is the mismatch counter and
    the recorded samples. *)
Definition check_column (max_samples : Z) (row1 row2 : row)
  (st : Z * list type_mismatch) (col : string) : Z * list type_mismatch :=
  let val1 := row_get col row1 in
  let val2 := row_get col row2 in
  if type_differs val1 val2
  then
    let type_mismatch_count := fst st + 1 in
    if len (snd st) <? max_samples
    then (type_mismatch_count,
          snd st ++ [ {| tm_column := col;
                         tm_value := py_str val1;
                         tm_type_db1 := type_name (type_of val1);
                         tm_type_db2 := type_name (type_of val2);
                         tm_sample_row := sample_row_50 row1 |} ])
    else (type_mismatch_count, snd st)
  else st.

(** The body of [for key1, row1 in ...]. *)
Definition check_row (max_samples : Z) (columns : list string) (data2_by_key : dict row)
  (st : Z * list type_mismatch) (item : string * row) : Z * list type_mismatch :=
  match dict_get (fst item) data2_by_key with
  | Some row2 => fold_left (check_column max_samples (snd item) row2) columns st
  | None => st
  end.

Definition analyze_row_differences (data1 data2 : list row) (table : string)
  (max_samples : Z) : analysis :=
  let empty := mkAnalysis [] [] [] [] false in
  match data1, data2 with
  | [], _ | _, [] => empty
  | first :: _, _ :: _ =>
      let columns := dict_keys first in
      let data1_by_key := rows_by_key data1 in
      let data2_by_key := rows_by_key data2 in
      let st :=
        fold_left (check_row max_samples columns data2_by_key)
                  (slice_to data1_by_key (max_samples * 2)) (0, []) in
      let keys1 := set_of_list String.eqb (dict_keys data1_by_key) in
      let keys2 := set_of_list String.eqb (dict_keys data2_by_key) in
      let keys1_only := set_diff String.eqb keys1 keys2 in
      let keys2_only := set_diff String.eqb keys2 keys1 in
      let samples1 :=
        map (fun key => match dict_get key data1_by_key with
                        | Some r => sample_row_100 r
                        | None => []
                        end)
            (slice_to (py_set_order keys1_only) max_samples) in
      let samples2 :=
        map (fun key => match dict_get key data2_by_key with
                        | Some r => sample_row_100 r
                        | None => []
                        end)
            (slice_to (py_set_order keys2_only) max_samples) in
      {| type_mismatches := snd st;
         value_mismatches := [];
         sample_rows_db1_only := samples1;
         sample_rows_db2_only := samples2;
         is_type_only_difference :=
           (0 <? len (snd st)) && (len keys1_only =? 0) && (len keys2_only =? 0) |}
  end.

(** The columns the type pass looks at: those of the first row of side 1. *)
Definition columns_of (data1 : list row) : list string :=
  match data1 with
  | first :: _ => dict_keys first
  | [] => []
  end.

(** Some column holds textually equal values of different types. *)
Definition row_has_mismatch (columns : list string) (row1 row2 : row) : bool :=
  existsb (fun col => type_differs (row_get col row1) (row_get col row2)) columns.

Definition item_has_mismatch (columns : list string) (data2_by_key : dict row)
  (item : string * row) : bool :=
  match dict_get (fst item) data2_by_key with
  | Some row2 => row_has_mismatch columns (snd item) row2
  | None => false
  end.

Definition recorded (st : Z * list type_mismatch) : bool := 0 <? len (snd st).

(** A recorded mismatch between [row1] and [row2]. *)
Definition mismatch_of (row1 row2 : row) (col : string) : type_mismatch :=
  {| tm_column := col;
     tm_value := py_str (row_get col row1);
     tm_type_db1 := type_name (type_of (row_get col row1));
     tm_type_db2 := type_name (type_of (row_get col row2));
     tm_sample_row := sample_row_50 row1 |}.

Definition genuine (data1 data2 : list row) (tm : type_mismatch) : Prop :=
  exists row1 row2 col,
    In row1 data1 /\ In row2 data2
    /\ create_lookup_key row1 = create_lookup_key row2
    /\ In col (columns_of data1)
    /\ type_differs (row_get col row1) (row_get col row2) = true
    /\ tm = mismatch_of row1 row2 col.

End Analyzer.

(** ** The console report

    [display_results] and [display_detailed_differences] hand panels,
    tables and trees to [rich]'s console.  An object is recorded with the
    arguments its constructor and its [add_column], [add_row] and [add]
    calls were given; how [rich] draws it is outside the repository.  The
    texts are the string literals of the source file, byte for byte. *)
Inductive box : Type :=
| DOUBLE | ROUNDED | HEAVY_EDGE | HEAVY_HEAD | SIMPLE | DOUBLE_EDGE.

(** [Text(text, justify=..., style=...)] *)
Record Text : Type := mkText {
  text_text : string;
  text_justify : string;
  text_style : string
}.

Inductive panel_content : Type :=
| OfText (t : Text)
| OfStr (s : string).

(** [Panel(renderable, style=..., box=..., title=...)]; a keyword that the
    call leaves out is [None]. *)
Record Panel : Type := mkPanel {
  panel_renderable : panel_content;
  panel_style : string;
  panel_box : option box;
  panel_title : option string
}.

(** [add_column(header, style=..., justify=..., width=...)] *)
Record TableColumn : Type := mkTableColumn {
  column_header : string;
  column_style : option string;
  column_justify : option string;
  column_width : option Z
}.

(** [Table(title=..., show_header=..., box=..., border_style=...)] with the
    columns and the rows added so far. *)
Record Table : Type := mkTable {
  tbl_title : option string;
  tbl_show_header : option bool;
  tbl_box : option box;
  tbl_border_style : option string;
  tbl_columns : list TableColumn;
  tbl_rows : list (list string)
}.

Definition new_Table (title : option string) (show_header : option bool)
  (box : option box) (border_style : option string) : Table :=
  mkTable title show_header box border_style [] [].

Definition add_column (header : string) (style justify : option string) (width : option Z)
  (t : Table) : Table :=
  {| tbl_title := tbl_title t; tbl_show_header := tbl_show_header t;
     tbl_box := tbl_box t; tbl_border_style := tbl_border_style t;
     tbl_columns := tbl_columns t ++ [mkTableColumn header style justify width];
     tbl_rows := tbl_rows t |}.

Definition add_row (cells : list string) (t : Table) : Table :=
  {| tbl_title := tbl_title t; tbl_show_header := tbl_show_header t;
     tbl_box := tbl_box t; tbl_border_style := tbl_border_style t;
     tbl_columns := tbl_columns t;
     tbl_rows := tbl_rows t ++ [cells] |}.

(** [table.row_count] *)
Definition row_count (t : Table) : Z := len (tbl_rows t).

(** [Tree(label)] with the nodes added under it, in the order of the
    [add] calls. *)
#[warnings="-register-all"] Inductive Tree : Type :=
| Node (label : string) (children : list Tree).

Inductive renderable : Type :=
| Str (s : string)
| APanel (p : Panel)
| ATable (t : Table)
| ATree (t : Tree).

(** Calls into [tkinter]; a file dialog is recorded by its title. *)
Inductive gui : Type :=
| TkRoot
| Withdraw
| Topmost
| AskOpenFilename (title : string)
| Destroy.

(** What the display methods and [main] do, in order: an object printed on
    the console ([None] for a bare [print()]), a query sent to a database,
    the spinner of [console.status], a call into [tkinter], the traceback
    printed by [traceback.print_exc]. *)
Inductive action : Type :=
| ConsolePrint (object : option renderable)
| Query (ev : event)
| Status (text spinner : string)
| Gui (call : gui)
| Traceback.

(** The exceptions of the display path: the ones of the comparison, a
    missing dictionary key, a missing database file. *)
Inductive failure : Type :=
| Raised (e : exn)
| KeyError (key : string)
| FileNotFoundError (msg : string).

Inductive outcome (A : Type) : Type :=
| Done (a : A)
| Fails (f : failure).
Arguments Done {A} a.
Arguments Fails {A} f.

(** Computations that act on the console and the databases and may raise. *)
Definition IO (A : Type) : Type := list action * outcome A.

Definition io_ret {A : Type} (a : A) : IO A := ([], Done a).

Definition io_bind {A B : Type} (m : IO A) (f : A -> IO B) : IO B :=
  match m with
  | (t, Done a) => let (t', r) := f a in (t ++ t', r)
  | (t, Fails e) => (t, Fails e)
  end.

Notation "x <~ m ;; k" := (io_bind m (fun x => k))
  (at level 61, m at next level, right associativity).
Notation "m ;;; k" := (io_bind m (fun _ => k))
  (at level 61, right associativity).

(** [console.print(object)] and [console.print()] *)
Definition print (object : renderable) : IO unit := ([ConsolePrint (Some object)], Done tt).
Definition print_line : IO unit := ([ConsolePrint None], Done tt).

Definition raise {A : Type} (f : failure) : IO A := ([], Fails f).

(** A catalog computation run from a display method. *)
Definition run_query {A : Type} (m : M A) : IO A :=
  (map Query (fst m),
   match snd m with
   | Ok a => Done a
   | Raise e => Fails (Raised e)
   end).

(** [for x in l: body(x)] *)
Fixpoint for_each {A : Type} (l : list A) (body : A -> IO unit) : IO unit :=
  match l with
  | [] => io_ret tt
  | x :: rest => body x ;;; for_each rest body
  end.

(** A loop that threads a value (a table or a list being built). *)
Fixpoint for_fold {A S : Type} (l : list A) (body : S -> A -> IO S) (s : S) : IO S :=
  match l with
  | [] => io_ret s
  | x :: rest => s' <~ body s x ;; for_fold rest body s'
  end.

(** *** Python helpers of the display code *)

Definition nl : string := String (ascii_of_nat 10) EmptyString.

(** [d[key]] *)
Definition getitem {V : Type} (d : dict V) (key : string) : IO V :=
  match dict_get key d with
  | Some v => io_ret v
  | None => raise (KeyError key)
  end.

(** [s or default] on strings *)
Definition or_else (s default : string) : string :=
  if String.eqb s "" then default else s.

(** [sorted(iterable)] on strings: an insertion sort by code points (on
    UTF-8 text, the order of the bytes). *)
Fixpoint insert_sorted (x : string) (l : list string) : list string :=
  match l with
  | [] => [x]
  | y :: rest => if String.leb x y then x :: l else y :: insert_sorted x rest
  end.

Definition sorted (l : list string) : list string :=
  fold_right insert_sorted [] l.

(** [s | t] on sets of strings *)
Definition set_union (s t : list string) : list string :=
  fold_left (set_add String.eqb) t s.

(** [c * n] *)
Definition repeat_string (c : string) (n : nat) : string :=
  String.concat "" (repeat c n).

(** [range(n)] *)
Definition range (n : Z) : list Z := map Z.of_nat (seq 0 (Z.to_nat n)).

(** [f"{v}"] of a value of the result dictionary *)
Definition dval_format (v : dval) : string :=
  match v with
  | DBool true => "True"
  | DBool false => "False"
  | DInt n => string_of_Z n
  | DStr s => s
  end.

(** [v > 0]: a text against an integer raises. *)
Definition dval_positive (v : dval) : IO bool :=
  match v with
  | DBool b => io_ret b
  | DInt n => io_ret (0 <? n)
  | DStr _ =>
      raise (Raised (TypeError "'>' not supported between instances of 'str' and 'int'"))
  end.

(** [diff_data.get(key, 0) > 0] *)
Definition get_positive (diff_data : dict dval) (key : string) : IO bool :=
  match dict_get key diff_data with
  | Some v => dval_positive v
  | None => io_ret false
  end.

(** [f"{diff_data.get(key, 0)}"] *)
Definition get_format (diff_data : dict dval) (key : string) : string :=
  match dict_get key diff_data with
  | Some v => dval_format v
  | None => "0"
  end.

(** [[name for name, comp in comparison.table_comparisons.items()
      if not comp.is_identical]] *)
Definition non_identical_tables (comparison : DatabaseComparison) : list string :=
  map fst (filter (fun item => negb (is_identical (snd item)))
             (table_comparisons comparison)).

(** One of the repeated blocks
    [if diff_data.get(key, 0) > 0: table.add_row(label, f"{open}{diff_data[key]}{close}")]. *)
Definition add_count_row (diff_data : dict dval) (key label open close : string)
  (t : Table) : IO Table :=
  positive <~ get_positive diff_data key ;;
  if positive
  then v <~ getitem diff_data key ;;
       io_ret (add_row [label; fstr [open; dval_format v; close]] t)
  else io_ret t.

(** *** [display_detailed_differences] *)

(** The cell shown for the value of a type mismatch. *)
Definition mismatch_value (value : string) : string :=
  if (30 <? String.length value)%nat then (str_slice_to value 30 ++ "...")%string else value.

Definition type_table_of (mismatches : list type_mismatch) : Table :=
  let type_table :=
    new_Table (Some "Data Type Mismatches - Side by Side") None (Some HEAVY_HEAD)
      (Some "yellow") in
  let type_table := add_column "Column" (Some "bold yellow") None (Some 20) type_table in
  let type_table := add_column "Sample Value" (Some "white") None (Some 30) type_table in
  let type_table := add_column "DB1 Type" (Some "cyan") (Some "center") (Some 15) type_table in
  let type_table :=
    add_column "DB2 Type" (Some "magenta") (Some "center") (Some 15) type_table in
  let type_table := add_column "Match?" None (Some "center") (Some 10) type_table in
  fold_left (fun type_table mismatch =>
               add_row [ tm_column mismatch;
                         mismatch_value (tm_value mismatch);
                         fstr ["[cyan]"; tm_type_db1 mismatch; "[/cyan]"];
                         fstr ["[magenta]"; tm_type_db2 mismatch; "[/magenta]"];
                         "[yellow]Type â‰ [/yellow]" ] type_table)
            mismatches type_table.

Definition missing : string := "[dim]<missing>[/dim]".

(** Values longer than 35 are cut to 32 and an ellipsis. *)
Definition truncate_value (val : string) : string :=
  if (35 <? String.length val)%nat then (str_slice_to val 32 ++ "...")%string else val.

(** The row of the side-by-side table for one column. *)
Definition comparison_row (row_db1 row_db2 : dict string) (col : string) : list string :=
  let val_db1 := match dict_get col row_db1 with Some v => v | None => missing end in
  let val_db2 := match dict_get col row_db2 with Some v => v | None => missing end in
  let val_db1 := truncate_value val_db1 in
  let val_db2 := truncate_value val_db2 in
  if String.eqb val_db1 missing
  then [col; ("[red]" ++ val_db1 ++ "[/red]")%string;
        ("[green]" ++ val_db2 ++ "[/green]")%string;
        "[red]DB1 âœ—[/red]"]
  else if String.eqb val_db2 missing
  then [col; ("[green]" ++ val_db1 ++ "[/green]")%string;
        ("[red]" ++ val_db2 ++ "[/red]")%string;
        "[red]DB2 âœ—[/red]"]
  else if String.eqb val_db1 val_db2
  then [col; val_db1; val_db2; "[green]âœ“[/green]"]
  else [col; ("[yellow]" ++ val_db1 ++ "[/yellow]")%string;
        ("[yellow]" ++ val_db2 ++ "[/yellow]")%string;
        "[red]â‰ [/red]"].

Definition comparison_table_of (all_columns : list string)
  (sample_rows_db1_only sample_rows_db2_only : list (dict string)) (idx : Z) : Table :=
  let comparison_table :=
    new_Table (Some (fstr ["Row Comparison #"; string_of_Z (idx + 1)])) (Some true)
      (Some HEAVY_EDGE) (Some "red") in
  let comparison_table :=
    add_column "Column" (Some "bold white") None (Some 25) comparison_table in
  let comparison_table :=
    add_column "DB1 Value" (Some "cyan") None (Some 35) comparison_table in
  let comparison_table :=
    add_column "DB2 Value" (Some "magenta") None (Some 35) comparison_table in
  let comparison_table :=
    add_column "Status" None (Some "center") (Some 10) comparison_table in
  let row_db1 :=
    if idx <? len sample_rows_db1_only
    then nth (Z.to_nat idx) sample_rows_db1_only [] else [] in
  let row_db2 :=
    if idx <? len sample_rows_db2_only
    then nth (Z.to_nat idx) sample_rows_db2_only [] else [] in
  fold_left (fun comparison_table col =>
               add_row (comparison_row row_db1 row_db2 col) comparison_table)
            all_columns comparison_table.

Section Report.
Context `{RT : PyRuntime}.

(** [repr()] of a text, a builtin. *)
Variable py_repr : string -> string.

(** The part of the loop body under "Display type mismatches". *)
Definition display_type_mismatches (analysis : analysis) : IO unit :=
  match type_mismatches analysis with
  | [] => io_ret tt
  | _ =>
      print (APanel
               (mkPanel
                  (OfStr (fstr ["[bold yellow]âš  DATA TYPE DIFFERENCES DETECTED[/bold yellow]";
                                nl;
                                "[yellow]Values are identical but stored as different data types[/yellow]"]))
                  "yellow" (Some ROUNDED) (Some "Type Mismatch Warning"))) ;;;
      print (ATable (type_table_of (type_mismatches analysis))) ;;;
      print_line
  end.

(** The part under "Display side-by-side row comparisons". *)
Definition display_row_comparisons (analysis : analysis) : IO unit :=
  if negb (len (sample_rows_db1_only analysis) =? 0)
     || negb (len (sample_rows_db2_only analysis) =? 0)
  then
    (if negb (is_type_only_difference analysis)
     then print (APanel
                   (mkPanel
                      (OfStr (fstr ["[bold red]âœ— ACTUAL DATA DIFFERENCES DETECTED[/bold red]";
                                    nl;
                                    "[red]Rows exist in one database but not the other[/red]"]))
                      "red" (Some ROUNDED) (Some "Data Mismatch Error")))
     else io_ret tt) ;;;
    let all_columns :=
      fold_left (fun all_columns row =>
                   fold_left (set_add String.eqb) (dict_keys row) all_columns)
                (sample_rows_db1_only analysis ++ sample_rows_db2_only analysis) [] in
    let all_columns := sorted (py_set_order all_columns) in
    let max_rows :=
      Z.max (len (sample_rows_db1_only analysis)) (len (sample_rows_db2_only analysis)) in
    if 0 <? max_rows
    then
      print (Str (fstr [nl; "[bold white]Side-by-Side Row Comparison:[/bold white]"])) ;;;
      print (Str (fstr ["[dim]Showing up to "; string_of_Z max_rows;
                        " sample rows[/dim]"; nl])) ;;;
      for_each (range max_rows)
        (fun idx =>
           print (ATable (comparison_table_of all_columns
                            (sample_rows_db1_only analysis)
                            (sample_rows_db2_only analysis) idx)) ;;;
           print_line)
    else io_ret tt
  else io_ret tt.

(** The panel of the conclusion for one table. *)
Definition conclusion_panel (analysis : analysis) : Panel :=
  let conclusion :=
    if is_type_only_difference analysis
    then (fstr ["[bold yellow]âœ“ CONCLUSION:[/bold yellow] ";
                "[yellow]All data values are identical. ";
                "Differences are only in data types (e.g., string vs integer).[/yellow]"],
          "yellow")
    else (fstr ["[bold red]âœ— CONCLUSION:[/bold red] ";
                "[red]Actual data differences exist beyond just data types.[/red]"],
          "red") in
  mkPanel (OfStr (fst conclusion)) (snd conclusion) (Some ROUNDED) None.

(** The part under "Summary for this table" and "Conclusion for this
    table". *)
Definition display_table_summary (table_name : string) (table_comp : TableComparison)
  (analysis : analysis) : IO unit :=
  let summary_table :=
    new_Table (Some (fstr ["Summary for "; table_name])) (Some true) (Some DOUBLE_EDGE)
      None in
  let summary_table := add_column "Metric" (Some "bold") None None summary_table in
  let summary_table := add_column "Count" None (Some "right") None summary_table in
  let summary_table :=
    add_row ["Total Rows in DB1";
             fstr ["[cyan]"; string_of_Z (row_count_db1 table_comp); "[/cyan]"]]
      summary_table in
  let summary_table :=
    add_row ["Total Rows in DB2";
             fstr ["[magenta]"; string_of_Z (row_count_db2 table_comp); "[/magenta]"]]
      summary_table in
  summary_table <~
    (match data_differences table_comp with
     | [] => io_ret summary_table
     | diff_data =>
         summary_table <~ add_count_row diff_data "identical_rows" "Identical Rows"
                            "[green]" "[/green]" summary_table ;;
         summary_table <~ add_count_row diff_data "rows_only_in_db1" "Rows Only in DB1"
                            "[red]" "[/red]" summary_table ;;
         add_count_row diff_data "rows_only_in_db2" "Rows Only in DB2"
           "[red]" "[/red]" summary_table
     end) ;;
  print (ATable summary_table) ;;;
  print (APanel (conclusion_panel analysis)) ;;;
  print_line.

(** The body of [for table_name in sorted(non_identical_tables)] of
    [display_detailed_differences]. *)
Definition display_table_differences (conn1 conn2 : connection)
  (comparison : DatabaseComparison) (table_name : string) : IO unit :=
  table_comp <~ getitem (table_comparisons comparison) table_name ;;
  print (Str (fstr [nl; "[bold yellow]"; repeat_string "=" 100; "[/bold yellow]"])) ;;;
  print (Str (fstr ["[bold cyan]ðŸ“‹ Table: "; table_name; "[/bold cyan]"])) ;;;
  print (Str (fstr ["[bold yellow]"; repeat_string "=" 100; "[/bold yellow]"; nl])) ;;;
  data1 <~ run_query (get_table_data conn1 table_name) ;;
  data2 <~ run_query (get_table_data conn2 table_name) ;;
  let analysis := analyze_row_differences data1 data2 table_name 10 in
  display_type_mismatches analysis ;;;
  display_row_comparisons analysis ;;;
  display_table_summary table_name table_comp analysis.

(** [conn1] and [conn2] are the connections the method opens with
    [get_connection] on the two paths of the comparator. *)
Definition display_detailed_differences (conn1 conn2 : connection)
  (comparison : DatabaseComparison) : IO unit :=
  let non_identical_tables := non_identical_tables comparison in
  match non_identical_tables with
  | [] => io_ret tt
  | _ =>
      print (Str nl) ;;;
      print (APanel
               (mkPanel
                  (OfStr "ðŸ” Detailed Difference Analysis - Side by Side Comparison")
                  "bold cyan" (Some DOUBLE) None)) ;;;
      for_each (sorted non_identical_tables)
        (display_table_differences conn1 conn2 comparison)
  end.

(** *** [display_results] *)

(** The body of [for table_name in sorted(comparison.common_tables)]. *)
Definition display_table (comparison : DatabaseComparison) (table_name : string)
  : IO unit :=
  table_comp <~ getitem (table_comparisons comparison) table_name ;;
  let border_style := if is_identical table_comp then "green" else "red" in
  let status_symbol := if is_identical table_comp then "âœ“" else "âœ—" in
  let status_text := if is_identical table_comp then "IDENTICAL" else "DIFFERENCES FOUND" in
  let details_table :=
    new_Table (Some (fstr [status_symbol; " Table: "; table_name; " - "; status_text]))
      (Some true) (Some HEAVY_HEAD) (Some border_style) in
  let details_table := add_column "Property" (Some "bold") None None details_table in
  let details_table := add_column "DB1" None (Some "right") None details_table in
  let details_table := add_column "DB2" None (Some "right") None details_table in
  let details_table := add_column "Status" None (Some "center") None details_table in
  let row_status :=
    if row_count_db1 table_comp =? row_count_db2 table_comp then "âœ“" else "âœ—" in
  let row_style :=
    if row_count_db1 table_comp =? row_count_db2 table_comp then "green" else "red" in
  let details_table :=
    add_row ["Row Count";
             string_of_Z (row_count_db1 table_comp);
             string_of_Z (row_count_db2 table_comp);
             fstr ["["; row_style; "]"; row_status; "[/"; row_style; "]"]]
      details_table in
  let schema_status := if schema_match table_comp then "âœ“" else "âœ—" in
  let schema_style := if schema_match table_comp then "green" else "red" in
  let details_table :=
    add_row ["Schema Match"; "-"; "-";
             fstr ["["; schema_style; "]"; schema_status; "[/"; schema_style; "]"]]
      details_table in
  print (ATable details_table) ;;;
  (match schema_diff table_comp with
   | [] => io_ret tt
   | _ =>
       print (APanel
                (mkPanel
                   (OfStr (String.concat nl
                             (map (fun diff => fstr ["â€¢ "; diff])
                                (schema_diff table_comp))))
                   "red" (Some ROUNDED) (Some "Schema Differences")))
   end) ;;;
  (match data_differences table_comp with
   | [] => io_ret tt
   | diff_data =>
       let data_table := new_Table None (Some true) (Some SIMPLE) None in
       let data_table := add_column "Metric" (Some "bold") None None data_table in
       let data_table := add_column "Count" None (Some "right") None data_table in
       data_table <~ add_count_row diff_data "identical_rows"
                       "[green]Identical Rows[/green]" "[green]" "[/green]" data_table ;;
       data_table <~ add_count_row diff_data "rows_only_in_db1"
                       "[red]Rows only in DB1[/red]" "[red]" "[/red]" data_table ;;
       data_table <~ add_count_row diff_data "rows_only_in_db2"
                       "[red]Rows only in DB2[/red]" "[red]" "[/red]" data_table ;;
       if 0 <? row_count data_table then print (ATable data_table) else io_ret tt
   end) ;;;
  print_line.

(** The node of the summary tree for one table with differences. *)
Definition table_node_of (comparison : DatabaseComparison) (table_name : string)
  : IO Tree :=
  table_comp <~ getitem (table_comparisons comparison) table_name ;;
  let schema_nodes :=
    if negb (schema_match table_comp)
    then [ Node "[red]âš  Schema mismatch[/red]"
             (map (fun diff => Node (fstr ["[red]â€¢ "; diff; "[/red]"]) [])
                  (firstn 3 (schema_diff table_comp))
              ++ (if 3 <? len (schema_diff table_comp)
                  then [ Node (fstr ["[red]â€¢ ... and ";
                                     string_of_Z (len (schema_diff table_comp) - 3);
                                     " more[/red]"]) [] ]
                  else [])) ]
    else [] in
  let count_nodes :=
    if negb (row_count_db1 table_comp =? row_count_db2 table_comp)
    then [ Node (fstr ["[red]âš  Row count: DB1="; string_of_Z (row_count_db1 table_comp);
                       " vs DB2="; string_of_Z (row_count_db2 table_comp); " ";
                       "(Î” ";
                       string_of_Z (Z.abs (row_count_db1 table_comp
                                           - row_count_db2 table_comp));
                       ")[/red]"]) [] ]
    else [] in
  data_nodes <~
    (match data_differences table_comp with
     | [] => io_ret []
     | diff_data =>
         if match dict_get "is_data_identical" diff_data with
            | Some v => dval_truth v
            | None => false
            end
         then io_ret [ Node (fstr ["[green]âœ“ All ";
                                   get_format diff_data "identical_rows";
                                   " rows are identical[/green]"]) [] ]
         else
           only1 <~ get_positive diff_data "rows_only_in_db1" ;;
           nodes1 <~ (if only1
                      then v <~ getitem diff_data "rows_only_in_db1" ;;
                           io_ret [ Node (fstr ["[red]âš  "; dval_format v;
                                                " row(s) only in DB1[/red]"]) [] ]
                      else io_ret []) ;;
           only2 <~ get_positive diff_data "rows_only_in_db2" ;;
           nodes2 <~ (if only2
                      then v <~ getitem diff_data "rows_only_in_db2" ;;
                           io_ret [ Node (fstr ["[red]âš  "; dval_format v;
                                                " row(s) only in DB2[/red]"]) [] ]
                      else io_ret []) ;;
           same <~ get_positive diff_data "identical_rows" ;;
           nodes3 <~ (if same
                      then v <~ getitem diff_data "identical_rows" ;;
                           io_ret [ Node (fstr ["[green]âœ“ "; dval_format v;
                                                " identical row(s)[/green]"]) [] ]
                      else io_ret []) ;;
           io_ret (nodes1 ++ nodes2 ++ nodes3)
     end) ;;
  io_ret (Node (fstr ["[yellow]ðŸ“‹ "; table_name; "[/yellow]"])
            (schema_nodes ++ count_nodes ++ data_nodes)).

Definition summary_tree_of (comparison : DatabaseComparison) : IO Tree :=
  if db_is_identical comparison
  then io_ret (Node "ðŸ“Š Comparison Summary"
                 [ Node "[bold green]âœ“ Databases are completely identical[/bold green]" [] ])
  else
    let db1_only_nodes :=
      match tables_only_in_db1 comparison with
      | [] => []
      | _ =>
          [ Node (fstr ["[red]â€¢ "; string_of_Z (len (tables_only_in_db1 comparison));
                        " table(s) only in DB1[/red]"])
              (map (fun table => Node (fstr ["[red]â””â”€ "; table; "[/red]"]) [])
                   (sorted (py_set_order (tables_only_in_db1 comparison)))) ]
      end in
    let db2_only_nodes :=
      match tables_only_in_db2 comparison with
      | [] => []
      | _ =>
          [ Node (fstr ["[red]â€¢ "; string_of_Z (len (tables_only_in_db2 comparison));
                        " table(s) only in DB2[/red]"])
              (map (fun table => Node (fstr ["[red]â””â”€ "; table; "[/red]"]) [])
                   (sorted (py_set_order (tables_only_in_db2 comparison)))) ]
      end in
    let non_identical_tables := non_identical_tables comparison in
    tables_diff_nodes <~
      (match non_identical_tables with
       | [] => io_ret []
       | _ =>
           table_nodes <~
             for_fold (sorted non_identical_tables)
               (fun nodes table_name =>
                  node <~ table_node_of comparison table_name ;;
                  io_ret (nodes ++ [node])) [] ;;
           io_ret [ Node (fstr ["[red]â€¢ "; string_of_Z (len non_identical_tables);
                                " common table(s) with differences:[/red]"])
                      table_nodes ]
       end) ;;
    io_ret (Node "ðŸ“Š Comparison Summary"
              [ Node "[bold red]âœ— Differences detected:[/bold red]"
                  (db1_only_nodes ++ db2_only_nodes ++ tables_diff_nodes) ]).

(** The [issues] of one table in the quick overview. *)
Definition issues_of (table_comp : TableComparison) : IO (list string) :=
  let issues : list string := [] in
  let issues :=
    if negb (schema_match table_comp)
    then issues ++ [fstr ["Schema: "; string_of_Z (len (schema_diff table_comp));
                          " difference(s)"]]
    else issues in
  let issues :=
    if negb (row_count_db1 table_comp =? row_count_db2 table_comp)
    then issues ++ [fstr ["Rows: "; string_of_Z (row_count_db1 table_comp); " vs ";
                          string_of_Z (row_count_db2 table_comp)]]
    else issues in
  match data_differences table_comp with
  | [] => io_ret issues
  | diff_data =>
      let data_issues : list string := [] in
      only1 <~ get_positive diff_data "rows_only_in_db1" ;;
      data_issues <~ (if only1
                      then v <~ getitem diff_data "rows_only_in_db1" ;;
                           io_ret (data_issues ++ [fstr [dval_format v; " unique to DB1"]])
                      else io_ret data_issues) ;;
      only2 <~ get_positive diff_data "rows_only_in_db2" ;;
      data_issues <~ (if only2
                      then v <~ getitem diff_data "rows_only_in_db2" ;;
                           io_ret (data_issues ++ [fstr [dval_format v; " unique to DB2"]])
                      else io_ret data_issues) ;;
      io_ret (match data_issues with
              | [] => issues
              | _ => issues ++ [fstr ["Data: "; String.concat ", " data_issues]]
              end)
  end.

(** The text of the Details cell. *)
Definition details_of (issues : list string) : string :=
  match issues with
  | [] => "Unknown difference"
  | _ => String.concat " | " issues
  end.

Definition diff_summary_table_of (comparison : DatabaseComparison) : IO Table :=
  let diff_summary_table :=
    new_Table (Some "ðŸ“‹ Quick Differences Overview") None (Some HEAVY_EDGE)
      (Some "red") in
  let diff_summary_table :=
    add_column "Table" (Some "bold yellow") None None diff_summary_table in
  let diff_summary_table :=
    add_column "Issue Type" (Some "bold") None None diff_summary_table in
  let diff_summary_table :=
    add_column "Details" (Some "white") None None diff_summary_table in
  let diff_summary_table :=
    fold_left (fun t table =>
                 add_row [table; "[red]Missing in DB2[/red]";
                          "Table exists only in Database 1"] t)
              (sorted (py_set_order (tables_only_in_db1 comparison))) diff_summary_table in
  let diff_summary_table :=
    fold_left (fun t table =>
                 add_row [table; "[red]Missing in DB1[/red]";
                          "Table exists only in Database 2"] t)
              (sorted (py_set_order (tables_only_in_db2 comparison))) diff_summary_table in
  for_fold (sorted (non_identical_tables comparison))
    (fun t table_name =>
       table_comp <~ getitem (table_comparisons comparison) table_name ;;
       issues <~ issues_of table_comp ;;
       io_ret (add_row [table_name; "[red]Data/Schema Diff[/red]"; details_of issues] t))
    diff_summary_table.

(** The table "Table Structure Comparison". *)
Definition structure_table_of (comparison : DatabaseComparison) : Table :=
  let structure_table :=
    new_Table (Some "Table Structure Comparison") None (Some HEAVY_EDGE) None in
  let structure_table := add_column "Category" (Some "bold") None None structure_table in
  let structure_table := add_column "Count" None (Some "right") None structure_table in
  let structure_table := add_column "Tables" (Some "italic") None None structure_table in
  let total_tables_db1 :=
    len (common_tables comparison) + len (tables_only_in_db1 comparison) in
  let total_tables_db2 :=
    len (common_tables comparison) + len (tables_only_in_db2 comparison) in
  let structure_table :=
    add_row ["Total Tables in DB1";
             string_of_Z total_tables_db1;
             or_else (String.concat ", "
                        (sorted (py_set_order
                                   (set_union (common_tables comparison)
                                      (tables_only_in_db1 comparison)))))
                     "None"]
      structure_table in
  let structure_table :=
    add_row ["Total Tables in DB2";
             string_of_Z total_tables_db2;
             or_else (String.concat ", "
                        (sorted (py_set_order
                                   (set_union (common_tables comparison)
                                      (tables_only_in_db2 comparison)))))
                     "None"]
      structure_table in
  let structure_table :=
    add_row ["[green]Common Tables[/green]";
             fstr ["[green]"; string_of_Z (len (common_tables comparison)); "[/green]"];
             fstr ["[green]";
                   or_else (String.concat ", "
                              (sorted (py_set_order (common_tables comparison)))) "None";
                   "[/green]"]]
      structure_table in
  let structure_table :=
    match tables_only_in_db1 comparison with
    | [] => structure_table
    | _ =>
        add_row ["[red]Only in DB1[/red]";
                 fstr ["[red]"; string_of_Z (len (tables_only_in_db1 comparison)); "[/red]"];
                 fstr ["[red]";
                       String.concat ", "
                         (sorted (py_set_order (tables_only_in_db1 comparison)));
                       "[/red]"]]
          structure_table
    end in
  match tables_only_in_db2 comparison with
  | [] => structure_table
  | _ =>
      add_row ["[red]Only in DB2[/red]";
               fstr ["[red]"; string_of_Z (len (tables_only_in_db2 comparison)); "[/red]"];
               fstr ["[red]";
                     String.concat ", "
                       (sorted (py_set_order (tables_only_in_db2 comparison)));
                     "[/red]"]]
        structure_table
  end.

Definition display_results (conn1 conn2 : connection) (comparison : DatabaseComparison)
  : IO unit :=
  print (Str nl) ;;;
  print (APanel
           (mkPanel (OfText (mkText "SQLite Database Comparison Report" "center" "bold white"))
              "bold blue" (Some DOUBLE) None)) ;;;
  (let paths_table := new_Table None (Some false) (Some ROUNDED) (Some "cyan") in
   let paths_table := add_column "Label" (Some "bold cyan") None None paths_table in
   let paths_table := add_column "Path" (Some "white") None None paths_table in
   let paths_table := add_row ["Database 1:"; db1_path comparison] paths_table in
   let paths_table := add_row ["Database 2:"; db2_path comparison] paths_table in
   print (ATable paths_table)) ;;;
  print_line ;;;
  (if db_is_identical comparison
   then print (APanel
                 (mkPanel (OfText (mkText "âœ“ DATABASES ARE IDENTICAL" "center" "bold green"))
                    "green" (Some DOUBLE) None))
   else print (APanel
                 (mkPanel (OfText (mkText "âœ— DATABASES HAVE DIFFERENCES" "center" "bold red"))
                    "red" (Some DOUBLE) None))) ;;;
  print_line ;;;
  print (ATable (structure_table_of comparison)) ;;;
  print_line ;;;
  (match common_tables comparison with
   | [] => io_ret tt
   | _ =>
       print (APanel (mkPanel (OfStr "Detailed Table Comparisons") "bold yellow" None None)) ;;;
       for_each (sorted (py_set_order (common_tables comparison))) (display_table comparison)
   end) ;;;
  print (APanel (mkPanel (OfStr "Summary") "bold magenta" None None)) ;;;
  summary_tree <~ summary_tree_of comparison ;;
  print (ATree summary_tree) ;;;
  print_line ;;;
  if negb (db_is_identical comparison)
  then
    print_line ;;;
    diff_summary_table <~ diff_summary_table_of comparison ;;
    print (ATable diff_summary_table) ;;;
    print_line ;;;
    display_detailed_differences conn1 conn2 comparison
  else io_ret tt.

(** *** The comparator object and [main] *)







End Report.

(** *** What the report is measured by *)

(** The queries among the actions, in order. *)
Definition queries_of (t : list action) : list event :=
  flat_map (fun a => match a with Query ev => [ev] | _ => [] end) t.

(** The two row queries the detailed report sends about a table. *)
Definition row_queries (conn1 conn2 : connection) (name : string) : list event :=
  [ mkEvent (conn_db conn1) (QSelectAll name); mkEvent (conn_db conn2) (QSelectAll name) ].

(** What is observed of a run here: how it ends and the queries it sent. *)
Definition observed {A : Type} (m : IO A) : outcome A * list event :=
  (snd m, queries_of (fst m)).

(** A computation that returns and sends no query. *)
Definition quiet {A : Type} (m : IO A) : Prop :=
  (exists a, snd m = Done a) /\ queries_of (fst m) = [].

(** The three counts of a result dictionary are absent or integers. *)
Definition count_keys : list string :=
  ["identical_rows"; "rows_only_in_db1"; "rows_only_in_db2"].

Definition integer_counts (d : dict dval) : Prop :=
  forall key, In key count_keys ->
    dict_get key d = None \/ exists n, dict_get key d = Some (DInt n).

(** The table is recorded in the comparison, with integer counts. *)
Definition recorded_in (c : DatabaseComparison) (name : string) : Prop :=
  exists tc, dict_get name (table_comparisons c) = Some tc
             /\ integer_counts (data_differences tc).

(** A text that does not start with the letter U. *)
Definition issue_head (s : string) : Prop :=
  exists c rest, s = String c rest /\ c <> "U"%char.


(** [SELECT *] on the table is answered. *)
Definition rows_answer (conn : connection) (name : string) : Prop :=
  exists fetched, q_select_all conn name = Ok fetched.

(** [COUNT( * )] is the number of rows [SELECT *] fetches. *)
Definition count_consistent (conn : connection) : Prop :=
  forall name n fetched,
    q_count conn name = Ok n -> q_select_all conn name = Ok fetched ->
    n = len (snd fetched).

(** ** A runtime instance for evaluating the definitions

    Text is ASCII: [strip] removes the ASCII white space Python strips
    (codes 9 to 13 and 28 to 32).  Sets are iterated in insertion order.
    [str()] of a float or of a blob is rendered by a tag: only the analyzer
    takes [str()] of a value, and it is evaluated below on tables of
    integers, text and NULLs. *)
Definition is_space (c : ascii) : bool :=
  let n := nat_of_ascii c in
  ((9 <=? n) && (n <=? 13))%nat || ((28 <=? n) && (n <=? 32))%nat.

Fixpoint lstrip (s : string) : string :=
  match s with
  | String c s' => if is_space c then lstrip s' else s
  | EmptyString => EmptyString
  end.

Fixpoint rstrip (s : string) : string :=
  match s with
  | String c s' =>
      match rstrip s' with
      | EmptyString => if is_space c then EmptyString else String c EmptyString
      | t => String c t
      end
  | EmptyString => EmptyString
  end.

Definition ascii_strip (s : string) : string := rstrip (lstrip s).

Definition ascii_runtime : PyRuntime := {|
  py_strip := ascii_strip;
  py_repr_float := fun _ => "<float>";
  py_repr_bytes := fun _ => "<bytes>";
  py_set_order := fun s => s;
  py_set_order_perm := fun s => Permutation_refl s
|}.

(** ** A scenario: two databases sharing [users] and [orders]

    Database A holds [users] and [orders]; database B holds [users],
    [orders] and [logs].  [users] is the same on both sides up to white
    space; [orders] has an extra column [discount] in B. *)
Module Scenario.

Definition users_schema : list column :=
  [ mkColumn 0 "id" "INTEGER" 1 None 1; mkColumn 1 "email" "TEXT" 0 None 0 ].

Definition orders_schema_a : list column :=
  [ mkColumn 0 "id" "INTEGER" 1 None 1; mkColumn 1 "total" "INTEGER" 0 None 0 ].

Definition orders_schema_b : list column :=
  orders_schema_a ++ [ mkColumn 2 "discount" "INTEGER" 0 (Some "0") 0 ].

Definition no_such_table {A : Type} (t : string) : result A :=
  Raise (OperationalError (fstr ["no such table: "; t])).

Definition db_a : connection :=
  {| conn_db := "a.db";
     q_table_names := Ok ["orders"; "users"];
     q_table_info := fun t =>
       if String.eqb t "users" then Ok users_schema
       else if String.eqb t "orders" then Ok orders_schema_a
       else Ok [];
     q_count := fun t =>
       if String.eqb t "users" then Ok 2
       else if String.eqb t "orders" then Ok 1
       else no_such_table t;
     q_select_all := fun t =>
       if String.eqb t "users"
       then Ok (["id"; "email"],
                [ [VInt 1; VStr "ann@example.org"]; [VInt 2; VNone] ])
       else if String.eqb t "orders"
       then Ok (["id"; "total"], [ [VInt 10; VInt 250] ])
       else no_such_table t |}.

Definition db_b : connection :=
  {| conn_db := "b.db";
     q_table_names := Ok ["logs"; "orders"; "users"];
     q_table_info := fun t =>
       if String.eqb t "users" then Ok users_schema
       else if String.eqb t "orders" then Ok orders_schema_b
       else if String.eqb t "logs" then Ok [ mkColumn 0 "line" "TEXT" 0 None 0 ]
       else Ok [];
     q_count := fun t =>
       if String.eqb t "users" then Ok 2
       else if String.eqb t "orders" then Ok 1
       else if String.eqb t "logs" then Ok 0
       else no_such_table t;
     q_select_all := fun t =>
       if String.eqb t "users"
       then Ok (["id"; "email"],
                [ [VInt 2; VNone]; [VInt 1; VStr "ann@example.org "] ])
       else if String.eqb t "orders"
       then Ok (["id"; "total"; "discount"], [ [VInt 10; VInt 250; VInt 0] ])
       else if String.eqb t "logs" then Ok (["line"], [])
       else no_such_table t |}.


End Scenario.

Import Scenario.

(** Eleven rows with the same text on each side; the last row takes its
    [qty] from the argument. *)
Definition stock_rows (last_qty : value) : list row :=
  map (fun i => [("id", VInt i); ("qty", VInt (10 * i))]) [1; 2; 3; 4; 5; 6; 7; 8; 9; 10]
  ++ [ [("id", VInt 11); ("qty", last_qty)] ].



(** Database A with the column [email] of [users] declared with another
    type; the rows are those of database A. *)
Definition db_a_retyped : connection :=
  {| conn_db := "a2.db";
     q_table_names := q_table_names db_a;
     q_table_info := fun t =>
       if String.eqb t "users"
       then Ok [ mkColumn 0 "id" "INTEGER" 1 None 1; mkColumn 1 "email" "VARCHAR(80)" 0 None 0 ]
       else q_table_info db_a t;
     q_count := q_count db_a;
     q_select_all := q_select_all db_a |}.

(** * Properties *)

(** ** Dictionaries *)

Lemma dict_mem_In {V} (k : string) (d : dict V) :
  dict_mem k d = true <-> In k (dict_keys d).
Proof.
  unfold dict_mem, dict_keys.
  induction d as [|[k' v] d IH]; simpl.
  - split; [discriminate | tauto].
  - destruct (String.eqb_spec k k') as [->|Hne].
    + split; auto.
    + rewrite IH. split; [auto | intros [H|H]; [congruence | exact H]].
Qed.

Lemma dict_get_In {V} (k : string) (v : V) (d : dict V) :
  dict_get k d = Some v -> In (k, v) d.
Proof.
  induction d as [|[k' v'] d IH]; simpl; [discriminate|].
  destruct (String.eqb_spec k k') as [->|Hne].
  - intros [= ->]. now left.
  - intros H. right. auto.
Qed.

Lemma dict_get_NoDup {V} (k : string) (v : V) (d : dict V) :
  NoDup (dict_keys d) -> In (k, v) d -> dict_get k d = Some v.
Proof.
  unfold dict_keys.
  induction d as [|[k' v'] d IH]; simpl; [tauto|].
  intros Hnd [Heq|Hin].
  - injection Heq as -> ->. now rewrite String.eqb_refl.
  - inversion Hnd as [|? ? Hnotin Hnd']; subst.
    destruct (String.eqb_spec k k') as [->|Hne].
    + exfalso. apply Hnotin. change k' with (fst (k', v)). now apply in_map.
    + auto.
Qed.

Lemma dict_set_fresh {V} (k : string) (v : V) (d : dict V) :
  ~ In k (dict_keys d) -> dict_set k v d = d ++ [(k, v)].
Proof.
  unfold dict_keys.
  induction d as [|[k' v'] d IH]; simpl; [reflexivity|].
  intros Hnotin.
  destruct (String.eqb_spec k k') as [->|Hne]; [tauto|].
  f_equal. apply IH. tauto.
Qed.

Lemma dict_of_items_NoDup_acc {V} (kvs acc : list (string * V)) :
  NoDup (map fst (acc ++ kvs)) ->
  fold_left (fun d kv => dict_set (fst kv) (snd kv) d) kvs acc = acc ++ kvs.
Proof.
  revert acc.
  induction kvs as [|[k v] kvs IH]; intros acc Hnd; simpl.
  - now rewrite app_nil_r.
  - rewrite dict_set_fresh.
    + rewrite IH; rewrite <- app_assoc; [reflexivity | exact Hnd].
    + rewrite map_app in Hnd. simpl in Hnd.
      apply NoDup_remove_2 in Hnd. intro Hin. apply Hnd.
      apply in_or_app. now left.
Qed.

(** A comprehension over items with pairwise distinct keys keeps them as
    they are. *)
Lemma dict_of_items_NoDup {V} (kvs : list (string * V)) :
  NoDup (map fst kvs) -> dict_of_items kvs = kvs.
Proof.
  intros Hnd. unfold dict_of_items.
  now rewrite dict_of_items_NoDup_acc.
Qed.

Lemma column_eqb_eq (a b : column) : column_eqb a b = true <-> a = b.
Proof.
  unfold column_eqb. destruct a as [i n t nn d p], b as [i' n' t' nn' d' p']. simpl.
  rewrite !andb_true_iff, !Z.eqb_eq, !String.eqb_eq.
  split.
  - intros [[[[[-> ->] ->] ->] Hd] ->]. f_equal.
    destruct d, d'; simpl in Hd; try discriminate; auto.
    apply String.eqb_eq in Hd. now subst.
  - intros [= -> -> -> -> -> ->]. repeat split.
    destruct d'; simpl; auto. apply String.eqb_refl.
Qed.

(** ** The schema differ *)

(** A loop that only appends to the difference list returns the initial
    list followed by what each turn emits. *)
Lemma fold_left_emit {X : Type} (f : list string -> X -> list string)
  (emit : X -> list string) (l : list X) (init : list string) :
  (forall diffs x, f diffs x = diffs ++ emit x) ->
  fold_left f l init = init ++ flat_map emit l.
Proof.
  intros Hf. revert init.
  induction l as [|x l IH]; intros init; simpl.
  - now rewrite app_nil_r.
  - rewrite IH, Hf, <- app_assoc. reflexivity.
Qed.

Lemma flat_map_nil {X Y : Type} (emit : X -> list Y) (l : list X) :
  flat_map emit l = [] <-> forall x, In x l -> emit x = [].
Proof.
  induction l as [|x l IH]; simpl.
  - split; [tauto | reflexivity].
  - split.
    + intros H. apply app_eq_nil in H. destruct H as [Hx Hl].
      intros y [<-|Hy]; [exact Hx | now apply IH].
    + intros H. rewrite (H x) by now left. simpl. apply IH. auto.
Qed.

(** The difference list, loop by loop. *)
Lemma compare_schemas_differences (schema1 schema2 : list column) :
  snd (compare_schemas schema1 schema2) =
    flat_map (emit_only_in (schema_dict schema2) "' exists in DB1 but not in DB2")
             (dict_keys (schema_dict schema1))
    ++ flat_map (emit_only_in (schema_dict schema1) "' exists in DB2 but not in DB1")
             (dict_keys (schema_dict schema2))
    ++ flat_map (emit_changed (schema_dict schema1) (schema_dict schema2))
             (dict_keys (schema_dict schema1)).
Proof.
  unfold compare_schemas. cbv zeta. simpl snd.
  rewrite (fold_left_emit _ (emit_changed (schema_dict schema1) (schema_dict schema2))).
  2:{ intros diffs x. unfold emit_changed.
      destruct (dict_get x (schema_dict schema1)); [|now rewrite app_nil_r].
      destruct (dict_get x (schema_dict schema2)); [|now rewrite app_nil_r].
      destruct (negb _); [reflexivity | now rewrite app_nil_r]. }
  rewrite (fold_left_emit _
             (emit_only_in (schema_dict schema1) "' exists in DB2 but not in DB1")).
  2:{ intros diffs x. unfold emit_only_in.
      destruct (negb _); [reflexivity | now rewrite app_nil_r]. }
  rewrite (fold_left_emit _
             (emit_only_in (schema_dict schema2) "' exists in DB1 but not in DB2")).
  2:{ intros diffs x. unfold emit_only_in.
      destruct (negb _); [reflexivity | now rewrite app_nil_r]. }
  simpl. now rewrite <- app_assoc.
Qed.

Lemma compare_schemas_verdict (schema1 schema2 : list column) :
  fst (compare_schemas schema1 schema2) = true
  <-> snd (compare_schemas schema1 schema2) = [].
Proof.
  unfold compare_schemas. cbv zeta. simpl fst. simpl snd.
  rewrite Nat.eqb_eq. apply length_zero_iff_nil.
Qed.

Lemma schema_dict_wf (schema : list column) :
  wf_schema schema ->
  schema_dict schema = map (fun col => (c_name col, col)) schema.
Proof.
  intros Hwf. unfold schema_dict. apply dict_of_items_NoDup.
  rewrite map_map. simpl. exact Hwf.
Qed.

Lemma schema_dict_keys (schema : list column) :
  wf_schema schema -> dict_keys (schema_dict schema) = map c_name schema.
Proof.
  intros Hwf. rewrite schema_dict_wf by assumption.
  unfold dict_keys. rewrite map_map. reflexivity.
Qed.

Lemma schema_dict_get (schema : list column) (k : string) (c : column) :
  wf_schema schema ->
  dict_get k (schema_dict schema) = Some c <-> In c schema /\ c_name c = k.
Proof.
  intros Hwf. rewrite schema_dict_wf by assumption. split.
  - intros H. apply dict_get_In in H. apply in_map_iff in H.
    destruct H as [c' [[= <- <-] Hin]]. auto.
  - intros [Hin <-]. apply dict_get_NoDup.
    + unfold dict_keys. rewrite map_map. exact Hwf.
    + apply in_map_iff. exists c. auto.
Qed.

Lemma wf_schema_name_inj (schema : list column) (a b : column) :
  wf_schema schema -> In a schema -> In b schema -> c_name a = c_name b -> a = b.
Proof.
  unfold wf_schema. induction schema as [|c schema IH]; simpl; [tauto|].
  intros Hnd Ha Hb Hname. inversion Hnd as [|? ? Hnotin Hnd']; subst.
  destruct Ha as [<-|Ha], Hb as [<-|Hb]; auto.
  - exfalso. apply Hnotin. rewrite Hname. now apply in_map.
  - exfalso. apply Hnotin. rewrite <- Hname. now apply in_map.
Qed.

(** Two schemas with distinct column names match exactly when they hold the
    same column descriptors. *)
Lemma compare_schemas_same_columns (schema1 schema2 : list column) :
  wf_schema schema1 -> wf_schema schema2 ->
  fst (compare_schemas schema1 schema2) = true
  <-> (forall c, In c schema1 <-> In c schema2).
Proof.
  intros Hwf1 Hwf2.
  rewrite compare_schemas_verdict, compare_schemas_differences.
  rewrite !schema_dict_keys by assumption.
  split.
  - intros H. apply app_eq_nil in H. destruct H as [H1 H].
    apply app_eq_nil in H. destruct H as [H2 H3].
    rewrite flat_map_nil in H1, H2, H3.
    assert (Hsub : forall sa sb, wf_schema sa -> wf_schema sb ->
              (forall x, In x (map c_name sa) ->
                 emit_only_in (schema_dict sb) "' exists in DB1 but not in DB2" x = []
                 \/ emit_only_in (schema_dict sb) "' exists in DB2 but not in DB1" x = []) ->
              forall c, In c sa -> exists c', In c' sb /\ c_name c' = c_name c).
    { intros sa sb Hwa Hwb Hall c Hc.
      assert (Hmem : dict_mem (c_name c) (schema_dict sb) = true).
      { specialize (Hall (c_name c) (in_map c_name _ _ Hc)).
        unfold emit_only_in in Hall.
        destruct (dict_mem (c_name c) (schema_dict sb)); [reflexivity|].
        simpl in Hall. destruct Hall; discriminate. }
      apply dict_mem_In in Hmem. rewrite schema_dict_keys in Hmem by assumption.
      apply in_map_iff in Hmem. destruct Hmem as [c' [Hn Hin]]. eauto. }
    assert (Hsame : forall c1 c2, In c1 schema1 -> In c2 schema2 ->
              c_name c1 = c_name c2 -> c1 = c2).
    { intros c1 c2 Hc1 Hc2 Hname.
      specialize (H3 (c_name c1) (in_map c_name _ _ Hc1)).
      unfold emit_changed in H3.
      assert (G1 : dict_get (c_name c1) (schema_dict schema1) = Some c1)
        by (apply schema_dict_get; auto).
      assert (G2 : dict_get (c_name c1) (schema_dict schema2) = Some c2)
        by (apply schema_dict_get; auto).
      rewrite G1, G2 in H3.
      destruct (column_eqb c1 c2) eqn:E; [now apply column_eqb_eq|].
      simpl in H3. discriminate. }
    intros c. split; intros Hc.
    + destruct (Hsub schema1 schema2 Hwf1 Hwf2 (fun x Hx => or_introl (H1 x Hx)) c Hc)
        as [c' [Hin Hn]].
      now rewrite (Hsame c c' Hc Hin (eq_sym Hn)).
    + destruct (Hsub schema2 schema1 Hwf2 Hwf1 (fun x Hx => or_intror (H2 x Hx)) c Hc)
        as [c' [Hin Hn]].
      now rewrite <- (Hsame c' c Hin Hc Hn).
  - intros Hsame.
    assert (Hmem : forall sa sb, wf_schema sb -> (forall c, In c sa -> In c sb) ->
              forall x, In x (map c_name sa) -> dict_mem x (schema_dict sb) = true).
    { intros sa sb Hwb Hincl x Hx. apply dict_mem_In.
      rewrite schema_dict_keys by assumption.
      apply in_map_iff in Hx. destruct Hx as [c [<- Hc]].
      apply in_map. auto. }
    assert (Hnil : forall a b : list string, a = [] -> b = [] -> a ++ b = [])
      by (intros a b -> ->; reflexivity).
    apply Hnil; [|apply Hnil]; apply flat_map_nil.
    + intros x Hx. unfold emit_only_in.
      rewrite (Hmem schema1 schema2 Hwf2 (fun c => proj1 (Hsame c)) x Hx). reflexivity.
    + intros x Hx. unfold emit_only_in.
      rewrite (Hmem schema2 schema1 Hwf1 (fun c => proj2 (Hsame c)) x Hx). reflexivity.
    + intros x Hx. unfold emit_changed.
      destruct (dict_get x (schema_dict schema1)) as [c1|] eqn:G1; [|reflexivity].
      destruct (dict_get x (schema_dict schema2)) as [c2|] eqn:G2; [|reflexivity].
      apply schema_dict_get in G1, G2; try assumption.
      destruct G1 as [Hc1 Hn1], G2 as [Hc2 Hn2].
      assert (c1 = c2) as ->.
      { apply (wf_schema_name_inj schema2); auto.
        - now apply Hsame.
        - congruence. }
      assert (E : column_eqb c2 c2 = true) by now apply column_eqb_eq.
      rewrite E. reflexivity.
Qed.




(** The rows carry their [cid]: two tables declaring the same columns in
    another order are fetched with other [cid]s and do not match. *)
Example compare_schemas_declaration_order :
  compare_schemas
    [mkColumn 0 "a" "INT" 0 None 0; mkColumn 1 "b" "INT" 0 None 0]
    [mkColumn 0 "b" "INT" 0 None 0; mkColumn 1 "a" "INT" 0 None 0]
  = (false, ["Column 'a' has different definitions: DB1=INT vs DB2=INT";
             "Column 'b' has different definitions: DB1=INT vs DB2=INT"]).
Proof. reflexivity. Qed.

(** With a column name listed twice, the later row replaces the earlier one
    in the name-keyed dictionary, and the verdict follows the order. *)
Example compare_schemas_repeated_name :
  let a_int := mkColumn 0 "a" "INT" 0 None 0 in
  let a_text := mkColumn 1 "a" "TEXT" 0 None 0 in
  fst (compare_schemas [a_int; a_text] [a_text]) = true
  /\ fst (compare_schemas [a_text; a_int] [a_text]) = false.
Proof. split; reflexivity. Qed.

(** ** Hash sets over a partial equivalence

    Equality of Python values is symmetric and transitive; it is not
    reflexive (a NaN differs from itself), so the set lemmas assume no
    more. *)
Section PySetFacts.
Context {A : Type} (eqb : A -> A -> bool).
Hypothesis eqb_sym : forall x y, eqb x y = eqb y x.
Hypothesis eqb_trans : forall x y z, eqb x y = true -> eqb y z = true -> eqb x z = true.

Lemma eqb_congr (x y z : A) : eqb x y = true -> eqb x z = eqb y z.
Proof.
  intros Hxy. destruct (eqb y z) eqn:Hyz.
  - eauto.
  - destruct (eqb x z) eqn:Hxz; [|reflexivity].
    rewrite eqb_sym in Hxy. rewrite <- Hyz. symmetry. eauto.
Qed.

Lemma set_mem_congr (x y : A) (s : list A) :
  eqb x y = true -> set_mem eqb x s = set_mem eqb y s.
Proof.
  intros Hxy. unfold set_mem. induction s as [|z s IH]; simpl; [reflexivity|].
  now rewrite IH, (eqb_congr x y z Hxy).
Qed.

Lemma set_mem_app (x : A) (s t : list A) :
  set_mem eqb x (s ++ t) = set_mem eqb x s || set_mem eqb x t.
Proof. unfold set_mem. apply existsb_app. Qed.

Lemma set_mem_add (x y : A) (s : list A) :
  set_mem eqb x (set_add eqb s y) = set_mem eqb x s || eqb x y.
Proof.
  unfold set_add. destruct (set_mem eqb y s) eqn:Hy.
  - destruct (eqb x y) eqn:Hxy; [|now rewrite orb_false_r].
    rewrite (set_mem_congr x y s Hxy), Hy. reflexivity.
  - rewrite set_mem_app. simpl. now rewrite orb_false_r.
Qed.

Lemma set_mem_fold (x : A) (l s : list A) :
  set_mem eqb x (fold_left (set_add eqb) l s) = set_mem eqb x s || set_mem eqb x l.
Proof.
  revert s. induction l as [|y l IH]; intros s; simpl.
  - now rewrite orb_false_r.
  - rewrite IH, set_mem_add, <- orb_assoc. reflexivity.
Qed.

Lemma set_mem_of_list (x : A) (l : list A) :
  set_mem eqb x (set_of_list eqb l) = set_mem eqb x l.
Proof. unfold set_of_list. now rewrite set_mem_fold. Qed.

Lemma set_mem_Permutation (x : A) (l l' : list A) :
  Permutation l l' -> set_mem eqb x l = set_mem eqb x l'.
Proof.
  unfold set_mem. induction 1 as [|y l l' _ IH|y z l|l l' l'' _ IH1 _ IH2]; simpl.
  - reflexivity.
  - now rewrite IH.
  - destruct (eqb x y), (eqb x z); reflexivity.
  - congruence.
Qed.

(** Counting the members that satisfy a class property. *)
Section Counting.
Variable p : A -> bool.
Hypothesis p_congr : forall x y, eqb x y = true -> p x = p y.

Lemma count_in_add (s : list A) (x : A) :
  count_in p (set_add eqb s x)
  = (count_in p s + (if set_mem eqb x s then 0 else if p x then 1 else 0))%nat.
Proof.
  unfold count_in, set_add. destruct (set_mem eqb x s).
  - now rewrite Nat.add_0_r.
  - rewrite filter_app, length_app. simpl. destruct (p x); reflexivity.
Qed.

Lemma agree_add (s s' : list A) (x : A) :
  agree eqb p s s' -> agree eqb p (set_add eqb s x) (set_add eqb s' x).
Proof.
  intros [Hmem Hcount]. split.
  - intros z. now rewrite !set_mem_add, Hmem.
  - now rewrite !count_in_add, Hcount, Hmem.
Qed.

Lemma agree_add_swap (s s' : list A) (x y : A) :
  agree eqb p s s' ->
  agree eqb p (set_add eqb (set_add eqb s y) x) (set_add eqb (set_add eqb s' x) y).
Proof.
  intros [Hmem Hcount]. split.
  - intros z. rewrite !set_mem_add, Hmem.
    destruct (set_mem eqb z s'), (eqb z x), (eqb z y); reflexivity.
  - rewrite !count_in_add, !set_mem_add, Hcount, !Hmem.
    destruct (eqb x y) eqn:Hxy.
    + rewrite (eqb_sym y x), Hxy, !orb_true_r.
      rewrite (set_mem_congr x y s' Hxy), (p_congr x y Hxy). lia.
    + rewrite (eqb_sym y x), Hxy, !orb_false_r. lia.
Qed.

Lemma agree_fold (l s s' : list A) :
  agree eqb p s s' -> agree eqb p (fold_left (set_add eqb) l s) (fold_left (set_add eqb) l s').
Proof.
  revert s s'. induction l as [|x l IH]; intros s s' H; simpl; [exact H|].
  apply IH, agree_add, H.
Qed.

Lemma agree_fold_Permutation (l l' : list A) :
  Permutation l l' ->
  forall s s', agree eqb p s s' ->
  agree eqb p (fold_left (set_add eqb) l s) (fold_left (set_add eqb) l' s').
Proof.
  induction 1 as [|x l l' _ IH|x y l|l l' l'' _ IH1 _ IH2]; intros s s' H; simpl.
  - exact H.
  - apply IH, agree_add, H.
  - apply agree_fold, agree_add_swap, H.
  - destruct (IH1 s s' H) as [M1 C1].
    destruct (IH2 s' s' (conj (fun _ => eq_refl) eq_refl)) as [M2 C2].
    split; [intros z; now rewrite M1, M2 | congruence].
Qed.

(** The number of members with the property depends on the elements
    inserted, not on the order of insertion. *)
Lemma count_in_of_list_Permutation (l l' : list A) :
  Permutation l l' -> count_in p (set_of_list eqb l) = count_in p (set_of_list eqb l').
Proof.
  intros Hp. unfold set_of_list.
  apply (agree_fold_Permutation l l' Hp [] []). split; reflexivity.
Qed.

End Counting.

Lemma filter_length_ext (p q : A -> bool) (s : list A) :
  (forall x, p x = q x) -> List.length (filter p s) = List.length (filter q s).
Proof. intros H. now rewrite (filter_ext p q H). Qed.

(** Cardinalities of [s - t] and [s & t] for sets built from lists. *)
Lemma set_diff_card_Permutation (l l' m m' : list A) :
  Permutation l l' -> Permutation m m' ->
  List.length (set_diff eqb (set_of_list eqb l) (set_of_list eqb m))
  = List.length (set_diff eqb (set_of_list eqb l') (set_of_list eqb m')).
Proof.
  intros Hl Hm. unfold set_diff.
  rewrite (filter_length_ext _ (fun x => negb (set_mem eqb x (set_of_list eqb m)))
             (set_of_list eqb l')).
  - apply (count_in_of_list_Permutation
             (fun x => negb (set_mem eqb x (set_of_list eqb m)))); [|exact Hl].
    intros x y Hxy. now rewrite (set_mem_congr x y _ Hxy).
  - intros x. rewrite !set_mem_of_list.
    now rewrite (set_mem_Permutation x m m' Hm).
Qed.

Lemma set_inter_card_Permutation (l l' m m' : list A) :
  Permutation l l' -> Permutation m m' ->
  List.length (set_inter eqb (set_of_list eqb l) (set_of_list eqb m))
  = List.length (set_inter eqb (set_of_list eqb l') (set_of_list eqb m')).
Proof.
  intros Hl Hm. unfold set_inter.
  rewrite (filter_length_ext _ (fun x => set_mem eqb x (set_of_list eqb m))
             (set_of_list eqb l')).
  - apply (count_in_of_list_Permutation
             (fun x => set_mem eqb x (set_of_list eqb m))); [|exact Hl].
    intros x y Hxy. now rewrite (set_mem_congr x y _ Hxy).
  - intros x. rewrite !set_mem_of_list.
    now rewrite (set_mem_Permutation x m m' Hm).
Qed.

End PySetFacts.

(** ** Equality of values and of normalized rows *)

Lemma number_eqb_eq (a b : number) : number_eqb a b = true <-> a = b.
Proof.
  destruct a as [m e|s], b as [m' e'|s']; simpl.
  - rewrite andb_true_iff, !Z.eqb_eq. split; [intros [-> ->]; reflexivity | now intros [= -> ->]].
  - split; discriminate.
  - split; discriminate.
  - rewrite Bool.eqb_true_iff. split; [now intros -> | now intros [= ->]].
Qed.

Lemma value_eqb_class (a b : value) :
  value_eqb a b = true
  <-> exists c, value_class a = Some c /\ value_class b = Some c.
Proof.
  destruct a, b; cbn;
    repeat match goal with
           | |- context [number_of_float ?f] => destruct (number_of_float f); cbn
           end;
    (split;
     [ intros H; try discriminate;
       try (apply number_eqb_eq in H);
       try (apply String.eqb_eq in H);
       try rewrite H;
       eexists; split; reflexivity
     | intros [c [H1 H2]]; try discriminate;
       assert (E := eq_trans H1 (eq_sym H2)); inversion E; subst;
       first [ reflexivity
             | apply number_eqb_eq; congruence
             | apply String.eqb_refl ] ]).
Qed.

Lemma value_eqb_sym (a b : value) : value_eqb a b = value_eqb b a.
Proof.
  apply eq_true_iff_eq. rewrite !value_eqb_class.
  split; intros [c [H1 H2]]; eauto.
Qed.

Lemma value_eqb_trans (a b c : value) :
  value_eqb a b = true -> value_eqb b c = true -> value_eqb a c = true.
Proof.
  rewrite !value_eqb_class. intros [k [H1 H2]] [k' [H3 H4]].
  exists k. split; congruence.
Qed.

(** A value is equal to itself unless it is a NaN (or cannot be hashed). *)
Lemma value_eqb_refl (a : value) :
  value_class a <> None -> value_eqb a a = true.
Proof.
  intros H. apply value_eqb_class.
  destruct (value_class a) as [c|]; [eauto | congruence].
Qed.

Lemma item_eqb_sym (a b : string * value) : item_eqb a b = item_eqb b a.
Proof. unfold item_eqb. now rewrite String.eqb_sym, value_eqb_sym. Qed.

Lemma item_eqb_trans (a b c : string * value) :
  item_eqb a b = true -> item_eqb b c = true -> item_eqb a c = true.
Proof.
  unfold item_eqb. rewrite !andb_true_iff, !String.eqb_eq.
  intros [-> Hab] [-> Hbc]. split; [reflexivity | eapply value_eqb_trans; eauto].
Qed.

Lemma set_subset_spec {A : Type} (eqb : A -> A -> bool) (s t : list A) :
  set_subset eqb s t = true <-> forall x, In x s -> set_mem eqb x t = true.
Proof. unfold set_subset. apply forallb_forall. Qed.

Lemma frozenset_eqb_sym (a b : frozenset) : frozenset_eqb a b = frozenset_eqb b a.
Proof. unfold frozenset_eqb. apply andb_comm. Qed.

Lemma set_subset_trans (a b c : frozenset) :
  set_subset item_eqb a b = true -> set_subset item_eqb b c = true ->
  set_subset item_eqb a c = true.
Proof.
  rewrite !set_subset_spec. intros Hab Hbc x Hx.
  specialize (Hab x Hx). unfold set_mem in Hab. apply existsb_exists in Hab.
  destruct Hab as [y [Hy Hxy]].
  rewrite (set_mem_congr item_eqb item_eqb_sym item_eqb_trans x y c Hxy). auto.
Qed.

Lemma frozenset_eqb_trans (a b c : frozenset) :
  frozenset_eqb a b = true -> frozenset_eqb b c = true -> frozenset_eqb a c = true.
Proof.
  unfold frozenset_eqb. rewrite !andb_true_iff.
  intros [Hab Hba] [Hbc Hcb]. split; eapply set_subset_trans; eauto.
Qed.

(** ** The row-set differ *)

Section DifferFacts.
Context `{RT : PyRuntime}.

Lemma row_set_normalize_rows (data : list row) (acc : list frozenset) :
  row_set data acc =
    match normalize_rows data with
    | Ok l => Ok (fold_left (set_add frozenset_eqb) l acc)
    | Raise e => Raise e
    end.
Proof.
  revert acc. induction data as [|r data IH]; intros acc; simpl; [reflexivity|].
  destruct (normalize_row r) as [fs|e]; [|reflexivity].
  rewrite IH. destruct (normalize_rows data); reflexivity.
Qed.

Lemma len_nil_iff {X : Type} (l : list X) : (len l =? 0) = true <-> l = [].
Proof.
  unfold len. rewrite Z.eqb_eq. destruct l; simpl; [tauto|].
  split; [lia | discriminate].
Qed.

Lemma both_empty_false (data1 data2 : list row) :
  data1 <> [] \/ data2 <> [] -> (len data1 =? 0) && (len data2 =? 0) = false.
Proof.
  intros H. apply andb_false_iff.
  destruct H as [H|H]; [left|right];
    (destruct (len _ =? 0) eqn:E; [apply len_nil_iff in E; contradiction | reflexivity]).
Qed.

Lemma compare_table_data_empty :
  compare_table_data [] [] =
    [ ("row_count_match", DBool true); ("rows_only_in_db1", DInt 0);
      ("rows_only_in_db2", DInt 0); ("modified_rows", DInt 0);
      ("identical_rows", DInt 0); ("is_data_identical", DBool true) ].
Proof. reflexivity. Qed.

Lemma compare_table_data_raise1 (data1 data2 : list row) (e : exn) :
  data1 <> [] \/ data2 <> [] ->
  normalize_rows data1 = Raise e ->
  compare_table_data data1 data2 = differences_fallback data1 data2 e.
Proof.
  intros Hne H1. unfold compare_table_data.
  rewrite (both_empty_false _ _ Hne), row_set_normalize_rows, H1. reflexivity.
Qed.

Lemma compare_table_data_raise2 (data1 data2 : list row) (l1 : list frozenset) (e : exn) :
  data1 <> [] \/ data2 <> [] ->
  normalize_rows data1 = Ok l1 -> normalize_rows data2 = Raise e ->
  compare_table_data data1 data2 = differences_fallback data1 data2 e.
Proof.
  intros Hne H1 H2. unfold compare_table_data.
  rewrite (both_empty_false _ _ Hne), !row_set_normalize_rows, H1, H2. reflexivity.
Qed.

Lemma compare_table_data_ok (data1 data2 : list row) (l1 l2 : list frozenset) :
  data1 <> [] \/ data2 <> [] ->
  normalize_rows data1 = Ok l1 -> normalize_rows data2 = Ok l2 ->
  compare_table_data data1 data2 =
    differences_of_sets data1 data2
      (set_of_list frozenset_eqb l1) (set_of_list frozenset_eqb l2).
Proof.
  intros Hne H1 H2. unfold compare_table_data.
  rewrite (both_empty_false _ _ Hne), !row_set_normalize_rows, H1, H2. reflexivity.
Qed.

Lemma normalize_rows_Raise (data : list row) (e : exn) :
  normalize_rows data = Raise e -> exists r, In r data /\ normalize_row r = Raise e.
Proof.
  induction data as [|r data IH]; simpl; [discriminate|].
  destruct (normalize_row r) as [fs|e'] eqn:Hr.
  - destruct (normalize_rows data) as [l|e'']; [discriminate|].
    intros [= ->]. destruct (IH eq_refl) as [r' [Hin Hr']]. eauto.
  - intros [= ->]. eauto.
Qed.

Lemma normalize_rows_Ok (data : list row) (l : list frozenset) :
  normalize_rows data = Ok l ->
  forall r, In r data -> exists fs, normalize_row r = Ok fs.
Proof.
  revert l. induction data as [|r data IH]; simpl; intros l H r' Hin; [tauto|].
  destruct (normalize_row r) as [fs|e] eqn:Hr; [|discriminate].
  destruct (normalize_rows data) as [l'|e]; [|discriminate].
  destruct Hin as [<-|Hin]; eauto.
Qed.

Lemma compare_table_data_outcome (data1 data2 : list row) :
  differ_outcome data1 data2 (compare_table_data data1 data2).
Proof.
  destruct data1 as [|r1 data1], data2 as [|r2 data2].
  - rewrite compare_table_data_empty. now constructor.
  - assert (Hne : @nil row <> [] \/ r2 :: data2 <> []) by (right; discriminate).
    destruct (normalize_rows (r2 :: data2)) as [l2|e] eqn:H2.
    + rewrite (compare_table_data_ok [] _ [] l2 Hne eq_refl H2). now constructor.
    + rewrite (compare_table_data_raise2 [] _ [] e Hne eq_refl H2).
      destruct (normalize_rows_Raise _ _ H2) as [r [Hin Hr]].
      now apply (outcome_fallback _ _ r e).
  - assert (Hne : r1 :: data1 <> [] \/ @nil row <> []) by (left; discriminate).
    destruct (normalize_rows (r1 :: data1)) as [l1|e] eqn:H1.
    + rewrite (compare_table_data_ok _ [] l1 [] Hne H1 eq_refl). now constructor.
    + rewrite (compare_table_data_raise1 _ [] e Hne H1).
      destruct (normalize_rows_Raise _ _ H1) as [r [Hin Hr]].
      apply (outcome_fallback _ _ r e); auto. apply in_or_app. now left.
  - assert (Hne : r1 :: data1 <> [] \/ r2 :: data2 <> []) by (left; discriminate).
    destruct (normalize_rows (r1 :: data1)) as [l1|e] eqn:H1.
    + destruct (normalize_rows (r2 :: data2)) as [l2|e] eqn:H2.
      * rewrite (compare_table_data_ok _ _ l1 l2 Hne H1 H2). now constructor.
      * rewrite (compare_table_data_raise2 _ _ l1 e Hne H1 H2).
        destruct (normalize_rows_Raise _ _ H2) as [r [Hin Hr]].
        apply (outcome_fallback _ _ r e); auto. apply in_or_app. now right.
    + rewrite (compare_table_data_raise1 _ _ e Hne H1).
      destruct (normalize_rows_Raise _ _ H1) as [r [Hin Hr]].
      apply (outcome_fallback _ _ r e); auto. apply in_or_app. now left.
Qed.

Lemma len_inj {X Y : Type} (l : list X) (l' : list Y) :
  (len l =? len l') = true <-> List.length l = List.length l'.
Proof. unfold len. rewrite Z.eqb_eq. lia. Qed.


(** On the path through the two sets, the reported counts are the
    cardinalities of the set differences and of the intersection. *)
Lemma compare_table_data_counts (data1 data2 : list row) (l1 l2 : list frozenset) :
  data1 <> [] \/ data2 <> [] ->
  normalize_rows data1 = Ok l1 -> normalize_rows data2 = Ok l2 ->
  let s1 := set_of_list frozenset_eqb l1 in
  let s2 := set_of_list frozenset_eqb l2 in
  let d := compare_table_data data1 data2 in
  dict_get "rows_only_in_db1" d = Some (DInt (len (set_diff frozenset_eqb s1 s2)))
  /\ dict_get "rows_only_in_db2" d = Some (DInt (len (set_diff frozenset_eqb s2 s1)))
  /\ dict_get "identical_rows" d = Some (DInt (len (set_inter frozenset_eqb s1 s2)))
  /\ dict_get "comparison_error" d = None.
Proof.
  intros Hne H1 H2 s1 s2 d. subst d s1 s2.
  rewrite (compare_table_data_ok _ _ l1 l2 Hne H1 H2). repeat split; reflexivity.
Qed.

(** C5.  When the normalization of some row of either input fails, the
    differ still returns its result: the rows-only counts are the full
    lengths of the two inputs, the text of a normalization error is recorded
    under [comparison_error], and [is_data_identical] stays false. *)
Theorem compare_table_data_normalization_failure
  (data1 data2 : list row) (r : row) (e : exn) :
  In r (data1 ++ data2) -> normalize_row r = Raise e ->
  dict_get "rows_only_in_db1" (compare_table_data data1 data2) = Some (DInt (len data1))
  /\ dict_get "rows_only_in_db2" (compare_table_data data1 data2) = Some (DInt (len data2))
  /\ dict_get "is_data_identical" (compare_table_data data1 data2) = Some (DBool false)
  /\ exists r' e', In r' (data1 ++ data2) /\ normalize_row r' = Raise e'
       /\ dict_get "comparison_error" (compare_table_data data1 data2)
          = Some (DStr (exn_str e')).
Proof.
  intros Hin Hr.
  destruct (compare_table_data_outcome data1 data2)
    as [H1 H2|r' e' Hne Hin' Hr'|l1 l2 Hne H1 H2].
  - subst. destruct Hin.
  - repeat (split; [reflexivity|]). exists r', e'. repeat split; auto.
  - exfalso. apply in_app_or in Hin. destruct Hin as [Hin|Hin].
    + destruct (normalize_rows_Ok _ _ H1 r Hin) as [fs Hfs]. congruence.
    + destruct (normalize_rows_Ok _ _ H2 r Hin) as [fs Hfs]. congruence.
Qed.

Lemma normalize_rows_Permutation (data data' : list row) :
  Permutation data data' ->
  match normalize_rows data, normalize_rows data' with
  | Ok l, Ok l' => Permutation l l'
  | Raise _, Raise _ => True
  | _, _ => False
  end.
Proof.
  induction 1 as [|x l l' _ IH|x y l|l l' l'' _ IH1 _ IH2]; simpl.
  - constructor.
  - destruct (normalize_row x); [|exact I].
    destruct (normalize_rows l), (normalize_rows l'); try contradiction; auto.
  - destruct (normalize_row x), (normalize_row y), (normalize_rows l); auto.
    apply perm_swap.
  - destruct (normalize_rows l), (normalize_rows l'), (normalize_rows l'');
      try contradiction; auto.
    eapply perm_trans; eauto.
Qed.

Lemma len_Permutation {X : Type} (l l' : list X) : Permutation l l' -> len l = len l'.
Proof. intros H. unfold len. now rewrite (Permutation_length H). Qed.

Lemma nonempty_Permutation (data1 data1' data2 data2' : list row) :
  Permutation data1 data1' -> Permutation data2 data2' ->
  data1 <> [] \/ data2 <> [] -> data1' <> [] \/ data2' <> [].
Proof.
  intros Hp1 Hp2 [H|H]; [left|right]; intros ->.
  - apply H. now apply Permutation_nil, Permutation_sym.
  - apply H. now apply Permutation_nil, Permutation_sym.
Qed.

(** C8.  Reordering the rows of either input leaves the counts of the
    result unchanged: rows only in the first table, rows only in the second
    table, identical rows, and the row-count-match flag (and with them the
    fully-identical flag). *)
Theorem compare_table_data_row_order (data1 data1' data2 data2' : list row) :
  Permutation data1 data1' -> Permutation data2 data2' ->
  dict_get "rows_only_in_db1" (compare_table_data data1' data2')
    = dict_get "rows_only_in_db1" (compare_table_data data1 data2)
  /\ dict_get "rows_only_in_db2" (compare_table_data data1' data2')
    = dict_get "rows_only_in_db2" (compare_table_data data1 data2)
  /\ dict_get "identical_rows" (compare_table_data data1' data2')
    = dict_get "identical_rows" (compare_table_data data1 data2)
  /\ dict_get "row_count_match" (compare_table_data data1' data2')
    = dict_get "row_count_match" (compare_table_data data1 data2)
  /\ dict_get "is_data_identical" (compare_table_data data1' data2')
    = dict_get "is_data_identical" (compare_table_data data1 data2).
Proof.
  intros Hp1 Hp2.
  assert (L1 := len_Permutation _ _ Hp1). assert (L2 := len_Permutation _ _ Hp2).
  assert (N1 := normalize_rows_Permutation _ _ Hp1).
  assert (N2 := normalize_rows_Permutation _ _ Hp2).
  destruct (compare_table_data_outcome data1 data2) as [H1 H2|r e Hne Hin Hr|l1 l2 Hne H1 H2].
  - subst. apply Permutation_nil in Hp1, Hp2. subst. repeat split; reflexivity.
  - assert (Hne' := nonempty_Permutation _ _ _ _ Hp1 Hp2 Hne).
    assert (Hfb : exists e', compare_table_data data1' data2'
                             = differences_fallback data1' data2' e').
    { destruct (normalize_rows data1') as [l1'|e1'] eqn:E1'.
      - destruct (normalize_rows data2') as [l2'|e2'] eqn:E2'.
        + exfalso. apply in_app_or in Hin. destruct Hin as [Hin|Hin].
          * destruct (normalize_rows_Ok _ _ E1' r (Permutation_in _ Hp1 Hin)) as [fs Hfs].
            congruence.
          * destruct (normalize_rows_Ok _ _ E2' r (Permutation_in _ Hp2 Hin)) as [fs Hfs].
            congruence.
        + exists e2'. now apply (compare_table_data_raise2 _ _ l1').
      - exists e1'. now apply compare_table_data_raise1. }
    destruct Hfb as [e' ->]. unfold differences_fallback. simpl.
    rewrite L1, L2. repeat split; reflexivity.
  - assert (Hne' := nonempty_Permutation _ _ _ _ Hp1 Hp2 Hne).
    rewrite H1 in N1. rewrite H2 in N2.
    destruct (normalize_rows data1') as [l1'|] eqn:E1'; [|contradiction].
    destruct (normalize_rows data2') as [l2'|] eqn:E2'; [|contradiction].
    rewrite (compare_table_data_ok _ _ l1' l2' Hne' E1' E2').
    unfold differences_of_sets, len. simpl.
    rewrite (set_diff_card_Permutation frozenset_eqb frozenset_eqb_sym
               frozenset_eqb_trans l1 l1' l2 l2' N1 N2).
    rewrite (set_diff_card_Permutation frozenset_eqb frozenset_eqb_sym
               frozenset_eqb_trans l2 l2' l1 l1' N2 N1).
    rewrite (set_inter_card_Permutation frozenset_eqb frozenset_eqb_sym
               frozenset_eqb_trans l1 l1' l2 l2' N1 N2).
    rewrite (Permutation_length Hp1), (Permutation_length Hp2).
    repeat split; reflexivity.
Qed.

End DifferFacts.

(** *** The differ on concrete tables *)

(** A row whose [email] differs by surrounding white space only, and an
    integer stored as a float (2 against 2.0, that is [2^52 * 2^-51]), are
    the same row once normalized. *)
Example compare_table_data_normalizes :
  @compare_table_data ascii_runtime
    [ [("id", VInt 1); ("email", VStr "ann@example.org  ")];
      [("id", VInt 2); ("email", VNone)] ]
    [ [("email", VNone); ("id", VFloat (S754_finite false 4503599627370496 (-51)))];
      [("id", VInt 1); ("email", VStr " ann@example.org")] ]
  = [ ("row_count_match", DBool true); ("rows_only_in_db1", DInt 0);
      ("rows_only_in_db2", DInt 0); ("modified_rows", DInt 0);
      ("identical_rows", DInt 2); ("is_data_identical", DBool true) ].
Proof. reflexivity. Qed.

(** Equal rows collapse in the set: one row against the same row three
    times differs in the row count only. *)
Example compare_table_data_duplicates :
  @compare_table_data ascii_runtime
    [ [("id", VInt 1)] ]
    [ [("id", VInt 1)]; [("id", VInt 1)]; [("id", VInt 1)] ]
  = [ ("row_count_match", DBool false); ("rows_only_in_db1", DInt 0);
      ("rows_only_in_db2", DInt 0); ("modified_rows", DInt 0);
      ("identical_rows", DInt 1); ("is_data_identical", DBool false) ].
Proof. reflexivity. Qed.

Lemma compare_table_data_normalization_failure_witness :
  let bad := [("id", VInt 1); ("tags", VUnhashable "list" "['a', 'b']")] in
  let data1 := [ [("id", VInt 0); ("tags", VNone)]; bad ] in
  let data2 := [ [("id", VInt 0); ("tags", VNone)] ] in
  In bad (data1 ++ data2)
  /\ @normalize_row ascii_runtime bad = Raise (TypeError "unhashable type: 'list'")
  /\ @compare_table_data ascii_runtime data1 data2
     = [ ("row_count_match", DBool false); ("rows_only_in_db1", DInt 2);
         ("rows_only_in_db2", DInt 1); ("modified_rows", DInt 0);
         ("identical_rows", DInt 0); ("is_data_identical", DBool false);
         ("comparison_error", DStr "unhashable type: 'list'") ]
  /\ dict_get "rows_only_in_db1" (@compare_table_data ascii_runtime data1 data2)
     = Some (DInt (len data1)).
Proof.
  intros bad data1 data2.
  assert (Hin : In bad (data1 ++ data2)) by (simpl; auto).
  assert (Hr : @normalize_row ascii_runtime bad = Raise (TypeError "unhashable type: 'list'"))
    by reflexivity.
  split; [exact Hin|]. split; [exact Hr|]. split; [reflexivity|].
  exact (proj1 (@compare_table_data_normalization_failure ascii_runtime
                  data1 data2 bad _ Hin Hr)).
Defined.

Lemma compare_table_data_row_order_witness :
  let a := [("id", VInt 1); ("name", VStr "ann")] in
  let b := [("id", VInt 2); ("name", VStr "bob")] in
  let c := [("id", VInt 3); ("name", VStr "cy")] in
  Permutation [a; b; a] [a; a; b] /\ Permutation [b; c] [c; b]
  /\ dict_get "rows_only_in_db1" (@compare_table_data ascii_runtime [a; a; b] [c; b])
     = Some (DInt 1)
  /\ dict_get "rows_only_in_db1" (@compare_table_data ascii_runtime [a; a; b] [c; b])
     = dict_get "rows_only_in_db1" (@compare_table_data ascii_runtime [a; b; a] [b; c]).
Proof.
  intros a b c.
  assert (Hp1 : Permutation [a; b; a] [a; a; b]) by (apply perm_skip, perm_swap).
  assert (Hp2 : Permutation [b; c] [c; b]) by apply perm_swap.
  split; [exact Hp1|]. split; [exact Hp2|]. split; [reflexivity|].
  exact (proj1 (@compare_table_data_row_order ascii_runtime _ _ _ _ Hp1 Hp2)).
Defined.

(** ** Floats: rounding to ten decimals *)





Lemma pow2_split (a b : Z) : 0 <= a -> 0 <= b -> 2 ^ (a + b) = 2 ^ a * 2 ^ b.
Proof. intros Ha Hb. apply Z.pow_add_r; assumption. Qed.







Lemma strip_twos_value (m : positive) :
  forall e, e <= snd (strip_twos m e)
            /\ Zpos m = Zpos (fst (strip_twos m e)) * 2 ^ (snd (strip_twos m e) - e).
Proof.
  induction m as [m IH|m IH|]; intros e; cbn [strip_twos fst snd].
  - split; [lia|]. rewrite Z.sub_diag. simpl. lia.
  - destruct (IH (e + 1)) as [Hle Heq]. split; [lia|].
    replace (snd (strip_twos m (e + 1)) - e)
      with ((snd (strip_twos m (e + 1)) - (e + 1)) + 1) by lia.
    rewrite pow2_split by lia. change (2 ^ 1) with 2.
    rewrite (Pos2Z.inj_xO m), Heq. ring.
  - split; [lia|]. rewrite Z.sub_diag. simpl. lia.
Qed.




(** ** Normalization of a well-formed row *)

Section NormalizeFacts.
Context `{RT : PyRuntime}.

Lemma fold_left_dict_set_map (r : row) (acc : dict value) :
  fold_left (fun d kv => dict_set (fst kv) (normalize_value (snd kv)) d) r acc
  = fold_left (fun d kv => dict_set (fst kv) (snd kv) d) (map normalize_item r) acc.
Proof.
  revert acc. induction r as [|kv r IH]; intros acc; simpl; [reflexivity|].
  apply IH.
Qed.

Lemma map_fst_normalize (r : row) : map fst (map normalize_item r) = map fst r.
Proof. rewrite map_map. reflexivity. Qed.

Lemma set_mem_item_fresh (it : string * value) (s : list (string * value)) :
  ~ In (fst it) (map fst s) -> set_mem item_eqb it s = false.
Proof.
  unfold set_mem. induction s as [|x s IH]; simpl; [reflexivity|].
  intros Hnotin. rewrite IH by tauto. unfold item_eqb.
  destruct (String.eqb_spec (fst it) (fst x)) as [E|E]; [|reflexivity].
  exfalso. apply Hnotin. now left.
Qed.

Lemma set_add_items_NoDup (items acc : list (string * value)) :
  NoDup (map fst (acc ++ items)) ->
  fold_left (set_add item_eqb) items acc = acc ++ items.
Proof.
  revert acc. induction items as [|it items IH]; intros acc Hnd; simpl.
  - now rewrite app_nil_r.
  - unfold set_add at 2. rewrite set_mem_item_fresh.
    + rewrite IH; rewrite <- app_assoc; [reflexivity | exact Hnd].
    + rewrite map_app in Hnd. simpl in Hnd.
      apply NoDup_remove_2 in Hnd. intro Hin. apply Hnd.
      apply in_or_app. now left.
Qed.

Lemma make_frozenset_hashable (items acc : list (string * value)) :
  (forall it, In it items -> check_hashable (snd it) = Ok tt) ->
  make_frozenset items acc = Ok (fold_left (set_add item_eqb) items acc).
Proof.
  revert acc. induction items as [|it items IH]; intros acc H; simpl; [reflexivity|].
  rewrite (H it) by now left. apply IH. intros it' Hin. apply H. now right.
Qed.

Lemma value_class_hashable (v : value) :
  value_class v <> None -> check_hashable v = Ok tt.
Proof. destruct v; simpl; congruence. Qed.

(** A row with distinct column names and hashable values is normalized
    item by item. *)
Lemma normalize_row_wf (r : row) :
  NoDup (dict_keys r) ->
  (forall kv, In kv r -> check_hashable (normalize_value (snd kv)) = Ok tt) ->
  normalize_row r = Ok (map normalize_item r).
Proof.
  intros Hnd Hhash. unfold normalize_row.
  rewrite fold_left_dict_set_map.
  rewrite dict_of_items_NoDup_acc by (simpl; now rewrite map_fst_normalize).
  simpl. rewrite make_frozenset_hashable.
  - rewrite set_add_items_NoDup by (simpl; now rewrite map_fst_normalize).
    reflexivity.
  - intros it Hin. apply in_map_iff in Hin. destruct Hin as [kv [<- Hkv]].
    simpl. auto.
Qed.

(** Two normalized rows that differ in the value of one column only are
    equal exactly when the two values are. *)
Lemma frozenset_eqb_one_column (P Q : list (string * value)) (c : string) (a b : value) :
  NoDup (map fst (P ++ (c, a) :: Q)) ->
  (forall it, In it (P ++ Q) -> item_eqb it it = true) ->
  frozenset_eqb (P ++ (c, a) :: Q) (P ++ (c, b) :: Q) = value_eqb a b.
Proof.
  intros Hnd Hrefl.
  assert (Hc : ~ In c (map fst P) /\ ~ In c (map fst Q)).
  { rewrite map_app in Hnd. simpl in Hnd. apply NoDup_remove_2 in Hnd.
    split; intro Hin; apply Hnd; apply in_or_app; auto. }
  destruct Hc as [HcP HcQ].
  assert (Hsub : forall u v,
            set_subset item_eqb (P ++ (c, u) :: Q) (P ++ (c, v) :: Q) = value_eqb u v).
  { intros u v. unfold set_subset. rewrite forallb_app. simpl.
    assert (HP : forallb (fun x => set_mem item_eqb x (P ++ (c, v) :: Q)) P = true).
    { apply forallb_forall. intros it Hin. unfold set_mem. apply existsb_exists.
      exists it. split; [apply in_or_app; now left|].
      apply Hrefl. apply in_or_app. now left. }
    assert (HQ : forallb (fun x => set_mem item_eqb x (P ++ (c, v) :: Q)) Q = true).
    { apply forallb_forall. intros it Hin. unfold set_mem. apply existsb_exists.
      exists it. split; [apply in_or_app; right; now right|].
      apply Hrefl. apply in_or_app. now right. }
    rewrite HP, HQ, andb_true_r. simpl.
    unfold set_mem. rewrite existsb_app. simpl.
    fold (set_mem item_eqb (c, u) P). fold (set_mem item_eqb (c, u) Q).
    rewrite !set_mem_item_fresh by assumption.
    unfold item_eqb. simpl. rewrite String.eqb_refl, orb_false_r. reflexivity. }
  unfold frozenset_eqb. rewrite !Hsub, (value_eqb_sym b a).
  destruct (value_eqb a b); reflexivity.
Qed.

Lemma set_diff_singletons {A : Type} (eqb : A -> A -> bool) (a b : A) :
  set_diff eqb (set_of_list eqb [a]) (set_of_list eqb [b])
  = if eqb a b then [] else [a].
Proof.
  unfold set_diff, set_of_list, set_add, set_mem. simpl.
  destruct (eqb a b); reflexivity.
Qed.


End NormalizeFacts.



(** ** The table comparator *)

Section ComparatorFacts.
Context `{RT : PyRuntime}.

(** C4.  Once the schemas and the row counts of a table have been read,
    [compare_table] reads row data exactly when the schemas match.  When
    they do not match, no row-level diff is computed: the result holds the
    schema verdict and the two row counts, [data_differences] is the empty
    dictionary and [is_identical] is false.  When they match, the rows of
    both sides are read and [data_differences] is the result of
    [compare_table_data] on them. *)
Theorem compare_table_rows_iff_schema_match
  (conn1 conn2 : connection) (name : string)
  (schema1 schema2 : list column) (count1 count2 : Z) :
  q_table_info conn1 name = Ok schema1 -> q_table_info conn2 name = Ok schema2 ->
  q_count conn1 name = Ok count1 -> q_count conn2 name = Ok count2 ->
  (existsb is_select_all (fst (compare_table conn1 conn2 name)) = true
   <-> fst (compare_schemas schema1 schema2) = true)
  /\ (fst (compare_schemas schema1 schema2) = false ->
      compare_table conn1 conn2 name =
        (schema_and_count_queries conn1 conn2 name,
         Ok {| table_name := name; exists_in_db1 := true; exists_in_db2 := true;
               schema_match := false;
               row_count_db1 := count1; row_count_db2 := count2;
               schema_diff := snd (compare_schemas schema1 schema2);
               data_differences := [];
               is_identical := false |}))
  /\ (fst (compare_schemas schema1 schema2) = true ->
      forall fetched1 fetched2,
      q_select_all conn1 name = Ok fetched1 -> q_select_all conn2 name = Ok fetched2 ->
      let differences :=
        compare_table_data (rows_of_fetch fetched1) (rows_of_fetch fetched2) in
      compare_table conn1 conn2 name =
        (schema_and_count_queries conn1 conn2 name
           ++ [ mkEvent (conn_db conn1) (QSelectAll name);
                mkEvent (conn_db conn2) (QSelectAll name) ],
         Ok {| table_name := name; exists_in_db1 := true; exists_in_db2 := true;
               schema_match := true;
               row_count_db1 := count1; row_count_db2 := count2;
               schema_diff := snd (compare_schemas schema1 schema2);
               data_differences := differences;
               is_identical :=
                 (count1 =? count2)
                 && match dict_get "is_data_identical" differences with
                    | Some v => dval_truth v
                    | None => false
                    end |})).
Proof.
  intros Hs1 Hs2 Hc1 Hc2.
  unfold compare_table, get_table_schema, get_row_count, get_table_data, execute.
  rewrite Hs1, Hs2, Hc1, Hc2. cbn [bind ret app fst snd].
  destruct (fst (compare_schemas schema1 schema2)) eqn:Hsm.
  - split; [|split; [discriminate|]].
    + split; [reflexivity|]. intros _.
      destruct (q_select_all conn1 name) as [f1|e1]; [|reflexivity].
      destruct (q_select_all conn2 name) as [f2|e2]; reflexivity.
    + intros _ f1 f2 -> ->. reflexivity.
  - split; [|split; [|discriminate]].
    + split; [discriminate | discriminate].
    + intros _. reflexivity.
Qed.

(** ** The database comparator *)

Lemma bind_snd {X Y : Type} (m : M X) (f : X -> M Y) :
  snd (bind m f) = match snd m with Ok a => snd (f a) | Raise e => Raise e end.
Proof. destruct m as [t [a|e]]; simpl; [destruct (f a)|]; reflexivity. Qed.

Lemma bind_fst {X Y : Type} (m : M X) (f : X -> M Y) :
  fst (bind m f) = fst m ++ match snd m with Ok a => fst (f a) | Raise _ => [] end.
Proof.
  destruct m as [t [a|e]]; simpl; [destruct (f a); reflexivity|].
  now rewrite app_nil_r.
Qed.

Lemma set_mem_string (x : string) (s : list string) :
  set_mem String.eqb x s = true <-> In x s.
Proof.
  unfold set_mem. rewrite existsb_exists. split.
  - intros [y [Hin Heq]]. apply String.eqb_eq in Heq. now subst.
  - intros Hin. exists x. split; [exact Hin | apply String.eqb_refl].
Qed.

Lemma set_of_list_string_In (x : string) (l : list string) :
  In x (set_of_list String.eqb l) <-> In x l.
Proof.
  rewrite <- !set_mem_string.
  rewrite (set_mem_of_list String.eqb String.eqb_sym); [reflexivity|].
  intros a b c Hab Hbc. apply String.eqb_eq in Hab, Hbc. subst. apply String.eqb_refl.
Qed.

Lemma set_inter_string_In (x : string) (s t : list string) :
  In x (set_inter String.eqb s t) <-> In x s /\ In x t.
Proof. unfold set_inter. now rewrite filter_In, set_mem_string. Qed.

Lemma set_diff_string_In (x : string) (s t : list string) :
  In x (set_diff String.eqb s t) <-> In x s /\ ~ In x t.
Proof.
  unfold set_diff. rewrite filter_In, negb_true_iff, <- (set_mem_string x t).
  destruct (set_mem String.eqb x t).
  - split; intros [_ H]; [discriminate | exfalso; now apply H].
  - split; intros [H _]; (split; [exact H | discriminate || reflexivity]).
Qed.



Lemma compare_step_snd (conn1 conn2 : connection) (c : DatabaseComparison) (name : string) :
  snd (compare_step conn1 conn2 c name) =
    match snd (compare_table conn1 conn2 name) with
    | Ok tc =>
        Ok (if negb (is_identical tc)
            then set_is_identical (set_table_comparison c name tc) false
            else set_table_comparison c name tc)
    | Raise e => Raise e
    end.
Proof. unfold compare_step. rewrite bind_snd. reflexivity. Qed.



Lemma dict_get_set {V : Type} (k k' : string) (v : V) (d : dict V) :
  dict_get k (dict_set k' v d) = if String.eqb k k' then Some v else dict_get k d.
Proof.
  induction d as [|[k0 v0] d IH]; simpl; [reflexivity|].
  destruct (String.eqb_spec k' k0) as [->|Hne]; simpl.
  - destruct (String.eqb k k0); reflexivity.
  - rewrite IH. destruct (String.eqb_spec k k0) as [->|Hne'].
    + destruct (String.eqb_spec k0 k') as [->|_]; [congruence | reflexivity].
    + reflexivity.
Qed.

Lemma bind_Ok {X Y : Type} (m : M X) (f : X -> M Y) (t : list event) (b : Y) :
  bind m f = (t, Ok b) ->
  exists t1 a t2, m = (t1, Ok a) /\ f a = (t2, Ok b) /\ t = t1 ++ t2.
Proof.
  destruct m as [t1 [a|e]]; simpl; [|discriminate].
  destruct (f a) as [t2 r] eqn:Hf. intros [= <- ->]. eauto 6.
Qed.

Lemma compare_table_events (conn1 conn2 : connection) (name : string) (ev : event) :
  In ev (fst (compare_table conn1 conn2 name)) ->
  query_table (ev_query ev) = Some name.
Proof.
  unfold compare_table, get_table_schema, get_row_count, get_table_data, execute.
  destruct (q_table_info conn1 name) as [s1|]; [|simpl; intuition (subst; reflexivity)].
  destruct (q_table_info conn2 name) as [s2|]; [|simpl; intuition (subst; reflexivity)].
  destruct (q_count conn1 name); [|simpl; intuition (subst; reflexivity)].
  destruct (q_count conn2 name); [|simpl; intuition (subst; reflexivity)].
  cbn [bind ret app fst snd].
  destruct (fst (compare_schemas s1 s2)); [|simpl; intuition (subst; reflexivity)].
  destruct (q_select_all conn1 name); [|simpl; intuition (subst; reflexivity)].
  destruct (q_select_all conn2 name); simpl; intuition (subst; reflexivity).
Qed.

(** What the loop over [names] does to the comparison record. *)
Lemma compare_loop_Ok (conn1 conn2 : connection) (names : list string) :
  forall (c c' : DatabaseComparison) (t : list event),
  compare_loop conn1 conn2 names c = (t, Ok c') ->
  tables_only_in_db1 c' = tables_only_in_db1 c
  /\ tables_only_in_db2 c' = tables_only_in_db2 c
  /\ common_tables c' = common_tables c
  /\ (forall name,
        dict_get name (table_comparisons c') =
          if set_mem String.eqb name names
          then table_result conn1 conn2 name
          else dict_get name (table_comparisons c))
  /\ db_is_identical c' =
       db_is_identical c
       && forallb (fun n => verdict_of (table_result conn1 conn2 n)) names
  /\ (forall n, In n names -> exists tc, table_result conn1 conn2 n = Some tc)
  /\ (forall ev, In ev t ->
        exists n, In n names /\ query_table (ev_query ev) = Some n).
Proof.
  induction names as [|n names IH]; intros c c' t H.
  - simpl in H. injection H as <- <-. simpl. rewrite andb_true_r.
    repeat split; auto; intros ? [].
  - simpl in H. apply bind_Ok in H. destruct H as [t1 [c1 [t2 [Hstep [Hloop ->]]]]].
    unfold compare_step in Hstep. apply bind_Ok in Hstep.
    destruct Hstep as [t0 [tc [t0' [Htc [Hret ->]]]]].
    unfold ret in Hret. injection Hret as Ht0 Hc1. subst t0'.
    assert (Hres : table_result conn1 conn2 n = Some tc)
      by (unfold table_result; now rewrite Htc).
    destruct (IH _ _ _ Hloop) as [A [B [C [D [E [F G]]]]]].
    assert (Hfields :
              tables_only_in_db1 c1 = tables_only_in_db1 c
              /\ tables_only_in_db2 c1 = tables_only_in_db2 c
              /\ common_tables c1 = common_tables c
              /\ table_comparisons c1 = dict_set n tc (table_comparisons c)
              /\ db_is_identical c1 = db_is_identical c && is_identical tc).
    { rewrite <- Hc1. destruct (is_identical tc); simpl;
        rewrite ?andb_true_r, ?andb_false_r; repeat split; reflexivity. }
    destruct Hfields as [A1 [B1 [C1 [D1 E1]]]].
    split; [congruence|]. split; [congruence|]. split; [congruence|].
    split; [|split; [|split]].
    + intros name. rewrite D, D1, dict_get_set. simpl.
      destruct (String.eqb_spec name n) as [->|Hne]; simpl.
      * destruct (set_mem String.eqb n names); [reflexivity | now rewrite Hres].
      * reflexivity.
    + rewrite E, E1. simpl. rewrite Hres. simpl. now rewrite andb_assoc.
    + intros n' [<-|Hin]; eauto.
    + intros ev Hin. rewrite app_nil_r in Hin. apply in_app_or in Hin.
      destruct Hin as [Hin|Hin].
      * exists n. split; [now left|].
        apply (compare_table_events conn1 conn2 n). now rewrite Htc.
      * destruct (G ev Hin) as [n' [Hn' Hq]]. exists n'. split; [now right | exact Hq].
Qed.

Lemma compare_loop_app_snd (conn1 conn2 : connection) (l1 l2 : list string) :
  forall c,
  snd (compare_loop conn1 conn2 (l1 ++ l2) c) =
    match snd (compare_loop conn1 conn2 l1 c) with
    | Ok c1 => snd (compare_loop conn1 conn2 l2 c1)
    | Raise e => Raise e
    end.
Proof.
  induction l1 as [|n l1 IH]; intros c; simpl; [reflexivity|].
  rewrite !bind_snd. destruct (snd (compare_step conn1 conn2 c n)); [apply IH | reflexivity].
Qed.

(** Once false, the verdict stays false through the loop. *)
Lemma compare_loop_keeps_false (conn1 conn2 : connection) (names : list string)
  (c c' : DatabaseComparison) :
  snd (compare_loop conn1 conn2 names c) = Ok c' ->
  db_is_identical c = false -> db_is_identical c' = false.
Proof.
  intros H Hfalse.
  destruct (compare_loop conn1 conn2 names c) as [t r] eqn:Hl. simpl in H. subst r.
  destruct (compare_loop_Ok _ _ _ _ _ _ Hl) as [_ [_ [_ [_ [E _]]]]].
  now rewrite E, Hfalse.
Qed.

Lemma asymmetry_check_verdict (c : DatabaseComparison) :
  db_is_identical (asymmetry_check c) = true
  <-> db_is_identical c = true
      /\ tables_only_in_db1 c = [] /\ tables_only_in_db2 c = [].
Proof.
  unfold asymmetry_check.
  destruct (len (tables_only_in_db1 c) =? 0) eqn:E1;
    destruct (len (tables_only_in_db2 c) =? 0) eqn:E2; simpl;
    rewrite <- !len_nil_iff, ?E1, ?E2; intuition congruence.
Qed.

Lemma asymmetry_check_fields (c : DatabaseComparison) :
  tables_only_in_db1 (asymmetry_check c) = tables_only_in_db1 c
  /\ tables_only_in_db2 (asymmetry_check c) = tables_only_in_db2 c
  /\ common_tables (asymmetry_check c) = common_tables c
  /\ table_comparisons (asymmetry_check c) = table_comparisons c.
Proof. unfold asymmetry_check. destruct (_ || _); repeat split; reflexivity. Qed.

Lemma compare_databases_Ok (conn1 conn2 : connection) (names1 names2 : list string)
  (trace : list event) (result : DatabaseComparison) :
  q_table_names conn1 = Ok names1 -> q_table_names conn2 = Ok names2 ->
  compare_databases conn1 conn2 = (trace, Ok result) ->
  let start := classify_tables conn1 conn2
                 (set_of_list String.eqb names1) (set_of_list String.eqb names2) in
  exists t c,
    compare_loop conn1 conn2 (py_set_order (common_tables start)) start = (t, Ok c)
    /\ result = asymmetry_check c
    /\ trace = [mkEvent (conn_db conn1) QTableNames; mkEvent (conn_db conn2) QTableNames]
               ++ t.
Proof.
  intros H1 H2 H start.
  unfold compare_databases, get_table_names, execute in H. rewrite H1, H2 in H.
  cbn [bind ret app fst snd] in H. fold start in H.
  destruct (compare_loop conn1 conn2 (py_set_order (common_tables start)) start)
    as [t [c|e]]; [|discriminate].
  cbn [bind ret app fst snd] in H. rewrite app_nil_r in H.
  injection H as <- <-. exists t, c. repeat split; reflexivity.
Qed.

Lemma In_order_common (conn1 conn2 : connection) (names1 names2 : list string) (x : string) :
  In x (py_set_order
          (common_tables
             (classify_tables conn1 conn2
                (set_of_list String.eqb names1) (set_of_list String.eqb names2))))
  <-> In x names1 /\ In x names2.
Proof.
  simpl. rewrite <- (set_of_list_string_In x names1), <- (set_of_list_string_In x names2).
  rewrite <- set_inter_string_In. split; intros H.
  - eapply Permutation_in; [apply py_set_order_perm | exact H].
  - eapply Permutation_in; [apply Permutation_sym, py_set_order_perm | exact H].
Qed.

(** C6.  In a run of [compare_databases] that returns, the overall verdict
    starts true; after each prefix of the loop over the common tables it is
    true exactly when every table compared so far is identical; once a
    prefix has made it false it is false after every longer prefix and in
    the result;
    the result is identical exactly when no table is on one side only and
    every recorded table comparison is identical.  A table on one side only
    is put in [tables_only_in_db1] or [tables_only_in_db2], is not a common
    table, gets no table comparison and no query, and makes the result
    non-identical. *)
Theorem compare_databases_verdict
  (conn1 conn2 : connection) (names1 names2 : list string)
  (trace : list event) (result : DatabaseComparison) :
  q_table_names conn1 = Ok names1 -> q_table_names conn2 = Ok names2 ->
  compare_databases conn1 conn2 = (trace, Ok result) ->
  let start := classify_tables conn1 conn2
                 (set_of_list String.eqb names1) (set_of_list String.eqb names2) in
  let order := py_set_order (common_tables start) in
  db_is_identical start = true
  /\ (forall k ck,
        snd (compare_loop conn1 conn2 (firstn k order) start) = Ok ck ->
        db_is_identical ck
        = forallb (fun n => verdict_of (table_result conn1 conn2 n)) (firstn k order))
  /\ (forall j k cj ck, (j <= k)%nat ->
        snd (compare_loop conn1 conn2 (firstn j order) start) = Ok cj ->
        snd (compare_loop conn1 conn2 (firstn k order) start) = Ok ck ->
        db_is_identical cj = false ->
        db_is_identical ck = false /\ db_is_identical result = false)
  /\ (db_is_identical result = true
      <-> tables_only_in_db1 result = [] /\ tables_only_in_db2 result = []
          /\ forall name tc, dict_get name (table_comparisons result) = Some tc ->
                             is_identical tc = true)
  /\ (forall name, (exists tc, dict_get name (table_comparisons result) = Some tc)
                   <-> In name names1 /\ In name names2)
  /\ (forall name,
        (In name names1 /\ ~ In name names2 -> In name (tables_only_in_db1 result))
        /\ (In name names2 /\ ~ In name names1 -> In name (tables_only_in_db2 result))
        /\ ((In name names1 /\ ~ In name names2) \/ (In name names2 /\ ~ In name names1) ->
            ~ In name (common_tables result)
            /\ dict_get name (table_comparisons result) = None
            /\ (forall ev, In ev trace -> query_table (ev_query ev) <> Some name)
            /\ db_is_identical result = false)).
Proof.
  intros H1 H2 H start order.
  destruct (compare_databases_Ok _ _ _ _ _ _ H1 H2 H) as [t [c [Hloop [-> ->]]]].
  fold start in Hloop. fold order in Hloop.
  destruct (compare_loop_Ok _ _ _ _ _ _ Hloop) as [A [B [C [D [E [F G]]]]]].
  destruct (asymmetry_check_fields c) as [A' [B' [C' D']]].
  assert (Hmem : forall name, set_mem String.eqb name order = true
                              <-> In name names1 /\ In name names2).
  { intros name. rewrite set_mem_string. apply In_order_common. }
  assert (Hone : forall name,
            (In name names1 /\ ~ In name names2) \/ (In name names2 /\ ~ In name names1) ->
            set_mem String.eqb name order = false).
  { intros name Hn. destruct (set_mem String.eqb name order) eqn:Em; [|reflexivity].
    apply Hmem in Em. tauto. }
  assert (Honly1 : forall name, In name names1 /\ ~ In name names2 ->
                                In name (tables_only_in_db1 c)).
  { intros name [Ha Hb]. rewrite A. simpl. apply set_diff_string_In.
    now rewrite !set_of_list_string_In. }
  assert (Honly2 : forall name, In name names2 /\ ~ In name names1 ->
                                In name (tables_only_in_db2 c)).
  { intros name [Ha Hb]. rewrite B. simpl. apply set_diff_string_In.
    now rewrite !set_of_list_string_In. }
  split; [reflexivity|]. split; [|split; [|split; [|split]]].
  - intros k ck Hk.
    destruct (compare_loop conn1 conn2 (firstn k order) start) as [tk rk] eqn:Hlk.
    simpl in Hk. subst rk.
    destruct (compare_loop_Ok _ _ _ _ _ _ Hlk) as [_ [_ [_ [_ [Ek _]]]]].
    rewrite Ek. reflexivity.
  - intros j k cj ck Hjk Hj Hk Hfalse.
    assert (Hk' : firstn k order = firstn j order ++ skipn j (firstn k order)).
    { rewrite <- (firstn_skipn j (firstn k order)) at 1.
      rewrite firstn_firstn, Nat.min_l by exact Hjk. reflexivity. }
    rewrite Hk', compare_loop_app_snd, Hj in Hk.
    assert (Hck := compare_loop_keeps_false _ _ _ _ _ Hk Hfalse).
    split; [exact Hck|].
    assert (Hall : snd (compare_loop conn1 conn2 order start) = Ok c)
      by now rewrite Hloop.
    rewrite <- (firstn_skipn k order), compare_loop_app_snd in Hall.
    rewrite Hk', compare_loop_app_snd, Hj, Hk in Hall.
    assert (Hc := compare_loop_keeps_false _ _ _ _ _ Hall Hck).
    destruct (db_is_identical (asymmetry_check c)) eqn:Ea; [|reflexivity].
    apply asymmetry_check_verdict in Ea. destruct Ea as [Ea _]. congruence.
  - rewrite asymmetry_check_verdict, A', B', D', E. simpl.
    rewrite forallb_forall.
    split.
    + intros [Hall [Ha Hb]]. split; [exact Ha|]. split; [exact Hb|].
      intros name tc Hget. rewrite D in Hget.
      destruct (set_mem String.eqb name order) eqn:Em; [|discriminate].
      apply set_mem_string in Em. specialize (Hall name Em).
      rewrite Hget in Hall. exact Hall.
    + intros [Ha [Hb Hall]]. split; [|split; assumption].
      intros name Hin. destruct (F name Hin) as [tc Htc]. rewrite Htc. simpl.
      apply (Hall name). rewrite D.
      apply set_mem_string in Hin. now rewrite Hin.
  - intros name. rewrite D', D, <- Hmem. split.
    + intros [tc Htc]. destruct (set_mem String.eqb name order); [reflexivity|].
      discriminate.
    + intros Em. rewrite Em. apply F. now apply set_mem_string.
  - intros name. rewrite A', B', C', D'. split; [apply Honly1|]. split; [apply Honly2|].
    intros Hn. split; [|split; [|split]].
    + rewrite C. simpl. rewrite set_inter_string_In, !set_of_list_string_In. tauto.
    + rewrite D, (Hone name Hn). reflexivity.
    + intros ev [<-|[<-|Hin]]; try discriminate.
      destruct (G ev Hin) as [n [Hin' Hq]]. rewrite Hq. intros [= ->].
      apply set_mem_string in Hin'. rewrite (Hone name Hn) in Hin'. discriminate.
    + destruct (db_is_identical (asymmetry_check c)) eqn:Ea; [|reflexivity].
      apply asymmetry_check_verdict in Ea. destruct Ea as [_ [Ea Eb]].
      destruct Hn as [Hn|Hn].
      * apply Honly1 in Hn. rewrite Ea in Hn. destruct Hn.
      * apply Honly2 in Hn. rewrite Eb in Hn. destruct Hn.
Qed.


Lemma compare_loop_returns (conn1 conn2 : connection) (names : list string) :
  (forall n, In n names -> exists tc, snd (compare_table conn1 conn2 n) = Ok tc) ->
  forall c, exists c', snd (compare_loop conn1 conn2 names c) = Ok c'.
Proof.
  induction names as [|n names IH]; intros Hall c; simpl; [eauto|].
  rewrite bind_snd, compare_step_snd.
  destruct (Hall n (or_introl eq_refl)) as [tc ->].
  apply IH. intros n' Hn'. apply Hall. now right.
Qed.

Lemma compare_databases_returns (conn1 conn2 : connection) (names1 names2 : list string) :
  q_table_names conn1 = Ok names1 -> q_table_names conn2 = Ok names2 ->
  (forall n, In n names1 -> In n names2 ->
             exists tc, snd (compare_table conn1 conn2 n) = Ok tc) ->
  exists result, snd (compare_databases conn1 conn2) = Ok result.
Proof.
  intros H1 H2 Hall.
  unfold compare_databases, get_table_names, execute. rewrite H1, H2.
  cbn [bind ret app fst snd].
  set (start := classify_tables conn1 conn2
                  (set_of_list String.eqb names1) (set_of_list String.eqb names2)).
  destruct (compare_loop_returns conn1 conn2 (py_set_order (common_tables start))) with (c := start)
    as [c' Hc'].
  - intros n Hn. apply In_order_common in Hn. destruct Hn. now apply Hall.
  - destruct (compare_loop conn1 conn2 (py_set_order (common_tables start)) start)
      as [t r]. simpl in Hc'. subst r. simpl. eauto.
Qed.

End ComparatorFacts.

Example compare_databases_scenario :
  @compare_databases ascii_runtime db_a db_b =
    ([ mkEvent "a.db" QTableNames; mkEvent "b.db" QTableNames;
       mkEvent "a.db" (QTableInfo "orders"); mkEvent "b.db" (QTableInfo "orders");
       mkEvent "a.db" (QCount "orders"); mkEvent "b.db" (QCount "orders");
       mkEvent "a.db" (QTableInfo "users"); mkEvent "b.db" (QTableInfo "users");
       mkEvent "a.db" (QCount "users"); mkEvent "b.db" (QCount "users");
       mkEvent "a.db" (QSelectAll "users"); mkEvent "b.db" (QSelectAll "users") ],
     Ok {| db1_path := "a.db"; db2_path := "b.db";
           tables_only_in_db1 := [];
           tables_only_in_db2 := ["logs"];
           common_tables := ["orders"; "users"];
           table_comparisons :=
             [ ("orders",
                {| table_name := "orders"; exists_in_db1 := true; exists_in_db2 := true;
                   schema_match := false; row_count_db1 := 1; row_count_db2 := 1;
                   schema_diff := ["Column 'discount' exists in DB2 but not in DB1"];
                   data_differences := [];
                   is_identical := false |});
               ("users",
                {| table_name := "users"; exists_in_db1 := true; exists_in_db2 := true;
                   schema_match := true; row_count_db1 := 2; row_count_db2 := 2;
                   schema_diff := [];
                   data_differences :=
                     [ ("row_count_match", DBool true); ("rows_only_in_db1", DInt 0);
                       ("rows_only_in_db2", DInt 0); ("modified_rows", DInt 0);
                       ("identical_rows", DInt 2); ("is_data_identical", DBool true) ];
                   is_identical := true |}) ];
           db_is_identical := false |}).
Proof. reflexivity. Qed.

Lemma compare_table_rows_iff_schema_match_witness :
  q_table_info db_a "orders" = Ok orders_schema_a
  /\ q_table_info db_b "orders" = Ok orders_schema_b
  /\ q_count db_a "orders" = Ok 1 /\ q_count db_b "orders" = Ok 1
  /\ fst (compare_schemas orders_schema_a orders_schema_b) = false
  /\ (existsb is_select_all (fst (@compare_table ascii_runtime db_a db_b "orders")) = true
      <-> fst (compare_schemas orders_schema_a orders_schema_b) = true).
Proof.
  repeat (split; [reflexivity|]).
  exact (proj1 (@compare_table_rows_iff_schema_match ascii_runtime db_a db_b "orders"
                  orders_schema_a orders_schema_b 1 1
                  eq_refl eq_refl eq_refl eq_refl)).
Defined.



Lemma compare_databases_verdict_witness :
  exists trace result,
    q_table_names db_a = Ok ["orders"; "users"]
    /\ q_table_names db_b = Ok ["logs"; "orders"; "users"]
    /\ @compare_databases ascii_runtime db_a db_b = (trace, Ok result)
    /\ In "logs" (tables_only_in_db2 result)
    /\ (db_is_identical result = true
        <-> tables_only_in_db1 result = [] /\ tables_only_in_db2 result = []
            /\ forall name tc, dict_get name (table_comparisons result) = Some tc ->
                               is_identical tc = true).
Proof.
  eexists. eexists.
  split; [reflexivity|]. split; [reflexivity|]. split; [reflexivity|].
  split; [simpl; auto|].
  exact (proj1 (proj2 (proj2 (proj2
           (@compare_databases_verdict ascii_runtime db_a db_b
              ["orders"; "users"] ["logs"; "orders"; "users"] _ _
              eq_refl eq_refl eq_refl))))).
Defined.

(** ** The difference analyzer *)

Section AnalyzerFacts.
Context `{RT : PyRuntime}.

Lemma len_nonneg {X : Type} (l : list X) : 0 <= len l.
Proof. unfold len. lia. Qed.

Lemma len_app_one {X : Type} (l : list X) (x : X) : len (l ++ [x]) = len l + 1.
Proof. unfold len. rewrite length_app. simpl. lia. Qed.

Lemma check_column_recorded (max_samples : Z) (row1 row2 : row)
  (st : Z * list type_mismatch) (col : string) :
  recorded (check_column max_samples row1 row2 st col)
  = recorded st
    || ((0 <? max_samples) && type_differs (row_get col row1) (row_get col row2)).
Proof.
  unfold check_column, recorded.
  destruct (type_differs (row_get col row1) (row_get col row2));
    [|now rewrite andb_false_r, orb_false_r].
  rewrite andb_true_r. pose proof (len_nonneg (snd st)) as Hnn.
  destruct (len (snd st) <? max_samples) eqn:Hlt; simpl.
  - rewrite len_app_one. apply Z.ltb_lt in Hlt.
    replace (0 <? len (snd st) + 1) with true by (symmetry; apply Z.ltb_lt; lia).
    replace (0 <? max_samples) with true by (symmetry; apply Z.ltb_lt; lia).
    now rewrite orb_true_r.
  - apply Z.ltb_ge in Hlt.
    destruct (0 <? max_samples) eqn:Hms; [|now rewrite orb_false_r].
    apply Z.ltb_lt in Hms.
    replace (0 <? len (snd st)) with true by (symmetry; apply Z.ltb_lt; lia).
    reflexivity.
Qed.

Lemma fold_check_column_recorded (max_samples : Z) (row1 row2 : row) (columns : list string) :
  forall st,
  recorded (fold_left (check_column max_samples row1 row2) columns st)
  = recorded st || ((0 <? max_samples) && row_has_mismatch columns row1 row2).
Proof.
  unfold row_has_mismatch.
  induction columns as [|col columns IH]; intros st; simpl.
  - now rewrite andb_false_r, orb_false_r.
  - rewrite IH, check_column_recorded.
    destruct (recorded st), (0 <? max_samples),
      (type_differs (row_get col row1) (row_get col row2)); reflexivity.
Qed.

Lemma check_row_recorded (max_samples : Z) (columns : list string)
  (data2_by_key : dict row) (st : Z * list type_mismatch) (item : string * row) :
  recorded (check_row max_samples columns data2_by_key st item)
  = recorded st
    || ((0 <? max_samples) && item_has_mismatch columns data2_by_key item).
Proof.
  unfold check_row, item_has_mismatch.
  destruct (dict_get (fst item) data2_by_key) as [row2|].
  - apply fold_check_column_recorded.
  - now rewrite andb_false_r, orb_false_r.
Qed.

Lemma fold_check_row_recorded (max_samples : Z) (columns : list string)
  (data2_by_key : dict row) (items : list (string * row)) :
  forall st,
  recorded (fold_left (check_row max_samples columns data2_by_key) items st)
  = recorded st
    || ((0 <? max_samples) && existsb (item_has_mismatch columns data2_by_key) items).
Proof.
  induction items as [|item items IH]; intros st; cbn [fold_left existsb].
  - now rewrite andb_false_r, orb_false_r.
  - rewrite IH, check_row_recorded.
    destruct (recorded st), (0 <? max_samples),
      (item_has_mismatch columns data2_by_key item); reflexivity.
Qed.

Lemma set_diff_string_nil (s t : list string) :
  set_diff String.eqb s t = [] <-> forall x, In x s -> In x t.
Proof.
  split.
  - intros H x Hx. destruct (set_mem String.eqb x t) eqn:E.
    + now apply set_mem_string.
    + exfalso. assert (Hin : In x (set_diff String.eqb s t)).
      { apply set_diff_string_In. split; [exact Hx|].
        intros Ht. apply set_mem_string in Ht. congruence. }
      rewrite H in Hin. destruct Hin.
  - intros H. destruct (set_diff String.eqb s t) as [|x l] eqn:E; [reflexivity|].
    assert (Hin : In x (set_diff String.eqb s t)) by (rewrite E; now left).
    apply set_diff_string_In in Hin. destruct Hin as [Hs Ht]. exfalso. auto.
Qed.

(** The flag computed by the analyzer on two non-empty inputs. *)
Lemma is_type_only_difference_eq (first second : row) (rest1 rest2 : list row)
  (table : string) (max_samples : Z) :
  let data1 := first :: rest1 in
  let data2 := second :: rest2 in
  is_type_only_difference (analyze_row_differences data1 data2 table max_samples)
  = (0 <? max_samples)
    && existsb (item_has_mismatch (dict_keys first) (rows_by_key data2))
         (slice_to (rows_by_key data1) (max_samples * 2))
    && (len (set_diff String.eqb
               (set_of_list String.eqb (dict_keys (rows_by_key data1)))
               (set_of_list String.eqb (dict_keys (rows_by_key data2)))) =? 0)
    && (len (set_diff String.eqb
               (set_of_list String.eqb (dict_keys (rows_by_key data2)))
               (set_of_list String.eqb (dict_keys (rows_by_key data1)))) =? 0).
Proof.
  intros data1 data2. subst data1 data2.
  unfold analyze_row_differences. cbn [is_type_only_difference].
  match goal with
  | |- context [0 <? len (snd ?st)] => change (0 <? len (snd st)) with (recorded st)
  end.
  rewrite fold_check_row_recorded. reflexivity.
Qed.

(** C7.  The flag [is_type_only_difference] is true exactly when both
    inputs are non-empty, the sample bound is positive, a type mismatch
    (equal text, different type, in a column of the first row of side 1) is
    found among the first [2 * max_samples] lookup entries of side 1 whose
    key is also a key of side 2, and no lookup key is on one side only. *)
Theorem is_type_only_difference_iff (data1 data2 : list row) (table : string)
  (max_samples : Z) :
  is_type_only_difference (analyze_row_differences data1 data2 table max_samples) = true
  <-> data1 <> [] /\ data2 <> [] /\ 0 < max_samples
      /\ (exists key row1 row2 col,
            In (key, row1) (firstn (Z.to_nat (max_samples * 2)) (rows_by_key data1))
            /\ dict_get key (rows_by_key data2) = Some row2
            /\ In col (columns_of data1)
            /\ type_differs (row_get col row1) (row_get col row2) = true)
      /\ (forall key, In key (dict_keys (rows_by_key data1))
                      <-> In key (dict_keys (rows_by_key data2))).
Proof.
  destruct data1 as [|first rest1].
  { simpl. split; [discriminate | intros [H _]; congruence]. }
  destruct data2 as [|second rest2].
  { simpl. split; [discriminate | intros [_ [H _]]; congruence]. }
  rewrite is_type_only_difference_eq.
  rewrite !andb_true_iff, Z.ltb_lt, !len_nil_iff, !set_diff_string_nil.
  set (d1 := rows_by_key (first :: rest1)). set (d2 := rows_by_key (second :: rest2)).
  assert (Hkeys : (forall key, In key (dict_keys d1) <-> In key (dict_keys d2))
                  <-> (forall x, In x (set_of_list String.eqb (dict_keys d1)) ->
                                 In x (set_of_list String.eqb (dict_keys d2)))
                      /\ (forall x, In x (set_of_list String.eqb (dict_keys d2)) ->
                                    In x (set_of_list String.eqb (dict_keys d1)))).
  { split.
    - intros H. split; intros x; rewrite !set_of_list_string_In; apply H.
    - intros [Ha Hb] key. split; intros Hk.
      + apply set_of_list_string_In, Ha, set_of_list_string_In, Hk.
      + apply set_of_list_string_In, Hb, set_of_list_string_In, Hk. }
  assert (Hex : forall items,
            existsb (item_has_mismatch (dict_keys first) d2) items = true
            <-> exists key row1 row2 col,
                  In (key, row1) items /\ dict_get key d2 = Some row2
                  /\ In col (dict_keys first)
                  /\ type_differs (row_get col row1) (row_get col row2) = true).
  { intros items. rewrite existsb_exists. split.
    - intros [[key row1] [Hin Hm]]. unfold item_has_mismatch in Hm. simpl in Hm.
      destruct (dict_get key d2) as [row2|] eqn:Hget; [|discriminate].
      unfold row_has_mismatch in Hm. apply existsb_exists in Hm.
      destruct Hm as [col [Hcol Hd]]. exists key, row1, row2, col. auto.
    - intros [key [row1 [row2 [col [Hin [Hget [Hcol Hd]]]]]]].
      exists (key, row1). split; [exact Hin|].
      unfold item_has_mismatch. simpl. rewrite Hget.
      unfold row_has_mismatch. apply existsb_exists. eauto. }
  split.
  - intros [[[Hms Hm] K1] K2].
    split; [discriminate|]. split; [discriminate|]. split; [exact Hms|].
    split; [|apply Hkeys; auto].
    unfold slice_to in Hm.
    replace (0 <=? max_samples * 2) with true in Hm by (symmetry; apply Z.leb_le; lia).
    apply Hex in Hm. exact Hm.
  - intros [_ [_ [Hms [Hm K]]]]. apply Hkeys in K. destruct K as [K1 K2].
    repeat split; auto.
    unfold slice_to.
    replace (0 <=? max_samples * 2) with true by (symmetry; apply Z.leb_le; lia).
    apply Hex. exact Hm.
Qed.

(** C10.  When either input is empty, the analyzer returns the initial
    analysis: no type mismatch, no sample row for either side, and the
    type-only flag false. *)
Theorem analyze_row_differences_empty_side (data1 data2 : list row) (table : string)
  (max_samples : Z) :
  data1 = [] \/ data2 = [] ->
  analyze_row_differences data1 data2 table max_samples
  = {| type_mismatches := []; value_mismatches := [];
       sample_rows_db1_only := []; sample_rows_db2_only := [];
       is_type_only_difference := false |}.
Proof. intros [-> | ->]; [|destruct data1]; reflexivity. Qed.

End AnalyzerFacts.

(** *** The analyzer on a concrete table

    Eleven rows on each side with the same text; only the last row stores
    [qty] as an integer on side 1 and as text on side 2. *)
Lemma is_type_only_difference_counterexample :
  let data1 := stock_rows (VInt 110) in
  let data2 := stock_rows (VStr "110") in
  let found := @analyze_row_differences ascii_runtime data1 data2 "stock" 5 in
  is_type_only_difference found = false
  /\ type_mismatches found = []
  /\ (exists row1 row2 col,
        In row1 data1 /\ In row2 data2
        /\ @create_lookup_key ascii_runtime row1 = @create_lookup_key ascii_runtime row2
        /\ @type_differs ascii_runtime (row_get col row1) (row_get col row2) = true)
  /\ (forall key, In key (map (@create_lookup_key ascii_runtime) data1)
                  <-> In key (map (@create_lookup_key ascii_runtime) data2))
  /\ is_type_only_difference
       (@analyze_row_differences ascii_runtime data1 data2 "stock" 6) = true.
Proof.
  intros data1 data2 found.
  split; [reflexivity|]. split; [reflexivity|]. split; [|split; [|reflexivity]].
  - exists [("id", VInt 11); ("qty", VInt 110)],
           [("id", VInt 11); ("qty", VStr "110")], "qty".
    split; [apply in_or_app; right; now left|].
    split; [apply in_or_app; right; now left|].
    split; reflexivity.
  - intros key.
    assert (E : map (@create_lookup_key ascii_runtime) data1
                = map (@create_lookup_key ascii_runtime) data2) by reflexivity.
    rewrite E. reflexivity.
Qed.

Example analyze_row_differences_type_only :
  @analyze_row_differences ascii_runtime
    [ [("id", VInt 1); ("qty", VInt 5)] ] [ [("id", VInt 1); ("qty", VStr "5")] ] "stock" 5
  = {| type_mismatches :=
         [ {| tm_column := "qty"; tm_value := "5";
              tm_type_db1 := "int"; tm_type_db2 := "str";
              tm_sample_row := [("id", "1"); ("qty", "5")] |} ];
       value_mismatches := [];
       sample_rows_db1_only := []; sample_rows_db2_only := [];
       is_type_only_difference := true |}.
Proof. reflexivity. Qed.

Lemma analyze_row_differences_empty_side_witness :
  let data2 := [ [("id", VInt 1); ("qty", VStr "5")]; [("id", VInt 2); ("qty", VNone)] ] in
  (@nil row = [] \/ data2 = [])
  /\ @analyze_row_differences ascii_runtime [] data2 "stock" 5
     = {| type_mismatches := []; value_mismatches := [];
          sample_rows_db1_only := []; sample_rows_db2_only := [];
          is_type_only_difference := false |}.
Proof.
  intros data2.
  assert (H : @nil row = [] \/ data2 = []) by (left; reflexivity).
  split; [exact H|].
  exact (@analyze_row_differences_empty_side ascii_runtime [] data2 "stock" 5 H).
Defined.

(** * Further properties

    Properties of the same functions, of the catalog reader, of the console
    report and of [main], that the code shows beyond the ones above. *)

(** ** More on dictionaries *)

Lemma dict_set_keys_NoDup {V} (k : string) (v : V) (d : dict V) :
  NoDup (dict_keys d) -> NoDup (dict_keys (dict_set k v d)).
Proof.
  unfold dict_keys. induction d as [|[k' v'] d IH]; simpl; intros Hnd.
  - constructor; [tauto | constructor].
  - destruct (String.eqb_spec k k') as [->|Hne]; simpl; [exact Hnd|].
    inversion Hnd as [|? ? Hnotin Hnd']; subst. constructor; [|auto].
    intros Hin. apply Hnotin. clear - Hin Hne.
    induction d as [|[k0 v0] d IH]; simpl in *.
    + destruct Hin as [H|[]]. congruence.
    + destruct (String.eqb_spec k k0) as [->|Hne0]; simpl in Hin; [exact Hin|].
      destruct Hin as [H|H]; [now left | right; auto].
Qed.

Lemma dict_set_In {V} (k : string) (v : V) (d : dict V) (it : string * V) :
  In it (dict_set k v d) -> it = (k, v) \/ In it d.
Proof.
  induction d as [|[k' v'] d IH]; simpl.
  - intros [<-|[]]. now left.
  - destruct (String.eqb_spec k k') as [->|Hne]; simpl.
    + intros [<-|H]; auto.
    + intros [<-|H]; auto. destruct (IH H); auto.
Qed.

Lemma fold_dict_set_keys_NoDup {V X} (f : X -> string * V) (l : list X) (acc : dict V) :
  NoDup (dict_keys acc) ->
  NoDup (dict_keys (fold_left (fun d x => dict_set (fst (f x)) (snd (f x)) d) l acc)).
Proof.
  revert acc. induction l as [|x l IH]; intros acc Hnd; simpl; [exact Hnd|].
  apply IH, dict_set_keys_NoDup, Hnd.
Qed.

Lemma dict_of_items_keys_NoDup {V} (kvs : list (string * V)) :
  NoDup (dict_keys (dict_of_items kvs)).
Proof.
  unfold dict_of_items.
  apply (fold_dict_set_keys_NoDup (fun kv => kv)). constructor.
Qed.

Lemma dict_get_mem {V} (k : string) (d : dict V) :
  dict_mem k d = true <-> exists v, dict_get k d = Some v.
Proof.
  unfold dict_mem. destruct (dict_get k d) as [v|].
  - split; eauto.
  - split; [discriminate | intros [v H]; discriminate].
Qed.

Lemma dict_get_Some_key {V} (k : string) (v : V) (d : dict V) :
  dict_get k d = Some v -> In k (dict_keys d).
Proof. intros H. apply dict_mem_In, dict_get_mem. eauto. Qed.

(** ** The schema differ, continued *)

Lemma column_eqb_refl (c : column) : column_eqb c c = true.
Proof. now apply column_eqb_eq. Qed.

Lemma column_eqb_sym (a b : column) : column_eqb a b = column_eqb b a.
Proof.
  apply eq_true_iff_eq. rewrite !column_eqb_eq. split; congruence.
Qed.

Lemma compare_schemas_pair (schema1 schema2 : list column) :
  compare_schemas schema1 schema2
  = (Nat.eqb (List.length (snd (compare_schemas schema1 schema2))) 0,
     snd (compare_schemas schema1 schema2)).
Proof. reflexivity. Qed.

Lemma compare_schemas_self (schema : list column) :
  snd (compare_schemas schema schema) = [].
Proof.
  rewrite compare_schemas_differences.
  assert (Hnil : forall a b : list string, a = [] -> b = [] -> a ++ b = [])
    by (intros a b -> ->; reflexivity).
  assert (Honly : forall suffix x, In x (dict_keys (schema_dict schema)) ->
            emit_only_in (schema_dict schema) suffix x = []).
  { intros suffix x Hx. unfold emit_only_in.
    apply dict_mem_In in Hx. now rewrite Hx. }
  apply Hnil; [|apply Hnil]; apply flat_map_nil; intros x Hx; auto.
  unfold emit_changed. destruct (dict_get x (schema_dict schema)) as [c|]; [|reflexivity].
  now rewrite column_eqb_refl.
Qed.

(** X1.  A schema compared with itself matches and yields no difference,
    whatever it lists (repeated column names included). *)
Theorem compare_schemas_reflexive (schema : list column) :
  compare_schemas schema schema = (true, []).
Proof. rewrite compare_schemas_pair. now rewrite compare_schemas_self. Qed.

Lemma flat_map_length_filter {X Y : Type} (emit : X -> list Y) (p : X -> bool) (l : list X) :
  (forall x, List.length (emit x) = if p x then 1%nat else 0%nat) ->
  List.length (flat_map emit l) = List.length (filter p l).
Proof.
  intros H. induction l as [|x l IH]; simpl; [reflexivity|].
  rewrite length_app, H, IH. destruct (p x); reflexivity.
Qed.

Lemma changed_name_sym (d1 d2 : dict column) (x : string) :
  changed_name d1 d2 x = changed_name d2 d1 x.
Proof.
  unfold changed_name.
  destruct (dict_get x d1), (dict_get x d2); try reflexivity.
  now rewrite column_eqb_sym.
Qed.

Lemma filter_changed_Permutation (d1 d2 : dict column) :
  NoDup (dict_keys d1) -> NoDup (dict_keys d2) ->
  Permutation (filter (changed_name d1 d2) (dict_keys d1))
              (filter (changed_name d2 d1) (dict_keys d2)).
Proof.
  intros H1 H2. apply NoDup_Permutation.
  - now apply NoDup_filter.
  - now apply NoDup_filter.
  - intros x. rewrite !filter_In, (changed_name_sym d2 d1).
    split; intros [Hin Hc]; (split; [|exact Hc]);
      unfold changed_name in Hc.
    + destruct (dict_get x d1); [|discriminate].
      destruct (dict_get x d2) eqn:E; [|discriminate].
      eapply dict_get_Some_key; eauto.
    + destruct (dict_get x d1) eqn:E; [|discriminate].
      eapply dict_get_Some_key; eauto.
Qed.

Lemma compare_schemas_count (schema1 schema2 : list column) :
  let d1 := schema_dict schema1 in
  let d2 := schema_dict schema2 in
  List.length (snd (compare_schemas schema1 schema2))
  = (List.length (filter (fun x => negb (dict_mem x d2)) (dict_keys d1))
     + List.length (filter (fun x => negb (dict_mem x d1)) (dict_keys d2))
     + List.length (filter (changed_name d1 d2) (dict_keys d1)))%nat.
Proof.
  intros d1 d2. rewrite compare_schemas_differences. fold d1 d2.
  rewrite !length_app.
  rewrite (flat_map_length_filter _ (fun x => negb (dict_mem x d2))).
  2:{ intros x. unfold emit_only_in. destruct (negb _); reflexivity. }
  rewrite (flat_map_length_filter _ (fun x => negb (dict_mem x d1))).
  2:{ intros x. unfold emit_only_in. destruct (negb _); reflexivity. }
  rewrite (flat_map_length_filter _ (changed_name d1 d2)).
  2:{ intros x. unfold emit_changed, changed_name.
      destruct (dict_get x d1); [|reflexivity].
      destruct (dict_get x d2); [|reflexivity].
      destruct (negb _); reflexivity. }
  lia.
Qed.

(** X2.  Swapping the two schemas changes neither the verdict nor the
    number of differences reported. *)
Theorem compare_schemas_symmetric (schema1 schema2 : list column) :
  fst (compare_schemas schema2 schema1) = fst (compare_schemas schema1 schema2)
  /\ List.length (snd (compare_schemas schema2 schema1))
     = List.length (snd (compare_schemas schema1 schema2)).
Proof.
  assert (Hlen : List.length (snd (compare_schemas schema2 schema1))
                 = List.length (snd (compare_schemas schema1 schema2))).
  { rewrite !compare_schemas_count. cbv zeta.
    rewrite (Permutation_length
               (filter_changed_Permutation (schema_dict schema2) (schema_dict schema1)
                  (dict_of_items_keys_NoDup _) (dict_of_items_keys_NoDup _))).
    lia. }
  split; [|exact Hlen].
  rewrite (compare_schemas_pair schema2 schema1), (compare_schemas_pair schema1 schema2).
  cbn [fst]. now rewrite Hlen.
Qed.

(** X3.  Two schemas with distinct column names match exactly when one
    lists the rows [(cid, name, type, notnull, dflt_value, pk)] of the other,
    in any order. *)
Theorem compare_schemas_match_iff_same_columns (schema1 schema2 : list column) :
  wf_schema schema1 -> wf_schema schema2 ->
  (fst (compare_schemas schema1 schema2) = true <-> Permutation schema1 schema2).
Proof.
  intros Hwf1 Hwf2. rewrite compare_schemas_same_columns by assumption.
  assert (Hnd : forall s, wf_schema s -> NoDup s).
  { intros s H. unfold wf_schema in H. now apply NoDup_map_inv in H. }
  split.
  - intros H. apply NoDup_Permutation; auto.
  - intros Hp c. split; intros Hc.
    + eapply Permutation_in; eauto.
    + eapply Permutation_in; [apply Permutation_sym|]; eauto.
Qed.

(** X4.  The difference list of two schemas with distinct column names
    holds exactly: one message per column of the first schema whose name the
    second lacks, one per column of the second whose name the first lacks,
    and one per name present on both sides with different rows, which shows
    the two declared types (also when the rows differ elsewhere). *)
Theorem compare_schemas_messages (schema1 schema2 : list column) (msg : string) :
  wf_schema schema1 -> wf_schema schema2 ->
  (In msg (snd (compare_schemas schema1 schema2)) <->
   (exists c, In c schema1 /\ ~ In (c_name c) (map c_name schema2)
              /\ msg = fstr ["Column '"; c_name c; "' exists in DB1 but not in DB2"])
   \/ (exists c, In c schema2 /\ ~ In (c_name c) (map c_name schema1)
                 /\ msg = fstr ["Column '"; c_name c; "' exists in DB2 but not in DB1"])
   \/ (exists c1 c2, In c1 schema1 /\ In c2 schema2 /\ c_name c1 = c_name c2 /\ c1 <> c2
                     /\ msg = fstr ["Column '"; c_name c1; "' has different definitions: ";
                                    "DB1="; c_type c1; " vs DB2="; c_type c2])).
Proof.
  intros Hwf1 Hwf2.
  rewrite compare_schemas_differences, !in_app_iff, !in_flat_map.
  rewrite !schema_dict_keys by assumption.
  assert (Honly : forall sa sb suffix, wf_schema sb ->
            (exists x, In x (map c_name sa) /\ In msg (emit_only_in (schema_dict sb) suffix x))
            <-> (exists c, In c sa /\ ~ In (c_name c) (map c_name sb)
                           /\ msg = fstr ["Column '"; c_name c; suffix])).
  { intros sa sb suffix Hwb. split.
    - intros [x [Hx Hin]]. apply in_map_iff in Hx. destruct Hx as [c [<- Hc]].
      unfold emit_only_in in Hin.
      destruct (dict_mem (c_name c) (schema_dict sb)) eqn:E; simpl in Hin; [tauto|].
      destruct Hin as [<-|[]]. exists c. split; [exact Hc|]. split; [|reflexivity].
      intros Hn. rewrite <- schema_dict_keys in Hn by assumption.
      apply dict_mem_In in Hn. congruence.
    - intros [c [Hc [Hn ->]]]. exists (c_name c). split; [now apply in_map|].
      unfold emit_only_in.
      destruct (dict_mem (c_name c) (schema_dict sb)) eqn:E; simpl; [|now left].
      exfalso. apply Hn. apply dict_mem_In in E.
      now rewrite schema_dict_keys in E by assumption. }
  rewrite (Honly schema1 schema2 _ Hwf2), (Honly schema2 schema1 _ Hwf1).
  apply or_iff_compat_l, or_iff_compat_l.
  split.
  - intros [x [Hx Hin]]. unfold emit_changed in Hin.
    destruct (dict_get x (schema_dict schema1)) as [c1|] eqn:G1; [|destruct Hin].
    destruct (dict_get x (schema_dict schema2)) as [c2|] eqn:G2; [|destruct Hin].
    destruct (column_eqb c1 c2) eqn:E; simpl in Hin; [tauto|].
    destruct Hin as [<-|[]].
    apply schema_dict_get in G1, G2; try assumption.
    destruct G1 as [Hc1 <-], G2 as [Hc2 Hn2].
    exists c1, c2. repeat split; auto.
    intros ->. rewrite column_eqb_refl in E. discriminate.
  - intros [c1 [c2 [Hc1 [Hc2 [Hn [Hne ->]]]]]].
    exists (c_name c1). split; [now apply in_map|].
    unfold emit_changed.
    rewrite (proj2 (schema_dict_get schema1 (c_name c1) c1 Hwf1) (conj Hc1 eq_refl)).
    rewrite (proj2 (schema_dict_get schema2 (c_name c1) c2 Hwf2) (conj Hc2 (eq_sym Hn))).
    destruct (column_eqb c1 c2) eqn:E; simpl; [|now left].
    apply column_eqb_eq in E. contradiction.
Qed.

Section PySetMore.
Context {A : Type} (eqb : A -> A -> bool).
Hypothesis eqb_sym : forall x y, eqb x y = eqb y x.
Hypothesis eqb_trans : forall x y z, eqb x y = true -> eqb y z = true -> eqb x z = true.

Lemma set_mem_false (x : A) (s : list A) :
  set_mem eqb x s = false <-> forall y, In y s -> eqb x y = false.
Proof.
  unfold set_mem. induction s as [|z s IH]; simpl.
  - split; [intros _ y [] | reflexivity].
  - rewrite orb_false_iff, IH. split.
    + intros [Hz Hs] y [<-|Hy]; auto.
    + intros H. split; [apply H; now left | intros y Hy; apply H; now right].
Qed.

Lemma set_mem_true (x : A) (s : list A) :
  set_mem eqb x s = true <-> exists y, In y s /\ eqb x y = true.
Proof. unfold set_mem. apply existsb_exists. Qed.

Lemma set_diff_nil_iff (s t : list A) :
  set_diff eqb s t = [] <-> forall x, In x s -> set_mem eqb x t = true.
Proof.
  unfold set_diff. induction s as [|x s IH]; simpl.
  - split; [intros _ y [] | reflexivity].
  - destruct (set_mem eqb x t) eqn:E; simpl.
    + rewrite IH. split.
      * intros H y [<-|Hy]; auto.
      * intros H y Hy. apply H. now right.
    + split; [discriminate|]. intros H. specialize (H x (or_introl eq_refl)). congruence.
Qed.

Lemma set_add_In (s : list A) (x y : A) :
  In y (set_add eqb s x) -> In y s \/ y = x.
Proof.
  unfold set_add. destruct (set_mem eqb x s); [auto|].
  intros H. apply in_app_or in H. destruct H as [H|[H|[]]]; auto.
Qed.

Lemma fold_set_add_In (l s : list A) (y : A) :
  In y (fold_left (set_add eqb) l s) -> In y s \/ In y l.
Proof.
  revert s. induction l as [|x l IH]; intros s; simpl; [auto|].
  intros H. destruct (IH _ H) as [H'|H']; [|auto].
  destruct (set_add_In _ _ _ H'); subst; auto.
Qed.

(** The members of a set built from a list are elements of the list. *)
Lemma set_of_list_In (l : list A) (y : A) : In y (set_of_list eqb l) -> In y l.
Proof.
  unfold set_of_list. intros H. destruct (fold_set_add_In _ _ _ H) as [[]|H']. exact H'.
Qed.

Lemma set_add_length (s : list A) (x : A) :
  (List.length s <= List.length (set_add eqb s x) <= List.length s + 1)%nat.
Proof.
  unfold set_add. destruct (set_mem eqb x s); [lia|].
  rewrite length_app. simpl. lia.
Qed.

Lemma fold_set_add_length (l s : list A) :
  (List.length (fold_left (set_add eqb) l s) <= List.length s + List.length l)%nat.
Proof.
  revert s. induction l as [|x l IH]; intros s; simpl; [lia|].
  specialize (IH (set_add eqb s x)). pose proof (set_add_length s x). lia.
Qed.

(** A set has at most as many members as the list it is built from. *)
Lemma set_of_list_length (l : list A) :
  (List.length (set_of_list eqb l) <= List.length l)%nat.
Proof. unfold set_of_list. apply (fold_set_add_length l []). Qed.

(** [s - t] and [s & t] split [s]. *)
Lemma set_diff_inter_length (s t : list A) :
  (List.length (set_diff eqb s t) + List.length (set_inter eqb s t))%nat = List.length s.
Proof.
  unfold set_diff, set_inter. induction s as [|x s IH]; simpl; [reflexivity|].
  destruct (set_mem eqb x t); simpl; lia.
Qed.

Lemma fold_set_add_keeps (l s : list A) (x : A) :
  In x s -> In x (fold_left (set_add eqb) l s).
Proof.
  revert s. induction l as [|w l IH]; intros s H; simpl; [exact H|].
  apply IH. unfold set_add. destruct (set_mem eqb w s); [exact H|].
  apply in_or_app. now left.
Qed.

(** An element of the list is a member of the set, or equal to one. *)
Lemma fold_set_add_covers (l s : list A) (x : A) :
  In x l ->
  In x (fold_left (set_add eqb) l s)
  \/ set_mem eqb x (fold_left (set_add eqb) l s) = true.
Proof.
  revert s. induction l as [|w l IH]; intros s Hin; [destruct Hin|].
  simpl. destruct Hin as [->|Hin]; [|now apply IH].
  unfold set_add. destruct (set_mem eqb x s) eqn:E.
  - right. rewrite (set_mem_fold eqb eqb_sym eqb_trans), E. reflexivity.
  - left. apply fold_set_add_keeps, in_or_app. right. now left.
Qed.

(** [set(l) - set(m)] is empty exactly when every element of [l] is equal
    to an element of [m]. *)
Lemma set_diff_of_list_nil (l m : list A) :
  set_diff eqb (set_of_list eqb l) (set_of_list eqb m) = []
  <-> forall x, In x l -> exists y, In y m /\ eqb x y = true.
Proof.
  rewrite set_diff_nil_iff. split.
  - intros H x Hx. apply set_mem_true.
    rewrite <- (set_mem_of_list eqb eqb_sym eqb_trans).
    destruct (fold_set_add_covers l [] x Hx) as [Hin|Hmem].
    + now apply H.
    + apply set_mem_true in Hmem. destruct Hmem as [x' [Hx' Hxx']].
      rewrite (set_mem_congr eqb eqb_sym eqb_trans x x' _ Hxx'). now apply H.
  - intros H x Hx. apply set_of_list_In in Hx.
    rewrite (set_mem_of_list eqb eqb_sym eqb_trans). apply set_mem_true. auto.
Qed.

Lemma filter_nil_iff (p : A -> bool) (l : list A) :
  filter p l = [] <-> forall x, In x l -> p x = false.
Proof.
  induction l as [|x l IH]; simpl.
  - split; [intros _ y [] | reflexivity].
  - destruct (p x) eqn:E.
    + split; [discriminate|]. intros H. specialize (H x (or_introl eq_refl)). congruence.
    + rewrite IH. split.
      * intros H y [<-|Hy]; auto.
      * intros H y Hy. apply H. now right.
Qed.

(** *** Sets hold pairwise distinct members *)

Lemma pairwise_distinct_app_one (s : list A) (x : A) :
  pairwise_distinct eqb s -> set_mem eqb x s = false -> pairwise_distinct eqb (s ++ [x]).
Proof.
  intros Hpd Hx. rewrite set_mem_false in Hx.
  induction s as [|z s IH]; simpl.
  - split; [intros y [] | exact I].
  - destruct Hpd as [Hz Hpd]. split.
    + intros y Hy. apply in_app_or in Hy. destruct Hy as [Hy|[<-|[]]]; [auto|].
      rewrite eqb_sym. apply Hx. now left.
    + apply IH; [exact Hpd|]. intros y Hy. apply Hx. now right.
Qed.

Lemma pairwise_distinct_fold (l s : list A) :
  pairwise_distinct eqb s -> pairwise_distinct eqb (fold_left (set_add eqb) l s).
Proof.
  revert s. induction l as [|x l IH]; intros s Hpd; simpl; [exact Hpd|].
  apply IH. unfold set_add. destruct (set_mem eqb x s) eqn:E; [exact Hpd|].
  now apply pairwise_distinct_app_one.
Qed.

Lemma pairwise_distinct_of_list (l : list A) : pairwise_distinct eqb (set_of_list eqb l).
Proof. unfold set_of_list. now apply pairwise_distinct_fold. Qed.

Lemma count_equal_members (x : A) (t : list A) :
  pairwise_distinct eqb t ->
  List.length (filter (fun y => eqb y x) t) = if set_mem eqb x t then 1%nat else 0%nat.
Proof.
  induction t as [|y t IH]; simpl; [reflexivity|].
  intros [Hy Hpd]. rewrite (eqb_sym x y).
  destruct (eqb y x) eqn:E; simpl.
  - assert (Hnone : filter (fun y0 => eqb y0 x) t = []).
    { apply filter_nil_iff. intros z Hz. destruct (eqb z x) eqn:Ez; [|reflexivity].
      assert (eqb y z = true).
      { apply (eqb_trans y x z); [exact E | now rewrite eqb_sym]. }
      rewrite (Hy z Hz) in H. discriminate. }
    now rewrite Hnone.
  - now apply IH.
Qed.

Lemma filter_orb_length (p q : A -> bool) (t : list A) :
  (forall y, In y t -> p y = true -> q y = true -> False) ->
  List.length (filter (fun y => p y || q y) t)
  = (List.length (filter p t) + List.length (filter q t))%nat.
Proof.
  induction t as [|y t IH]; simpl; intros H; [reflexivity|].
  assert (IH' := IH (fun z Hz => H z (or_intror Hz))).
  destruct (p y) eqn:Ep, (q y) eqn:Eq; simpl; rewrite ?IH'; try lia.
  exfalso. apply (H y); auto.
Qed.

(** The intersection has the same number of members whichever side it is
    taken from. *)
Lemma set_inter_length_sym (s t : list A) :
  pairwise_distinct eqb s -> pairwise_distinct eqb t ->
  List.length (set_inter eqb s t) = List.length (set_inter eqb t s).
Proof.
  intros Hs Ht. unfold set_inter. induction s as [|x s IH].
  - simpl. symmetry. apply length_zero_iff_nil, filter_nil_iff. reflexivity.
  - destruct Hs as [Hx Hs]. cbn [filter].
    change (filter (fun y => set_mem eqb y (x :: s)) t)
      with (filter (fun y => eqb y x || set_mem eqb y s) t).
    rewrite filter_orb_length.
    + rewrite (count_equal_members x t Ht), <- IH by exact Hs.
      destruct (set_mem eqb x t); reflexivity.
    + intros y _ Hyx Hys. apply set_mem_true in Hys. destruct Hys as [z [Hz Hyz]].
      assert (eqb x z = true).
      { apply (eqb_trans x y z); [now rewrite eqb_sym | exact Hyz]. }
      rewrite (Hx z Hz) in H. discriminate.
Qed.

End PySetMore.

Lemma float_of_units_not_nan (neg : bool) (N D : Z) : float_of_units neg N D <> S754_nan.
Proof.
  unfold float_of_units. destruct (nearest_mantissa N D) as [m j].
  destruct (m =? 2 ^ 53).
  - destruct (2 ^ 52); [discriminate| |discriminate].
    destruct (j + 1 - 1074 <=? emax - prec); discriminate.
  - destruct m; [discriminate| |discriminate].
    destruct (j - 1074 <=? emax - prec); discriminate.
Qed.

(** Rounding a number never gives a NaN. *)
Lemma round10_not_nan (x : spec_float) : x <> S754_nan -> round10 x <> S754_nan.
Proof.
  destruct x as [s|s| |s m e]; simpl; try congruence.
  intros _. destruct (scaled10 m e); try discriminate.
  apply float_of_units_not_nan.
Qed.

Section DifferMore.
Context `{RT : PyRuntime}.

Lemma storable_class (v : value) :
  storable v = true -> value_class (normalize_value v) <> None.
Proof.
  destruct v as [|z|f|s|b|n t]; simpl; intros H; try discriminate.
  assert (Hn : round10 f <> S754_nan).
  { apply round10_not_nan. intros ->. discriminate. }
  destruct (round10 f); simpl; try discriminate. congruence.
Qed.

Lemma item_eqb_refl (it : string * value) :
  value_class (snd it) <> None -> item_eqb it it = true.
Proof.
  intros H. unfold item_eqb. rewrite String.eqb_refl. simpl. now apply value_eqb_refl.
Qed.

Lemma frozenset_eqb_refl (fs : frozenset) :
  (forall it, In it fs -> value_class (snd it) <> None) -> frozenset_eqb fs fs = true.
Proof.
  intros H. unfold frozenset_eqb.
  assert (E : set_subset item_eqb fs fs = true).
  { apply set_subset_spec. intros x Hx. apply set_mem_true. exists x.
    split; [exact Hx | apply item_eqb_refl; auto]. }
  now rewrite E.
Qed.

Lemma fold_normalized_In (r : row) (acc : dict value) (it : string * value) :
  In it (fold_left (fun d kv => dict_set (fst kv) (normalize_value (snd kv)) d) r acc) ->
  In it acc \/ exists kv, In kv r /\ it = normalize_item kv.
Proof.
  revert acc. induction r as [|kv r IH]; intros acc; simpl; [auto|].
  intros H. destruct (IH _ H) as [H'|[kv' [Hin ->]]].
  - apply dict_set_In in H'. destruct H' as [->|H']; [|auto].
    right. exists kv. split; [now left | reflexivity].
  - right. exists kv'. split; [now right | reflexivity].
Qed.

(** A row of storable values is normalized to a set of normalized items of
    the row. *)
Lemma normalize_row_storable (r : row) :
  storable_row r ->
  exists fs, normalize_row r = Ok fs
             /\ forall it, In it fs -> exists kv, In kv r /\ it = normalize_item kv.
Proof.
  intros Hst. unfold normalize_row. cbv zeta.
  set (normalized :=
         fold_left (fun d kv => dict_set (fst kv) (normalize_value (snd kv)) d) r []).
  assert (Hitems : forall it, In it normalized -> exists kv, In kv r /\ it = normalize_item kv).
  { intros it Hin. destruct (fold_normalized_In r [] it Hin) as [[]|H]. exact H. }
  rewrite make_frozenset_hashable.
  - eexists. split; [reflexivity|]. intros it Hin.
    destruct (fold_set_add_In item_eqb _ _ _ Hin) as [[]|H]. auto.
  - intros it Hin. destruct (Hitems it Hin) as [kv [Hkv ->]].
    apply value_class_hashable, storable_class, Hst, Hkv.
Qed.

Lemma normalize_rows_storable (data : list row) :
  (forall r, In r data -> storable_row r) ->
  exists l, normalize_rows data = Ok l
            /\ forall fs, In fs l -> frozenset_eqb fs fs = true.
Proof.
  induction data as [|r data IH]; intros Hst; simpl.
  - exists []. split; [reflexivity | intros fs []].
  - destruct (normalize_row_storable r (Hst r (or_introl eq_refl))) as [fs [-> Hfs]].
    destruct IH as [l [-> Hl]]; [intros r' Hr'; apply Hst; now right|].
    exists (fs :: l). split; [reflexivity|].
    intros fs' [<-|Hin]; [|auto].
    apply frozenset_eqb_refl. intros it Hit.
    destruct (Hfs it Hit) as [kv [Hkv ->]]. simpl.
    apply storable_class, (Hst r (or_introl eq_refl)), Hkv.
Qed.

Lemma normalize_rows_length (data : list row) (l : list frozenset) :
  normalize_rows data = Ok l -> List.length l = List.length data.
Proof.
  revert l. induction data as [|r data IH]; simpl; intros l.
  - now intros [= <-].
  - destruct (normalize_row r); [|discriminate].
    destruct (normalize_rows data) as [l'|]; [|discriminate].
    intros [= <-]. simpl. now rewrite (IH l').
Qed.

Lemma normalize_rows_nil (data : list row) :
  normalize_rows data = Ok [] -> data = [].
Proof.
  intros H. apply normalize_rows_length in H. destruct data; [reflexivity | discriminate].
Qed.

(** The verdict of the differ when both inputs normalize: same number of
    rows, and every normalized row of either side equal to one of the other
    side. *)
Lemma is_data_identical_rows (data1 data2 : list row) (l1 l2 : list frozenset) :
  normalize_rows data1 = Ok l1 -> normalize_rows data2 = Ok l2 ->
  (dict_get "is_data_identical" (compare_table_data data1 data2) = Some (DBool true)
   <-> List.length data1 = List.length data2
       /\ (forall x, In x l1 -> exists y, In y l2 /\ frozenset_eqb x y = true)
       /\ (forall y, In y l2 -> exists x, In x l1 /\ frozenset_eqb y x = true)).
Proof.
  intros H1 H2.
  destruct data1 as [|r1 d1], data2 as [|r2 d2].
  - simpl in H1, H2. injection H1 as <-. injection H2 as <-.
    rewrite compare_table_data_empty. simpl.
    split; [intros _|reflexivity]. repeat split; intros ? [].
  - assert (Hne : @nil row <> [] \/ r2 :: d2 <> []) by (right; discriminate).
    rewrite (compare_table_data_ok [] (r2 :: d2) l1 l2 Hne H1 H2).
    simpl. split; [intros [= H]|intros [H _]; discriminate].
    rewrite !andb_true_iff in H. destruct H as [_ H]. discriminate.
  - assert (Hne : r1 :: d1 <> [] \/ @nil row <> []) by (left; discriminate).
    rewrite (compare_table_data_ok (r1 :: d1) [] l1 l2 Hne H1 H2).
    simpl. split; [intros [= H]|intros [H _]; discriminate].
    rewrite !andb_true_iff in H. destruct H as [_ H]. discriminate.
  - assert (Hne : r1 :: d1 <> [] \/ r2 :: d2 <> []) by (left; discriminate).
    rewrite (compare_table_data_ok (r1 :: d1) (r2 :: d2) l1 l2 Hne H1 H2).
    unfold differences_of_sets. cbn [dict_get String.eqb Ascii.eqb Bool.eqb].
    pose proof (set_diff_of_list_nil frozenset_eqb frozenset_eqb_sym frozenset_eqb_trans
                  l1 l2) as D12.
    pose proof (set_diff_of_list_nil frozenset_eqb frozenset_eqb_sym frozenset_eqb_trans
                  l2 l1) as D21.
    pose proof (len_nil_iff (set_diff frozenset_eqb (set_of_list frozenset_eqb l1)
                               (set_of_list frozenset_eqb l2))) as N12.
    pose proof (len_nil_iff (set_diff frozenset_eqb (set_of_list frozenset_eqb l2)
                               (set_of_list frozenset_eqb l1))) as N21.
    pose proof (len_inj (r1 :: d1) (r2 :: d2)) as L.
    split.
    + intros [= H]. rewrite !andb_true_iff in H. tauto.
    + intros [A [B C]].
      apply L in A. apply D12, N12 in B. apply D21, N21 in C.
      now rewrite A, B, C.
Qed.

End DifferMore.

Section DifferMore2.
Context `{RT : PyRuntime}.

(** X5.  The differ reports identical data exactly when every row of both
    inputs normalizes, the inputs have the same number of rows, and every
    normalized row of either side is equal to a normalized row of the other:
    how often a row occurs is not compared. *)
Theorem compare_table_data_identical_same_rows (data1 data2 : list row) :
  dict_get "is_data_identical" (compare_table_data data1 data2) = Some (DBool true)
  <-> exists l1 l2,
        normalize_rows data1 = Ok l1 /\ normalize_rows data2 = Ok l2
        /\ List.length data1 = List.length data2
        /\ (forall x, In x l1 -> exists y, In y l2 /\ frozenset_eqb x y = true)
        /\ (forall y, In y l2 -> exists x, In x l1 /\ frozenset_eqb y x = true).
Proof.
  split.
  - intros H.
    destruct (compare_table_data_outcome data1 data2) as [H1 H2|r e Hne Hin Hr|l1 l2 Hne H1 H2].
    + subst. exists [], []. repeat split; try reflexivity; intros ? [].
    + discriminate.
    + exists l1, l2. split; [exact H1|]. split; [exact H2|].
      apply (is_data_identical_rows data1 data2 l1 l2 H1 H2).
      now rewrite (compare_table_data_ok _ _ l1 l2 Hne H1 H2).
  - intros [l1 [l2 [H1 [H2 H]]]]. now apply (is_data_identical_rows data1 data2 l1 l2).
Qed.

Lemma is_data_identical_self (data : list row) :
  (forall r, In r data -> storable_row r) ->
  dict_get "is_data_identical" (compare_table_data data data) = Some (DBool true).
Proof.
  intros Hst. destruct (normalize_rows_storable data Hst) as [l [Hl Hrefl]].
  apply (is_data_identical_rows data data l l Hl Hl).
  split; [reflexivity|]. split; intros x Hx; exists x; auto.
Qed.

(** X6.  A table of values SQLite can store (no NaN, nothing unhashable)
    compared with itself is identical: no row on one side only, equal row
    counts, no comparison error. *)
Theorem compare_table_data_self (data : list row) :
  (forall r, In r data -> storable_row r) ->
  dict_get "is_data_identical" (compare_table_data data data) = Some (DBool true)
  /\ dict_get "rows_only_in_db1" (compare_table_data data data) = Some (DInt 0)
  /\ dict_get "rows_only_in_db2" (compare_table_data data data) = Some (DInt 0)
  /\ dict_get "row_count_match" (compare_table_data data data) = Some (DBool true)
  /\ dict_get "comparison_error" (compare_table_data data data) = None.
Proof.
  intros Hst. assert (Hid := is_data_identical_self data Hst).
  split; [exact Hid|].
  destruct (normalize_rows_storable data Hst) as [l [Hl Hrefl]].
  destruct data as [|r data]; [repeat split; reflexivity|].
  assert (Hne : r :: data <> [] \/ r :: data <> []) by (left; discriminate).
  rewrite (compare_table_data_ok (r :: data) (r :: data) l l Hne Hl Hl) in *.
  unfold differences_of_sets in *. cbn [dict_get String.eqb Ascii.eqb Bool.eqb] in *.
  injection Hid as Hid. rewrite !andb_true_iff, !Z.eqb_eq in Hid.
  destruct Hid as [[-> _] _]. rewrite Z.eqb_refl. repeat split; reflexivity.
Qed.

Lemma In_Forall2_l {X Y : Type} (R : X -> Y -> Prop) (l : list X) (l' : list Y) (x : X) :
  Forall2 R l l' -> In x l -> exists y, In y l' /\ R x y.
Proof.
  induction 1 as [|a b l l' Hab _ IH]; intros Hin; [destruct Hin|].
  destruct Hin as [<-|Hin]; [exists b; split; [now left | exact Hab]|].
  destruct (IH Hin) as [y [Hy Hxy]]. exists y. split; [now right | exact Hxy].
Qed.

Lemma In_Forall2_r {X Y : Type} (R : X -> Y -> Prop) (l : list X) (l' : list Y) (y : Y) :
  Forall2 R l l' -> In y l' -> exists x, In x l /\ R x y.
Proof.
  induction 1 as [|a b l l' Hab _ IH]; intros Hin; [destruct Hin|].
  destruct Hin as [<-|Hin]; [exists a; split; [now left | exact Hab]|].
  destruct (IH Hin) as [x [Hx Hxy]]. exists x. split; [now right | exact Hxy].
Qed.

Lemma normalize_rows_wf (data : list row) :
  (forall r, In r data -> NoDup (dict_keys r) /\ storable_row r) ->
  normalize_rows data = Ok (map (map normalize_item) data).
Proof.
  induction data as [|r data IH]; intros H; simpl; [reflexivity|].
  destruct (H r (or_introl eq_refl)) as [Hnd Hst].
  rewrite normalize_row_wf; [|exact Hnd|].
  - rewrite IH; [reflexivity|]. intros r' Hr'. apply H. now right.
  - intros kv Hkv. apply value_class_hashable, storable_class, Hst, Hkv.
Qed.

Lemma frozenset_eqb_Permutation (r r' : row) :
  storable_row r -> Permutation r r' ->
  frozenset_eqb (map normalize_item r) (map normalize_item r') = true.
Proof.
  intros Hst Hp.
  assert (Hsub : forall a b : row, storable_row a -> (forall kv, In kv a -> In kv b) ->
            set_subset item_eqb (map normalize_item a) (map normalize_item b) = true).
  { intros a b Ha Hab. apply set_subset_spec. intros it Hit.
    apply in_map_iff in Hit. destruct Hit as [kv [<- Hkv]].
    apply set_mem_true. exists (normalize_item kv).
    split; [apply in_map, Hab, Hkv|].
    apply item_eqb_refl. simpl. apply storable_class, Ha, Hkv. }
  assert (Hback : forall kv, In kv r' -> In kv r).
  { intros kv Hkv. eapply Permutation_in; [apply Permutation_sym|]; eauto. }
  unfold frozenset_eqb.
  rewrite (Hsub r r' Hst (fun kv Hkv => Permutation_in kv Hp Hkv)).
  rewrite (Hsub r' r (fun kv Hkv => Hst kv (Hback kv Hkv)) Hback).
  reflexivity.
Qed.

(** X7.  The order of the columns inside a row does not matter: two tables
    whose rows hold, row by row, the same column/value items in another
    order are identical. *)
Theorem compare_table_data_column_order (data1 data2 : list row) :
  (forall r, In r data1 -> NoDup (dict_keys r) /\ storable_row r) ->
  Forall2 (@Permutation (string * value)) data1 data2 ->
  dict_get "is_data_identical" (compare_table_data data1 data2) = Some (DBool true).
Proof.
  intros H1 Hp.
  assert (H2 : forall r, In r data2 -> NoDup (dict_keys r) /\ storable_row r).
  { intros r' Hr'. destruct (In_Forall2_r _ _ _ _ Hp Hr') as [r [Hr Hperm]].
    destruct (H1 r Hr) as [Hnd Hst]. split.
    - unfold dict_keys. eapply Permutation_NoDup; [|exact Hnd]. now apply Permutation_map.
    - intros kv Hkv. apply Hst. eapply Permutation_in; [apply Permutation_sym|]; eauto. }
  apply (is_data_identical_rows data1 data2 _ _ (normalize_rows_wf data1 H1)
           (normalize_rows_wf data2 H2)).
  split; [eapply Forall2_length; eauto|]. split.
  - intros x Hx. apply in_map_iff in Hx. destruct Hx as [r [<- Hr]].
    destruct (In_Forall2_l _ _ _ _ Hp Hr) as [r' [Hr' Hperm]].
    exists (map normalize_item r'). split; [now apply in_map|].
    apply frozenset_eqb_Permutation; [apply H1, Hr | exact Hperm].
  - intros y Hy. apply in_map_iff in Hy. destruct Hy as [r' [<- Hr']].
    destruct (In_Forall2_r _ _ _ _ Hp Hr') as [r [Hr Hperm]].
    exists (map normalize_item r). split; [now apply in_map|].
    apply frozenset_eqb_Permutation; [apply H2, Hr' | now apply Permutation_sym].
Qed.

Lemma differ_outcome_fallback_swap (data1 data2 : list row) (r : row) (e : exn) :
  In r (data1 ++ data2) -> normalize_row r = Raise e ->
  exists e', compare_table_data data2 data1 = differences_fallback data2 data1 e'.
Proof.
  intros Hin Hr.
  destruct (compare_table_data_outcome data2 data1) as [H1 H2|r' e' Hne Hin' Hr'|l1 l2 Hne H1 H2].
  - subst. destruct Hin.
  - eauto.
  - exfalso. apply in_app_or in Hin. destruct Hin as [Hin|Hin].
    + destruct (normalize_rows_Ok _ _ H2 r Hin) as [fs Hfs]. congruence.
    + destruct (normalize_rows_Ok _ _ H1 r Hin) as [fs Hfs]. congruence.
Qed.

(** X8.  Swapping the two inputs swaps the two rows-only counts and keeps
    the number of identical rows, the row-count flag and the verdict. *)
Theorem compare_table_data_swap (data1 data2 : list row) :
  dict_get "rows_only_in_db1" (compare_table_data data2 data1)
    = dict_get "rows_only_in_db2" (compare_table_data data1 data2)
  /\ dict_get "rows_only_in_db2" (compare_table_data data2 data1)
    = dict_get "rows_only_in_db1" (compare_table_data data1 data2)
  /\ dict_get "identical_rows" (compare_table_data data2 data1)
    = dict_get "identical_rows" (compare_table_data data1 data2)
  /\ dict_get "row_count_match" (compare_table_data data2 data1)
    = dict_get "row_count_match" (compare_table_data data1 data2)
  /\ dict_get "is_data_identical" (compare_table_data data2 data1)
    = dict_get "is_data_identical" (compare_table_data data1 data2).
Proof.
  destruct (compare_table_data_outcome data1 data2) as [H1 H2|r e Hne Hin Hr|l1 l2 Hne H1 H2].
  - subst. repeat split; reflexivity.
  - destruct (differ_outcome_fallback_swap data1 data2 r e Hin Hr) as [e' ->].
    unfold differences_fallback. cbn [dict_get String.eqb Ascii.eqb Bool.eqb].
    rewrite (Z.eqb_sym (len data2)). repeat split; reflexivity.
  - assert (Hne' : data2 <> [] \/ data1 <> []) by tauto.
    rewrite (compare_table_data_ok data2 data1 l2 l1 Hne' H2 H1).
    unfold differences_of_sets. cbn [dict_get String.eqb Ascii.eqb Bool.eqb].
    rewrite (Z.eqb_sym (len data2)).
    unfold len.
    rewrite (set_inter_length_sym frozenset_eqb frozenset_eqb_sym frozenset_eqb_trans
               (set_of_list frozenset_eqb l2) (set_of_list frozenset_eqb l1)
               (pairwise_distinct_of_list frozenset_eqb frozenset_eqb_sym l2)
               (pairwise_distinct_of_list frozenset_eqb frozenset_eqb_sym l1)).
    repeat split; try reflexivity.
    do 2 f_equal. f_equal. apply andb_comm.
Qed.

End DifferMore2.

Lemma number_of_Z_inj (z z' : Z) : number_of_Z z = number_of_Z z' -> z = z'.
Proof.
  assert (Hpos : forall s s' p p',
            number_of_parts s p 0 = number_of_parts s' p' 0 -> s = s' /\ p = p').
  { intros s s' p p'. unfold number_of_parts.
    destruct (strip_twos_value p 0) as [_ Hp]. destruct (strip_twos_value p' 0) as [_ Hp'].
    destruct (strip_twos p 0) as [a ea], (strip_twos p' 0) as [a' ea']. cbn [fst snd] in *.
    intros H.
    assert (Hs : s = s' /\ a = a' /\ ea = ea').
    { destruct s, s'; try discriminate; injection H as -> ->; auto. }
    destruct Hs as [-> [-> ->]]. split; [reflexivity|].
    rewrite <- Hp' in Hp. now injection Hp. }
  assert (Hz : forall s p, number_of_parts s p 0 <> NFinite 0 0).
  { intros s p. unfold number_of_parts. destruct (strip_twos p 0). destruct s; discriminate. }
  destruct z as [|p|p], z' as [|p'|p']; simpl; intros H;
    try reflexivity; try (symmetry in H; now apply Hz in H); try (now apply Hz in H);
    apply Hpos in H; destruct H as [Hs ->]; try discriminate; reflexivity.
Qed.

Lemma value_eqb_int (z z' : Z) : value_eqb (VInt z) (VInt z') = (z =? z').
Proof.
  apply eq_true_iff_eq. cbn [value_eqb value_number]. rewrite number_eqb_eq, Z.eqb_eq.
  split; [apply number_of_Z_inj | now intros ->].
Qed.

Lemma make_frozenset_raise (l1 l2 : list (string * value)) (it : string * value)
  (acc : frozenset) (e : exn) :
  (forall x, In x l1 -> check_hashable (snd x) = Ok tt) ->
  check_hashable (snd it) = Raise e ->
  make_frozenset (l1 ++ it :: l2) acc = Raise e.
Proof.
  revert acc. induction l1 as [|x l1 IH]; intros acc H1 Hit; simpl.
  - now rewrite Hit.
  - rewrite (H1 x) by now left. apply IH; [|exact Hit].
    intros y Hy. apply H1. now right.
Qed.

Section OneColumn.
Context `{RT : PyRuntime}.

Lemma normalize_row_one_column (pre post : list (string * value)) (c : string) (v : value) :
  NoDup (map fst pre ++ c :: map fst post) -> storable_row (pre ++ post) ->
  normalize_row (pre ++ (c, v) :: post) =
    match check_hashable (normalize_value v) with
    | Ok _ => Ok (map normalize_item pre ++ (c, normalize_value v) :: map normalize_item post)
    | Raise e => Raise e
    end.
Proof.
  intros Hnd Hst.
  assert (Hkeys : NoDup (dict_keys (pre ++ (c, v) :: post))).
  { unfold dict_keys. rewrite map_app. exact Hnd. }
  destruct (check_hashable (normalize_value v)) as [[]|e] eqn:Hv.
  - rewrite normalize_row_wf; [now rewrite map_app|exact Hkeys|].
    intros kv Hin. apply in_app_or in Hin. destruct Hin as [Hin|[<-|Hin]].
    + apply value_class_hashable, storable_class, Hst, in_or_app. now left.
    + exact Hv.
    + apply value_class_hashable, storable_class, Hst, in_or_app. now right.
  - unfold normalize_row. cbv zeta. rewrite fold_left_dict_set_map.
    rewrite dict_of_items_NoDup_acc by (simpl; now rewrite map_fst_normalize).
    simpl. rewrite map_app. simpl. apply make_frozenset_raise; [|exact Hv].
    intros x Hx. apply in_map_iff in Hx. destruct Hx as [kv [<- Hkv]]. simpl.
    apply value_class_hashable, storable_class, Hst, in_or_app. now left.
Qed.

Lemma value_eqb_unhashable (v w : value) (e : exn) :
  check_hashable v = Raise e -> value_eqb v w = false /\ value_eqb w v = false.
Proof.
  destruct v; try discriminate. intros _.
  destruct w; split; cbn; try reflexivity; destruct (number_of_float f); reflexivity.
Qed.

(** X9.  Two single rows that differ in one column only are identical
    exactly when the two normalized values are equal: texts are compared
    after [strip], integers as they are, NULL equals NULL only, and neither
    NULL nor an integer ever equals a text. *)
Theorem compare_table_data_one_column (pre post : list (string * value)) (c : string) :
  NoDup (map fst pre ++ c :: map fst post) -> storable_row (pre ++ post) ->
  let verdict v w :=
    dict_get "is_data_identical"
      (compare_table_data [pre ++ (c, v) :: post] [pre ++ (c, w) :: post]) in
  (forall a b, verdict a b
               = Some (DBool (value_eqb (normalize_value a) (normalize_value b))))
  /\ (forall s t, verdict (VStr s) (VStr t)
                  = Some (DBool (String.eqb (py_strip s) (py_strip t))))
  /\ (forall z z', verdict (VInt z) (VInt z') = Some (DBool (z =? z')))
  /\ verdict VNone VNone = Some (DBool true)
  /\ (forall t, verdict VNone (VStr t) = Some (DBool false))
  /\ (forall z t, verdict (VInt z) (VStr t) = Some (DBool false)).
Proof.
  intros Hnd Hst verdict.
  assert (Hmain : forall a b, verdict a b
            = Some (DBool (value_eqb (normalize_value a) (normalize_value b)))).
  { intros a b. unfold verdict.
    assert (Hne : [pre ++ (c, a) :: post] <> [] \/ [pre ++ (c, b) :: post] <> [])
      by (left; discriminate).
    assert (Hrows : forall v, normalize_rows [pre ++ (c, v) :: post]
              = match check_hashable (normalize_value v) with
                | Ok _ => Ok [map normalize_item pre ++ (c, normalize_value v)
                                :: map normalize_item post]
                | Raise e => Raise e
                end).
    { intros v. simpl. rewrite (normalize_row_one_column pre post c v Hnd Hst).
      destruct (check_hashable (normalize_value v)); reflexivity. }
    assert (Ha := Hrows a). assert (Hb := Hrows b).
    destruct (check_hashable (normalize_value a)) as [[]|e] eqn:Ea.
    - destruct (check_hashable (normalize_value b)) as [[]|e] eqn:Eb.
      + rewrite (compare_table_data_ok _ _ _ _ Hne Ha Hb).
        unfold differences_of_sets. cbn [dict_get String.eqb Ascii.eqb Bool.eqb].
        assert (Heq : forall u v,
                  frozenset_eqb (map normalize_item pre ++ (c, u) :: map normalize_item post)
                                (map normalize_item pre ++ (c, v) :: map normalize_item post)
                  = value_eqb u v).
        { intros u v. apply frozenset_eqb_one_column.
          - rewrite map_app. simpl. now rewrite !map_fst_normalize.
          - intros it Hin. rewrite <- map_app in Hin. apply in_map_iff in Hin.
            destruct Hin as [kv [<- Hkv]]. apply item_eqb_refl. simpl.
            apply storable_class, Hst, Hkv. }
        rewrite !set_diff_singletons, !Heq,
          (value_eqb_sym (normalize_value b) (normalize_value a)).
        destruct (value_eqb (normalize_value a) (normalize_value b)); reflexivity.
      + rewrite (compare_table_data_raise2 _ _ _ e Hne Ha Hb).
        destruct (value_eqb_unhashable _ (normalize_value a) e Eb) as [_ ->]. reflexivity.
    - rewrite (compare_table_data_raise1 _ _ e Hne Ha).
      destruct (value_eqb_unhashable _ (normalize_value b) e Ea) as [-> _]. reflexivity. }
  split; [exact Hmain|].
  split; [intros s t; rewrite Hmain; reflexivity|].
  split; [intros z z'; rewrite Hmain; simpl normalize_value; now rewrite value_eqb_int|].
  split; [rewrite Hmain; reflexivity|].
  split; [intros t; rewrite Hmain; reflexivity|].
  intros z t. rewrite Hmain. reflexivity.
Qed.

(** X10.  The counts of the result are non-negative; the rows only in one
    table plus the identical rows never exceed the rows of that table; and
    [modified_rows] is never changed from 0. *)
Theorem compare_table_data_count_bounds (data1 data2 : list row) :
  exists n1 n2 i,
    dict_get "rows_only_in_db1" (compare_table_data data1 data2) = Some (DInt n1)
    /\ dict_get "rows_only_in_db2" (compare_table_data data1 data2) = Some (DInt n2)
    /\ dict_get "identical_rows" (compare_table_data data1 data2) = Some (DInt i)
    /\ dict_get "modified_rows" (compare_table_data data1 data2) = Some (DInt 0)
    /\ 0 <= n1 /\ 0 <= n2 /\ 0 <= i
    /\ n1 + i <= len data1 /\ n2 + i <= len data2.
Proof.
  destruct (compare_table_data_outcome data1 data2) as [H1 H2|r e Hne Hin Hr|l1 l2 Hne H1 H2].
  - exists 0, 0, 0. subst. repeat split; try reflexivity; unfold len; simpl; lia.
  - exists (len data1), (len data2), 0.
    repeat split; try reflexivity; unfold len; lia.
  - eexists _, _, _.
    split; [reflexivity|]. split; [reflexivity|]. split; [reflexivity|].
    split; [reflexivity|].
    set (s1 := set_of_list frozenset_eqb l1). set (s2 := set_of_list frozenset_eqb l2).
    pose proof (set_diff_inter_length frozenset_eqb s1 s2) as P1.
    pose proof (set_diff_inter_length frozenset_eqb s2 s1) as P2.
    pose proof (set_inter_length_sym frozenset_eqb frozenset_eqb_sym frozenset_eqb_trans
                  s1 s2 (pairwise_distinct_of_list frozenset_eqb frozenset_eqb_sym l1)
                  (pairwise_distinct_of_list frozenset_eqb frozenset_eqb_sym l2)) as Hsym.
    pose proof (set_of_list_length frozenset_eqb l1) as L1.
    pose proof (set_of_list_length frozenset_eqb l2) as L2.
    pose proof (normalize_rows_length _ _ H1) as N1.
    pose proof (normalize_rows_length _ _ H2) as N2.
    fold s1 in L1. fold s2 in L2. unfold len. repeat split; lia.
Qed.

End OneColumn.

(** ** The catalog reader *)

Lemma string_eqb_trans (a b c : string) :
  String.eqb a b = true -> String.eqb b c = true -> String.eqb a c = true.
Proof. intros Hab Hbc. apply String.eqb_eq in Hab, Hbc. subst. apply String.eqb_refl. Qed.

Lemma pairwise_distinct_NoDup (s : list string) :
  pairwise_distinct String.eqb s -> NoDup s.
Proof.
  induction s as [|x s IH]; simpl; intros H; [constructor|].
  destruct H as [Hx Hs]. constructor; [|auto].
  intros Hin. specialize (Hx x Hin). rewrite String.eqb_refl in Hx. discriminate.
Qed.

(** A set of strings lists each of its members once. *)
Lemma set_of_list_string_NoDup (l : list string) : NoDup (set_of_list String.eqb l).
Proof. apply pairwise_distinct_NoDup, pairwise_distinct_of_list, String.eqb_sym. Qed.

Lemma NoDup_filter_string (p : string -> bool) (l : list string) :
  NoDup l -> NoDup (filter p l).
Proof. apply NoDup_filter. Qed.

Lemma combine_keys_values {X Y : Type} (xs : list X) (ys : list Y) :
  List.length ys = List.length xs ->
  map fst (combine xs ys) = xs /\ map snd (combine xs ys) = ys.
Proof.
  revert ys. induction xs as [|x xs IH]; intros [|y ys] H; simpl in *; try discriminate.
  - split; reflexivity.
  - destruct (IH ys) as [A B]; [lia|]. now rewrite A, B.
Qed.

Lemma dict_get_combine_nth (columns : list string) (r : list value) (i : nat) :
  NoDup columns -> List.length r = List.length columns -> (i < List.length columns)%nat ->
  dict_get (nth i columns "") (combine columns r) = Some (nth i r VNone).
Proof.
  intros Hnd Hlen Hi. apply dict_get_NoDup.
  - unfold dict_keys. now rewrite (proj1 (combine_keys_values columns r Hlen)).
  - rewrite <- (combine_nth columns r i "" VNone) by (symmetry; exact Hlen).
    apply nth_In. rewrite length_combine. lia.
Qed.

(** X11.  When SELECT * answers with distinct column names and rows of that
    width, [get_table_data] sends that one query and returns one dictionary
    per fetched row, in fetch order, whose keys are the column names in
    order and whose values are the row; looking up the i-th column gives the
    i-th value. *)
Theorem get_table_data_rows (conn : connection) (name : string)
  (columns : list string) (rows : list (list value)) :
  q_select_all conn name = Ok (columns, rows) ->
  NoDup columns -> (forall r, In r rows -> List.length r = List.length columns) ->
  get_table_data conn name
  = ([mkEvent (conn_db conn) (QSelectAll name)], Ok (map (combine columns) rows))
  /\ (forall r, In r rows ->
        dict_keys (combine columns r) = columns /\ dict_values (combine columns r) = r)
  /\ (forall r i, In r rows -> (i < List.length columns)%nat ->
        dict_get (nth i columns "") (combine columns r) = Some (nth i r VNone)).
Proof.
  intros Hq Hnd Hlen. split; [|split].
  - unfold get_table_data, execute. rewrite Hq. cbn [bind ret app fst snd].
    unfold rows_of_fetch. cbn [fst snd]. do 2 f_equal.
    apply map_ext_in. intros r Hr. apply dict_of_items_NoDup.
    now rewrite (proj1 (combine_keys_values columns r (Hlen r Hr))).
  - intros r Hr. apply combine_keys_values, Hlen, Hr.
  - intros r i Hr Hi. apply dict_get_combine_nth; auto.
Qed.

(** X12.  [get_table_names] sends one query and returns the listed names as
    a set: each name once, and no other name. *)
Theorem get_table_names_set (conn : connection) (names : list string) :
  q_table_names conn = Ok names ->
  exists tables,
    get_table_names conn = ([mkEvent (conn_db conn) QTableNames], Ok tables)
    /\ NoDup tables
    /\ (forall n, In n tables <-> In n names).
Proof.
  intros Hq. exists (set_of_list String.eqb names). split; [|split].
  - unfold get_table_names, execute. now rewrite Hq.
  - apply set_of_list_string_NoDup.
  - intros n. apply set_of_list_string_In.
Qed.

(** ** The database comparator, continued *)

Section ComparatorMore.
Context `{RT : PyRuntime}.

(** X13.  In a run that returns, the three table classes partition the
    tables: each class lists a name once, a table of the first database is
    common or only in the first (never both), likewise for the second, no
    name is in two classes, and common + only-in-one counts the tables of
    that database. *)
Theorem compare_databases_partition
  (conn1 conn2 : connection) (names1 names2 : list string)
  (trace : list event) (result : DatabaseComparison) :
  q_table_names conn1 = Ok names1 -> q_table_names conn2 = Ok names2 ->
  compare_databases conn1 conn2 = (trace, Ok result) ->
  NoDup (common_tables result)
  /\ NoDup (tables_only_in_db1 result) /\ NoDup (tables_only_in_db2 result)
  /\ (forall n, In n names1 <->
                In n (common_tables result) \/ In n (tables_only_in_db1 result))
  /\ (forall n, In n names2 <->
                In n (common_tables result) \/ In n (tables_only_in_db2 result))
  /\ (forall n, ~ (In n (common_tables result) /\ In n (tables_only_in_db1 result))
                /\ ~ (In n (common_tables result) /\ In n (tables_only_in_db2 result))
                /\ ~ (In n (tables_only_in_db1 result) /\ In n (tables_only_in_db2 result)))
  /\ len (common_tables result) + len (tables_only_in_db1 result)
     = len (set_of_list String.eqb names1)
  /\ len (common_tables result) + len (tables_only_in_db2 result)
     = len (set_of_list String.eqb names2).
Proof.
  intros H1 H2 H.
  destruct (compare_databases_Ok _ _ _ _ _ _ H1 H2 H) as [t [c [Hloop [-> ->]]]].
  destruct (compare_loop_Ok _ _ _ _ _ _ Hloop) as [A [B [C _]]].
  destruct (asymmetry_check_fields c) as [A' [B' [C' _]]].
  rewrite A', B', C', A, B, C. cbn [classify_tables tables_only_in_db1 tables_only_in_db2
                                  common_tables].
  set (t1 := set_of_list String.eqb names1). set (t2 := set_of_list String.eqb names2).
  assert (N1 : NoDup t1) by apply set_of_list_string_NoDup.
  assert (N2 : NoDup t2) by apply set_of_list_string_NoDup.
  assert (I1 : forall n, In n t1 <-> In n names1) by (intros n; apply set_of_list_string_In).
  assert (I2 : forall n, In n t2 <-> In n names2) by (intros n; apply set_of_list_string_In).
  split; [apply NoDup_filter, N1|]. split; [apply NoDup_filter, N1|].
  split; [apply NoDup_filter, N2|].
  split; [|split; [|split; [|split]]].
  - intros n. rewrite set_inter_string_In, set_diff_string_In, <- I1.
    destruct (in_dec string_dec n t2); tauto.
  - intros n. rewrite set_inter_string_In, set_diff_string_In, <- I2.
    destruct (in_dec string_dec n t1); tauto.
  - intros n. rewrite set_inter_string_In, !set_diff_string_In. tauto.
  - pose proof (set_diff_inter_length String.eqb t1 t2). unfold len. lia.
  - pose proof (set_diff_inter_length String.eqb t2 t1) as P.
    rewrite <- (set_inter_length_sym String.eqb String.eqb_sym string_eqb_trans t1 t2) in P.
    + unfold len. lia.
    + apply pairwise_distinct_of_list, String.eqb_sym.
    + apply pairwise_distinct_of_list, String.eqb_sym.
Qed.

Lemma dict_of_items_In {V} (kvs : list (string * V)) (it : string * V) :
  In it (dict_of_items kvs) -> In it kvs.
Proof.
  unfold dict_of_items.
  assert (G : forall acc, In it (fold_left (fun d kv => dict_set (fst kv) (snd kv) d) kvs acc)
                          -> In it acc \/ In it kvs).
  { induction kvs as [|kv kvs IH]; intros acc; simpl; [auto|].
    intros Hin. destruct (IH _ Hin) as [Hacc|Hk]; [|auto].
    apply dict_set_In in Hacc. destruct Hacc as [->|Hacc]; [|auto].
    right. left. now destruct kv. }
  intros Hin. destruct (G [] Hin) as [[]|Hk]. exact Hk.
Qed.

Lemma rows_of_fetch_storable (fetched : list string * list (list value)) :
  (forall r v, In r (snd fetched) -> In v r -> storable v = true) ->
  forall r, In r (rows_of_fetch fetched) -> storable_row r.
Proof.
  intros Hst r Hr. unfold rows_of_fetch in Hr. apply in_map_iff in Hr.
  destruct Hr as [vals [<- Hvals]]. intros kv Hkv.
  apply dict_of_items_In in Hkv. destruct kv as [k v]. apply in_combine_r in Hkv.
  simpl. eapply Hst; eauto.
Qed.

(** Two tables that answer alike compare as identical. *)
Lemma compare_table_same_content (conn1 conn2 : connection) (name : string)
  (schema : list column) (count : Z) (fetched : list string * list (list value)) :
  q_table_info conn1 name = Ok schema -> q_table_info conn2 name = Ok schema ->
  q_count conn1 name = Ok count -> q_count conn2 name = Ok count ->
  q_select_all conn1 name = Ok fetched -> q_select_all conn2 name = Ok fetched ->
  (forall r v, In r (snd fetched) -> In v r -> storable v = true) ->
  exists tc, snd (compare_table conn1 conn2 name) = Ok tc /\ is_identical tc = true.
Proof.
  intros S1 S2 C1 C2 F1 F2 Hst.
  unfold compare_table, get_table_schema, get_row_count, get_table_data, execute.
  rewrite S1, S2, C1, C2. cbn [bind ret app fst snd].
  rewrite compare_schemas_pair, compare_schemas_self. cbn [fst snd List.length Nat.eqb].
  rewrite F1, F2. cbn [bind ret app fst snd].
  eexists. split; [reflexivity|]. cbn [is_identical].
  rewrite (is_data_identical_self (rows_of_fetch fetched)
             (rows_of_fetch_storable fetched Hst)).
  simpl. now rewrite Z.eqb_refl.
Qed.

End ComparatorMore.

Section ComparatorMore2.
Context `{RT : PyRuntime}.

(** X14.  Two databases that list the same tables and answer every schema,
    count and row query alike, with storable values, compare as identical:
    the run returns, no table is on one side only, and every table
    comparison is identical. *)
Theorem compare_databases_same_content
  (conn1 conn2 : connection) (names1 names2 : list string) :
  q_table_names conn1 = Ok names1 -> q_table_names conn2 = Ok names2 ->
  (forall n, In n names1 <-> In n names2) ->
  (forall n, In n names1 ->
     exists schema count fetched,
       q_table_info conn1 n = Ok schema /\ q_table_info conn2 n = Ok schema
       /\ q_count conn1 n = Ok count /\ q_count conn2 n = Ok count
       /\ q_select_all conn1 n = Ok fetched /\ q_select_all conn2 n = Ok fetched
       /\ (forall r v, In r (snd fetched) -> In v r -> storable v = true)) ->
  exists trace result,
    compare_databases conn1 conn2 = (trace, Ok result)
    /\ db_is_identical result = true
    /\ tables_only_in_db1 result = [] /\ tables_only_in_db2 result = []
    /\ (forall n, In n names1 ->
          exists tc, dict_get n (table_comparisons result) = Some tc
                     /\ is_identical tc = true).
Proof.
  intros H1 H2 Hsame Hall.
  assert (Htc : forall n, In n names1 ->
            exists tc, snd (compare_table conn1 conn2 n) = Ok tc /\ is_identical tc = true).
  { intros n Hn.
    destruct (Hall n Hn) as [schema [count [fetched [S1 [S2 [C1 [C2 [F1 [F2 Hst]]]]]]]]].
    eapply compare_table_same_content; eauto. }
  destruct (compare_databases_returns conn1 conn2 names1 names2 H1 H2) as [result Hres].
  { intros n Hn _. destruct (Htc n Hn) as [tc [Htc' _]]. eauto. }
  destruct (compare_databases conn1 conn2) as [trace r] eqn:Hrun. simpl in Hres. subst r.
  exists trace, result. split; [reflexivity|].
  destruct (compare_databases_Ok _ _ _ _ _ _ H1 H2 Hrun) as [t [c [Hloop [-> ->]]]].
  destruct (compare_loop_Ok _ _ _ _ _ _ Hloop) as [A [B [C [D [E [F G]]]]]].
  destruct (asymmetry_check_fields c) as [A' [B' [C' D']]].
  assert (Hone : forall na nb, (forall n, In n na -> In n nb) ->
            set_diff String.eqb (set_of_list String.eqb na) (set_of_list String.eqb nb) = []).
  { intros na nb Hsub. apply set_diff_string_nil. intros x Hx.
    apply set_of_list_string_In, Hsub, (proj1 (set_of_list_string_In x na)), Hx. }
  assert (Ha : tables_only_in_db1 c = []).
  { rewrite A. simpl. apply Hone. intros n. apply Hsame. }
  assert (Hb : tables_only_in_db2 c = []).
  { rewrite B. simpl. apply Hone. intros n. apply Hsame. }
  split; [|split; [rewrite A'; exact Ha|split; [rewrite B'; exact Hb|]]].
  - apply asymmetry_check_verdict. split; [|split; assumption].
    rewrite E. simpl. apply forallb_forall. intros n Hn.
    apply (In_order_common conn1 conn2 names1 names2 n) in Hn. destruct Hn as [Hn _].
    destruct (Htc n Hn) as [tc [Hok Hid]]. unfold table_result. rewrite Hok.
    exact Hid.
  - intros n Hn. rewrite D', D.
    assert (Hmem : set_mem String.eqb n
                     (py_set_order
                        (common_tables
                           (classify_tables conn1 conn2 (set_of_list String.eqb names1)
                              (set_of_list String.eqb names2)))) = true).
    { apply set_mem_string, In_order_common. split; [exact Hn | now apply Hsame]. }
    rewrite Hmem. destruct (Htc n Hn) as [tc [Hok Hid]].
    exists tc. unfold table_result. rewrite Hok. split; [reflexivity | exact Hid].
Qed.

(** The queries of one table comparison: at most six, all about the table,
    each sent to one of the two databases. *)
Lemma compare_table_trace (conn1 conn2 : connection) (name : string) :
  (List.length (fst (compare_table conn1 conn2 name)) <= 6)%nat
  /\ forall ev, In ev (fst (compare_table conn1 conn2 name)) ->
       query_table (ev_query ev) = Some name
       /\ (ev_db ev = conn_db conn1 \/ ev_db ev = conn_db conn2).
Proof.
  unfold compare_table, get_table_schema, get_row_count, get_table_data, execute.
  destruct (q_table_info conn1 name) as [s1|];
    [|simpl; split; [lia | intuition (subst; simpl; auto)]].
  destruct (q_table_info conn2 name) as [s2|];
    [|simpl; split; [lia | intuition (subst; simpl; auto)]].
  destruct (q_count conn1 name);
    [|simpl; split; [lia | intuition (subst; simpl; auto)]].
  destruct (q_count conn2 name);
    [|simpl; split; [lia | intuition (subst; simpl; auto)]].
  cbn [bind ret app fst snd].
  destruct (fst (compare_schemas s1 s2));
    [|simpl; split; [lia | intuition (subst; simpl; auto)]].
  destruct (q_select_all conn1 name);
    [|simpl; split; [lia | intuition (subst; simpl; auto)]].
  destruct (q_select_all conn2 name);
    simpl; split; try lia; intuition (subst; simpl; auto).
Qed.

Lemma compare_loop_trace (conn1 conn2 : connection) (names : list string) :
  forall c,
  (List.length (fst (compare_loop conn1 conn2 names c)) <= 6 * List.length names)%nat
  /\ forall ev, In ev (fst (compare_loop conn1 conn2 names c)) ->
       exists n, In n names /\ query_table (ev_query ev) = Some n
                 /\ (ev_db ev = conn_db conn1 \/ ev_db ev = conn_db conn2).
Proof.
  induction names as [|n names IH]; intros c.
  - simpl. split; [lia | intros ev []].
  - cbn [compare_loop]. rewrite bind_fst.
    assert (Hstep : fst (compare_step conn1 conn2 c n) = fst (compare_table conn1 conn2 n)).
    { unfold compare_step. rewrite bind_fst.
      destruct (snd (compare_table conn1 conn2 n)); simpl; now rewrite app_nil_r. }
    rewrite Hstep. destruct (compare_table_trace conn1 conn2 n) as [L1 E1].
    destruct (snd (compare_step conn1 conn2 c n)) as [c'|e].
    + destruct (IH c') as [L2 E2]. split.
      * rewrite length_app. simpl List.length. lia.
      * intros ev Hin. apply in_app_or in Hin. destruct Hin as [Hin|Hin].
        -- exists n. split; [now left | now apply E1].
        -- destruct (E2 ev Hin) as [n' [Hn' Hq]]. exists n'. split; [now right | exact Hq].
    + rewrite app_nil_r. split.
      * simpl List.length. lia.
      * intros ev Hin. exists n. split; [now left | now apply E1].
Qed.

(** X15.  Whether it returns or raises, a run whose two listings answer
    sends the two listing queries first (first database, then second), then
    at most six queries per common table, each about a table listed on both
    sides and sent to one of the two databases. *)
Theorem compare_databases_queries
  (conn1 conn2 : connection) (names1 names2 : list string) :
  q_table_names conn1 = Ok names1 -> q_table_names conn2 = Ok names2 ->
  exists t,
    fst (compare_databases conn1 conn2)
    = [mkEvent (conn_db conn1) QTableNames; mkEvent (conn_db conn2) QTableNames] ++ t
    /\ (List.length t
        <= 6 * List.length (set_inter String.eqb (set_of_list String.eqb names1)
                              (set_of_list String.eqb names2)))%nat
    /\ forall ev, In ev t ->
         exists n, In n names1 /\ In n names2
                   /\ query_table (ev_query ev) = Some n
                   /\ (ev_db ev = conn_db conn1 \/ ev_db ev = conn_db conn2).
Proof.
  intros H1 H2.
  unfold compare_databases, get_table_names, execute. rewrite H1, H2.
  cbn [bind ret app fst snd].
  set (start := classify_tables conn1 conn2
                  (set_of_list String.eqb names1) (set_of_list String.eqb names2)).
  destruct (compare_loop_trace conn1 conn2 (py_set_order (common_tables start)) start)
    as [L E].
  exists (fst (compare_loop conn1 conn2 (py_set_order (common_tables start)) start)).
  split; [|split].
  - destruct (compare_loop conn1 conn2 (py_set_order (common_tables start)) start)
      as [t [c|e]]; cbn [bind ret app fst snd]; [now rewrite app_nil_r | reflexivity].
  - rewrite (Permutation_length (py_set_order_perm (common_tables start))) in L. exact L.
  - intros ev Hin. destruct (E ev Hin) as [n [Hn Hq]].
    apply (In_order_common conn1 conn2 names1 names2 n) in Hn. destruct Hn. exists n. tauto.
Qed.

(** X16.  When a table listing raises, the run raises the same exception at
    once: after a failure on the first database the second is not queried,
    and no table is queried in either case. *)
Theorem compare_databases_listing_fails (conn1 conn2 : connection) (e : exn) :
  (q_table_names conn1 = Raise e ->
   compare_databases conn1 conn2 = ([mkEvent (conn_db conn1) QTableNames], Raise e))
  /\ (forall names1, q_table_names conn1 = Ok names1 -> q_table_names conn2 = Raise e ->
      compare_databases conn1 conn2
      = ([mkEvent (conn_db conn1) QTableNames; mkEvent (conn_db conn2) QTableNames],
         Raise e)).
Proof.
  split.
  - intros H. unfold compare_databases, get_table_names, execute. now rewrite H.
  - intros names1 H1 H2. unfold compare_databases, get_table_names, execute.
    now rewrite H1, H2.
Qed.

End ComparatorMore2.

(** ** More on dictionaries built by comprehension *)



Lemma In_firstn {X : Type} (n : nat) (l : list X) (x : X) : In x (firstn n l) -> In x l.
Proof.
  intros H. rewrite <- (firstn_skipn n l). apply in_or_app. now left.
Qed.

Lemma slice_to_In {X : Type} (l : list X) (k : Z) (x : X) : In x (slice_to l k) -> In x l.
Proof. unfold slice_to. destruct (0 <=? k); apply In_firstn. Qed.

Lemma slice_to_len {X : Type} (l : list X) (k : Z) : 0 <= k -> len (slice_to l k) <= k.
Proof.
  intros Hk. unfold slice_to, len.
  replace (0 <=? k) with true by (symmetry; now apply Z.leb_le).
  pose proof (firstn_le_length (Z.to_nat k) l). lia.
Qed.

Lemma py_set_order_nil `{PyRuntime} : py_set_order [] = [].
Proof. apply Permutation_nil, Permutation_sym, py_set_order_perm. Qed.

Section AnalyzerMore.
Context `{RT : PyRuntime}.

Lemma rows_by_key_In (data : list row) (key : string) (r : row) :
  In (key, r) (rows_by_key data) -> In r data /\ create_lookup_key r = key.
Proof.
  intros H. unfold rows_by_key in H. apply dict_of_items_In in H.
  apply in_map_iff in H. destruct H as [r' [[= <- <-] Hr']]. auto.
Qed.

Lemma rows_by_key_get (data : list row) (key : string) (r : row) :
  dict_get key (rows_by_key data) = Some r -> In r data /\ create_lookup_key r = key.
Proof. intros H. apply dict_get_In in H. now apply rows_by_key_In. Qed.


Lemma check_column_inv (P : type_mismatch -> Prop) (max_samples : Z) (row1 row2 : row)
  (st : Z * list type_mismatch) (col : string) :
  (type_differs (row_get col row1) (row_get col row2) = true ->
   P (mismatch_of row1 row2 col)) ->
  (forall tm, In tm (snd st) -> P tm) /\ len (snd st) <= Z.max 0 max_samples ->
  (forall tm, In tm (snd (check_column max_samples row1 row2 st col)) -> P tm)
  /\ len (snd (check_column max_samples row1 row2 st col)) <= Z.max 0 max_samples.
Proof.
  intros Hnew [Hall Hlen]. unfold check_column.
  destruct (type_differs (row_get col row1) (row_get col row2)) eqn:E; [|auto].
  destruct (len (snd st) <? max_samples) eqn:Hlt; cbn [fst snd]; [|auto].
  apply Z.ltb_lt in Hlt. split.
  - intros tm Hin. apply in_app_or in Hin.
    destruct Hin as [Hin|[<-|[]]]; [now apply Hall | now apply Hnew].
  - rewrite len_app_one. lia.
Qed.

Lemma fold_check_column_inv (P : type_mismatch -> Prop) (max_samples : Z) (row1 row2 : row)
  (all cols : list string) :
  (forall col, In col all ->
     type_differs (row_get col row1) (row_get col row2) = true ->
     P (mismatch_of row1 row2 col)) ->
  (forall col, In col cols -> In col all) ->
  forall st,
  (forall tm, In tm (snd st) -> P tm) /\ len (snd st) <= Z.max 0 max_samples ->
  (forall tm, In tm (snd (fold_left (check_column max_samples row1 row2) cols st)) -> P tm)
  /\ len (snd (fold_left (check_column max_samples row1 row2) cols st))
     <= Z.max 0 max_samples.
Proof.
  intros Hnew. induction cols as [|col cols IH]; intros Hsub st Hst; simpl; [exact Hst|].
  apply IH; [intros c Hc; apply Hsub; now right|].
  apply check_column_inv; [|exact Hst].
  apply Hnew, Hsub. now left.
Qed.

Lemma fold_check_row_inv (data1 data2 : list row) (max_samples : Z)
  (items : list (string * row)) :
  (forall item, In item items -> In item (rows_by_key data1)) ->
  forall st,
  (forall tm, In tm (snd st) -> genuine data1 data2 tm)
  /\ len (snd st) <= Z.max 0 max_samples ->
  (forall tm, In tm (snd (fold_left (check_row max_samples (columns_of data1)
                                       (rows_by_key data2)) items st)) ->
              genuine data1 data2 tm)
  /\ len (snd (fold_left (check_row max_samples (columns_of data1) (rows_by_key data2))
                 items st)) <= Z.max 0 max_samples.
Proof.
  induction items as [|[key row1] items IH]; intros Hsub st Hst; simpl; [exact Hst|].
  apply IH; [intros it Hit; apply Hsub; now right|].
  unfold check_row. cbn [fst snd].
  destruct (dict_get key (rows_by_key data2)) as [row2|] eqn:Hget; [|exact Hst].
  destruct (rows_by_key_In data1 key row1 (Hsub _ (or_introl eq_refl))) as [Hr1 Hk1].
  destruct (rows_by_key_get data2 key row2 Hget) as [Hr2 Hk2].
  apply (fold_check_column_inv (genuine data1 data2) max_samples row1 row2
           (columns_of data1)); auto.
  intros col Hcol Hd. exists row1, row2, col. repeat split; auto. congruence.
Qed.

(** The analysis of two non-empty inputs, field by field. *)
Lemma analyze_row_differences_fields (first second : row) (rest1 rest2 : list row)
  (table : string) (max_samples : Z) :
  let data1 := first :: rest1 in
  let data2 := second :: rest2 in
  let keys1 := set_of_list String.eqb (dict_keys (rows_by_key data1)) in
  let keys2 := set_of_list String.eqb (dict_keys (rows_by_key data2)) in
  let sample d key := match dict_get key d with
                      | Some r => sample_row_100 r
                      | None => []
                      end in
  analyze_row_differences data1 data2 table max_samples
  = {| type_mismatches :=
         snd (fold_left (check_row max_samples (columns_of data1) (rows_by_key data2))
                (slice_to (rows_by_key data1) (max_samples * 2)) (0, []));
       value_mismatches := [];
       sample_rows_db1_only :=
         map (sample (rows_by_key data1))
           (slice_to (py_set_order (set_diff String.eqb keys1 keys2)) max_samples);
       sample_rows_db2_only :=
         map (sample (rows_by_key data2))
           (slice_to (py_set_order (set_diff String.eqb keys2 keys1)) max_samples);
       is_type_only_difference :=
         (0 <? len (snd (fold_left (check_row max_samples (columns_of data1)
                                      (rows_by_key data2))
                           (slice_to (rows_by_key data1) (max_samples * 2)) (0, []))))
         && (len (set_diff String.eqb keys1 keys2) =? 0)
         && (len (set_diff String.eqb keys2 keys1) =? 0) |}.
Proof. reflexivity. Qed.

(** X17.  For a sample bound [max_samples >= 0], the analyzer records at
    most [max_samples] type mismatches and at most [max_samples] sample rows
    per side; [value_mismatches] is never filled. *)
Theorem analyze_row_differences_bounds (data1 data2 : list row) (table : string)
  (max_samples : Z) :
  0 <= max_samples ->
  let found := analyze_row_differences data1 data2 table max_samples in
  len (type_mismatches found) <= max_samples
  /\ len (sample_rows_db1_only found) <= max_samples
  /\ len (sample_rows_db2_only found) <= max_samples
  /\ value_mismatches found = [].
Proof.
  intros Hm found. subst found.
  destruct data1 as [|first rest1]; [simpl; unfold len; simpl; repeat split; lia|].
  destruct data2 as [|second rest2]; [simpl; unfold len; simpl; repeat split; lia|].
  rewrite analyze_row_differences_fields.
  cbn [type_mismatches value_mismatches sample_rows_db1_only sample_rows_db2_only].
  split; [|split; [|split; [|reflexivity]]].
  - destruct (fold_check_row_inv (first :: rest1) (second :: rest2) max_samples
                (slice_to (rows_by_key (first :: rest1)) (max_samples * 2))
                (fun item => slice_to_In _ _ item) (0, [])) as [_ L].
    + split; [intros tm [] | unfold len; simpl; lia].
    + lia.
  - unfold len. rewrite length_map. now apply slice_to_len.
  - unfold len. rewrite length_map. now apply slice_to_len.
Qed.


(** X19.  When the analyzer reports a type-only difference, both lists of
    sample rows are empty and at least one type mismatch is recorded. *)
Theorem type_only_difference_has_no_samples (data1 data2 : list row) (table : string)
  (max_samples : Z) :
  let found := analyze_row_differences data1 data2 table max_samples in
  is_type_only_difference found = true ->
  sample_rows_db1_only found = [] /\ sample_rows_db2_only found = []
  /\ type_mismatches found <> [].
Proof.
  intros found. subst found.
  destruct data1 as [|first rest1]; [discriminate|].
  destruct data2 as [|second rest2]; [discriminate|].
  rewrite analyze_row_differences_fields.
  cbn [type_mismatches sample_rows_db1_only sample_rows_db2_only is_type_only_difference].
  rewrite !andb_true_iff, !len_nil_iff, Z.ltb_lt.
  intros [[Hrec ->] ->]. rewrite py_set_order_nil.
  assert (Hs : forall k, @slice_to string [] k = []).
  { intros k. unfold slice_to. destruct (0 <=? k); apply firstn_nil. }
  rewrite Hs. repeat split.
  intros E. rewrite E in Hrec. unfold len in Hrec. simpl in Hrec. lia.
Qed.


End AnalyzerMore.

Lemma dict_get_app {V} (k : string) (d1 d2 : dict V) :
  dict_get k (d1 ++ d2) =
    match dict_get k d1 with
    | Some v => Some v
    | None => dict_get k d2
    end.
Proof.
  induction d1 as [|[k' v'] d1 IH]; simpl; [reflexivity|].
  destruct (String.eqb k k'); [reflexivity | exact IH].
Qed.

Lemma dict_get_fresh {V} (k : string) (d : dict V) :
  ~ In k (map fst d) -> dict_get k d = None.
Proof.
  intros H. destruct (dict_get k d) as [v|] eqn:E; [|reflexivity].
  exfalso. apply H. apply dict_get_Some_key in E. exact E.
Qed.

Section TypeOnly.
Context `{RT : PyRuntime}.

Lemma pytype_eqb_refl (t : pytype) : pytype_eqb t t = true.
Proof. destruct t; simpl; auto using String.eqb_refl. Qed.

Lemma type_differs_same (v : value) : type_differs v v = false.
Proof. unfold type_differs. now rewrite pytype_eqb_refl, andb_false_r. Qed.

Lemma fold_check_column_same (max_samples : Z) (row1 row2 : row) (cols : list string) :
  (forall col, In col cols -> row_get col row1 = row_get col row2) ->
  forall st, fold_left (check_column max_samples row1 row2) cols st = st.
Proof.
  induction cols as [|col cols IH]; intros H st; simpl; [reflexivity|].
  unfold check_column at 2. rewrite (H col) by now left.
  rewrite type_differs_same. apply IH. intros c Hc. apply H. now right.
Qed.

Lemma row_get_one_column (pre post : list (string * value)) (c : string) (v : value) :
  NoDup (map fst pre ++ c :: map fst post) ->
  row_get c (pre ++ (c, v) :: post) = v
  /\ forall col w, col <> c ->
       row_get col (pre ++ (c, v) :: post) = row_get col (pre ++ (c, w) :: post).
Proof.
  intros Hnd. split.
  - unfold row_get. rewrite dict_get_app, dict_get_fresh.
    + simpl. now rewrite String.eqb_refl.
    + apply NoDup_remove_2 in Hnd. intros Hin. apply Hnd, in_or_app. now left.
  - intros col w Hne. unfold row_get. rewrite !dict_get_app.
    destruct (dict_get col pre); [reflexivity|]. simpl.
    destruct (String.eqb_spec col c) as [->|_]; [contradiction | reflexivity].
Qed.

(** X21.  An integer stored as text on the other side: for two rows equal
    but for one column holding [z] on side 1 and the text of [z] on side 2,
    the differ reports one row only on each side, and the analyzer (with a
    positive bound) records exactly that type mismatch, no sample row, and
    a type-only difference. *)
Theorem integer_stored_as_text (pre post : list (string * value)) (c : string) (z : Z)
  (table : string) (max_samples : Z) :
  NoDup (map fst pre ++ c :: map fst post) -> storable_row (pre ++ post) ->
  0 < max_samples ->
  let row1 : row := pre ++ (c, VInt z) :: post in
  let row2 : row := pre ++ (c, VStr (string_of_Z z)) :: post in
  dict_get "is_data_identical" (compare_table_data [row1] [row2]) = Some (DBool false)
  /\ dict_get "rows_only_in_db1" (compare_table_data [row1] [row2]) = Some (DInt 1)
  /\ dict_get "rows_only_in_db2" (compare_table_data [row1] [row2]) = Some (DInt 1)
  /\ analyze_row_differences [row1] [row2] table max_samples
     = {| type_mismatches :=
            [ {| tm_column := c; tm_value := string_of_Z z;
                 tm_type_db1 := "int"; tm_type_db2 := "str";
                 tm_sample_row := sample_row_50 row1 |} ];
          value_mismatches := [];
          sample_rows_db1_only := []; sample_rows_db2_only := [];
          is_type_only_difference := true |}.
Proof.
  intros Hnd Hst Hm row1 row2.
  assert (Hne : [row1] <> [] \/ [row2] <> []) by (left; discriminate).
  assert (N1 : normalize_rows [row1]
               = Ok [map normalize_item pre ++ (c, VInt z) :: map normalize_item post]).
  { simpl. unfold row1. now rewrite (normalize_row_one_column pre post c (VInt z) Hnd Hst). }
  assert (N2 : normalize_rows [row2]
               = Ok [map normalize_item pre ++ (c, VStr (py_strip (string_of_Z z)))
                       :: map normalize_item post]).
  { simpl. unfold row2.
    now rewrite (normalize_row_one_column pre post c (VStr (string_of_Z z)) Hnd Hst). }
  assert (Heq : forall u v,
            frozenset_eqb (map normalize_item pre ++ (c, u) :: map normalize_item post)
                          (map normalize_item pre ++ (c, v) :: map normalize_item post)
            = value_eqb u v).
  { intros u v. apply frozenset_eqb_one_column.
    - rewrite map_app. simpl. now rewrite !map_fst_normalize.
    - intros it Hin. rewrite <- map_app in Hin. apply in_map_iff in Hin.
      destruct Hin as [kv [<- Hkv]]. apply item_eqb_refl. simpl.
      apply storable_class, Hst, Hkv. }
  rewrite (compare_table_data_ok _ _ _ _ Hne N1 N2).
  unfold differences_of_sets. cbn [dict_get String.eqb Ascii.eqb Bool.eqb].
  rewrite !set_diff_singletons, !Heq. cbn [value_eqb value_number].
  split; [reflexivity|]. split; [reflexivity|]. split; [reflexivity|].
  (* the analyzer *)
  destruct (row_get_one_column pre post c (VInt z) Hnd) as [G1 Gother].
  destruct (row_get_one_column pre post c (VStr (string_of_Z z)) Hnd) as [G2 _].
  assert (Hkey : create_lookup_key row2 = create_lookup_key row1).
  { unfold create_lookup_key, row1, row2, dict_values. rewrite !map_app. reflexivity. }
  rewrite analyze_row_differences_fields.
  assert (K1 : rows_by_key [row1] = [(create_lookup_key row1, row1)]) by reflexivity.
  assert (K2 : rows_by_key [row2] = [(create_lookup_key row1, row2)])
    by (unfold rows_by_key, dict_of_items; simpl; now rewrite Hkey).
  rewrite K1, K2.
  assert (Hslice : slice_to [(create_lookup_key row1, row1)] (max_samples * 2)
                   = [(create_lookup_key row1, row1)]).
  { unfold slice_to. replace (0 <=? max_samples * 2) with true
      by (symmetry; apply Z.leb_le; lia).
    apply firstn_all2. simpl. lia. }
  rewrite Hslice.
  assert (Hdiff : set_diff String.eqb
                    (set_of_list String.eqb (dict_keys [(create_lookup_key row1, row1)]))
                    (set_of_list String.eqb (dict_keys [(create_lookup_key row1, row2)]))
                  = []).
  { simpl. unfold set_of_list, set_diff, set_add, set_mem. simpl.
    now rewrite String.eqb_refl. }
  assert (Hdiff' : set_diff String.eqb
                    (set_of_list String.eqb (dict_keys [(create_lookup_key row1, row2)]))
                    (set_of_list String.eqb (dict_keys [(create_lookup_key row1, row1)]))
                  = []) by exact Hdiff.
  rewrite Hdiff, Hdiff', py_set_order_nil.
  assert (Hs : forall k, @slice_to string [] k = []).
  { intros k. unfold slice_to. destruct (0 <=? k); apply firstn_nil. }
  rewrite Hs. cbn [map].
  assert (Hfold :
    fold_left (check_row max_samples (columns_of [row1]) [(create_lookup_key row1, row2)])
      [(create_lookup_key row1, row1)] (0, [])
    = (1, [ {| tm_column := c; tm_value := string_of_Z z;
               tm_type_db1 := "int"; tm_type_db2 := "str";
               tm_sample_row := sample_row_50 row1 |} ])).
  { cbn [fold_left]. unfold check_row. cbn [fst snd dict_get].
    rewrite String.eqb_refl.
    assert (Hcols : columns_of [row1] = map fst pre ++ c :: map fst post).
    { unfold columns_of, dict_keys, row1. now rewrite map_app. }
    rewrite Hcols, fold_left_app.
    rewrite (fold_check_column_same max_samples row1 row2 (map fst pre)).
    2:{ intros col Hcol. apply Gother. intros ->.
        apply NoDup_remove_2 in Hnd. apply Hnd, in_or_app. now left. }
    cbn [fold_left].
    rewrite (fold_check_column_same max_samples row1 row2 (map fst post)).
    2:{ intros col Hcol. apply Gother. intros ->.
        apply NoDup_remove_2 in Hnd. apply Hnd, in_or_app. now right. }
    assert (G1r : row_get c row1 = VInt z) by exact G1.
    assert (G2r : row_get c row2 = VStr (string_of_Z z)) by exact G2.
    unfold check_column. rewrite G1r, G2r.
    unfold type_differs. cbn [py_str type_of pytype_eqb negb andb fst snd].
    rewrite String.eqb_refl. cbn [andb].
    replace (len (@nil type_mismatch) <? max_samples) with true
      by (symmetry; apply Z.ltb_lt; unfold len; simpl; lia).
    reflexivity. }
  rewrite Hfold. reflexivity.
Qed.

End TypeOnly.

Lemma compare_schemas_match_iff_same_columns_witness :
  let schema1 := users_schema in
  let schema2 := rev users_schema in
  wf_schema schema1 /\ wf_schema schema2
  /\ Permutation schema1 schema2
  /\ (fst (compare_schemas schema1 schema2) = true <-> Permutation schema1 schema2).
Proof.
  intros schema1 schema2.
  assert (Hwf : forall a b, c_name a <> c_name b -> wf_schema [a; b]).
  { intros a b Hne. unfold wf_schema. simpl.
    constructor; [simpl; intros [H|[]]; congruence|].
    constructor; [simpl; tauto | constructor]. }
  assert (Hwf1 : wf_schema schema1) by (apply Hwf; discriminate).
  assert (Hwf2 : wf_schema schema2) by (apply Hwf; discriminate).
  split; [exact Hwf1|]. split; [exact Hwf2|]. split; [apply perm_swap|].
  exact (compare_schemas_match_iff_same_columns schema1 schema2 Hwf1 Hwf2).
Defined.

Lemma compare_schemas_messages_witness :
  let msg := "Column 'discount' exists in DB2 but not in DB1" in
  wf_schema orders_schema_a /\ wf_schema orders_schema_b
  /\ In msg (snd (compare_schemas orders_schema_a orders_schema_b))
  /\ (In msg (snd (compare_schemas orders_schema_a orders_schema_b)) <->
      (exists c, In c orders_schema_a /\ ~ In (c_name c) (map c_name orders_schema_b)
                 /\ msg = fstr ["Column '"; c_name c; "' exists in DB1 but not in DB2"])
      \/ (exists c, In c orders_schema_b /\ ~ In (c_name c) (map c_name orders_schema_a)
                    /\ msg = fstr ["Column '"; c_name c; "' exists in DB2 but not in DB1"])
      \/ (exists c1 c2, In c1 orders_schema_a /\ In c2 orders_schema_b
                        /\ c_name c1 = c_name c2 /\ c1 <> c2
                        /\ msg = fstr ["Column '"; c_name c1; "' has different definitions: ";
                                       "DB1="; c_type c1; " vs DB2="; c_type c2])).
Proof.
  intros msg.
  assert (Hwf1 : wf_schema orders_schema_a).
  { unfold wf_schema. simpl. repeat constructor; simpl; intuition discriminate. }
  assert (Hwf2 : wf_schema orders_schema_b).
  { unfold wf_schema. simpl. repeat constructor; simpl; intuition discriminate. }
  split; [exact Hwf1|]. split; [exact Hwf2|]. split; [simpl; auto|].
  exact (compare_schemas_messages orders_schema_a orders_schema_b msg Hwf1 Hwf2).
Defined.

Lemma compare_table_data_self_witness :
  let data : list row :=
    [ [("id", VInt 1); ("email", VStr "ann@example.org ")];
      [("id", VInt 2); ("email", VNone)] ] in
  (forall r, In r data -> storable_row r)
  /\ dict_get "is_data_identical" (@compare_table_data ascii_runtime data data)
     = Some (DBool true).
Proof.
  intros data.
  assert (Hst : forall r, In r data -> storable_row r).
  { intros r [<-|[<-|[]]] kv [<-|[<-|[]]]; reflexivity. }
  split; [exact Hst|].
  exact (proj1 (@compare_table_data_self ascii_runtime data Hst)).
Defined.

Lemma compare_table_data_column_order_witness :
  let data1 : list row := [ [("id", VInt 1); ("email", VStr "ann@example.org")] ] in
  let data2 : list row := [ [("email", VStr "ann@example.org"); ("id", VInt 1)] ] in
  (forall r, In r data1 -> NoDup (dict_keys r) /\ storable_row r)
  /\ Forall2 (@Permutation (string * value)) data1 data2
  /\ dict_get "is_data_identical" (@compare_table_data ascii_runtime data1 data2)
     = Some (DBool true).
Proof.
  intros data1 data2.
  assert (H1 : forall r, In r data1 -> NoDup (dict_keys r) /\ storable_row r).
  { intros r [<-|[]]. split.
    - simpl. repeat constructor; simpl; intuition discriminate.
    - intros kv [<-|[<-|[]]]; reflexivity. }
  assert (Hp : Forall2 (@Permutation (string * value)) data1 data2).
  { constructor; [apply perm_swap | constructor]. }
  split; [exact H1|]. split; [exact Hp|].
  exact (@compare_table_data_column_order ascii_runtime data1 data2 H1 Hp).
Defined.

Lemma compare_table_data_one_column_witness :
  let pre := [("id", VInt 7)] in
  let post := [("note", VStr " paid ")] in
  NoDup (map fst pre ++ "price" :: map fst post) /\ storable_row (pre ++ post)
  /\ dict_get "is_data_identical"
       (@compare_table_data ascii_runtime
          [pre ++ ("price", VStr "12.50 ") :: post] [pre ++ ("price", VStr " 12.50") :: post])
     = Some (DBool (String.eqb (ascii_strip "12.50 ") (ascii_strip " 12.50")))
  /\ String.eqb (ascii_strip "12.50 ") (ascii_strip " 12.50") = true.
Proof.
  intros pre post.
  assert (Hnd : NoDup (map fst pre ++ "price" :: map fst post)).
  { simpl. repeat constructor; simpl; intuition discriminate. }
  assert (Hst : storable_row (pre ++ post)).
  { intros kv [<-|[<-|[]]]; reflexivity. }
  split; [exact Hnd|]. split; [exact Hst|]. split; [|reflexivity].
  exact (proj1 (proj2 (@compare_table_data_one_column ascii_runtime pre post "price"
                         Hnd Hst)) "12.50 " " 12.50").
Defined.

Lemma get_table_data_rows_witness :
  let columns := ["id"; "email"] in
  let rows := [ [VInt 1; VStr "ann@example.org"]; [VInt 2; VNone] ] in
  q_select_all db_a "users" = Ok (columns, rows)
  /\ NoDup columns /\ (forall r, In r rows -> List.length r = List.length columns)
  /\ get_table_data db_a "users"
     = ([mkEvent (conn_db db_a) (QSelectAll "users")], Ok (map (combine columns) rows)).
Proof.
  intros columns rows.
  assert (Hnd : NoDup columns).
  { repeat constructor; simpl; intuition discriminate. }
  assert (Hlen : forall r, In r rows -> List.length r = List.length columns).
  { intros r [<-|[<-|[]]]; reflexivity. }
  split; [reflexivity|]. split; [exact Hnd|]. split; [exact Hlen|].
  exact (proj1 (get_table_data_rows db_a "users" columns rows eq_refl Hnd Hlen)).
Defined.

Lemma get_table_names_set_witness :
  q_table_names db_b = Ok ["logs"; "orders"; "users"]
  /\ exists tables,
       get_table_names db_b = ([mkEvent (conn_db db_b) QTableNames], Ok tables)
       /\ NoDup tables
       /\ (forall n, In n tables <-> In n ["logs"; "orders"; "users"]).
Proof.
  split; [reflexivity|].
  exact (get_table_names_set db_b ["logs"; "orders"; "users"] eq_refl).
Defined.

Lemma compare_databases_partition_witness :
  exists trace result,
    q_table_names db_a = Ok ["orders"; "users"]
    /\ q_table_names db_b = Ok ["logs"; "orders"; "users"]
    /\ @compare_databases ascii_runtime db_a db_b = (trace, Ok result)
    /\ len (common_tables result) + len (tables_only_in_db2 result)
       = len (set_of_list String.eqb ["logs"; "orders"; "users"]).
Proof.
  eexists. eexists.
  split; [reflexivity|]. split; [reflexivity|]. split; [reflexivity|].
  exact (proj2 (proj2 (proj2 (proj2 (proj2 (proj2 (proj2
           (@compare_databases_partition ascii_runtime db_a db_b
              ["orders"; "users"] ["logs"; "orders"; "users"] _ _
              eq_refl eq_refl eq_refl)))))))).
Defined.

Lemma compare_databases_same_content_witness :
  let names := ["orders"; "users"] in
  q_table_names db_a = Ok names
  /\ (forall n, In n names <-> In n names)
  /\ (forall n, In n names ->
        exists schema count fetched,
          q_table_info db_a n = Ok schema /\ q_table_info db_a n = Ok schema
          /\ q_count db_a n = Ok count /\ q_count db_a n = Ok count
          /\ q_select_all db_a n = Ok fetched /\ q_select_all db_a n = Ok fetched
          /\ (forall r v, In r (snd fetched) -> In v r -> storable v = true))
  /\ exists trace result,
       @compare_databases ascii_runtime db_a db_a = (trace, Ok result)
       /\ db_is_identical result = true
       /\ tables_only_in_db1 result = [] /\ tables_only_in_db2 result = []
       /\ (forall n, In n names ->
             exists tc, dict_get n (table_comparisons result) = Some tc
                        /\ is_identical tc = true).
Proof.
  intros names.
  assert (Hsame : forall n, In n names <-> In n names) by (intros n; reflexivity).
  assert (Hall : forall n, In n names ->
            exists schema count fetched,
              q_table_info db_a n = Ok schema /\ q_table_info db_a n = Ok schema
              /\ q_count db_a n = Ok count /\ q_count db_a n = Ok count
              /\ q_select_all db_a n = Ok fetched /\ q_select_all db_a n = Ok fetched
              /\ (forall r v, In r (snd fetched) -> In v r -> storable v = true)).
  { intros n [<-|[<-|[]]]; eexists; eexists; eexists;
      (repeat (split; [reflexivity|])); simpl.
    - intros r v [<-|[]] [<-|[<-|[]]]; reflexivity.
    - intros r v [<-|[<-|[]]] [<-|[<-|[]]]; reflexivity. }
  split; [reflexivity|]. split; [exact Hsame|]. split; [exact Hall|].
  exact (@compare_databases_same_content ascii_runtime db_a db_a names names
           eq_refl eq_refl Hsame Hall).
Defined.

Lemma compare_databases_queries_witness :
  q_table_names db_a = Ok ["orders"; "users"]
  /\ q_table_names db_b = Ok ["logs"; "orders"; "users"]
  /\ exists t,
       fst (@compare_databases ascii_runtime db_a db_b)
       = [mkEvent (conn_db db_a) QTableNames; mkEvent (conn_db db_b) QTableNames] ++ t
       /\ (List.length t
           <= 6 * List.length
                  (set_inter String.eqb (set_of_list String.eqb ["orders"; "users"])
                     (set_of_list String.eqb ["logs"; "orders"; "users"])))%nat
       /\ forall ev, In ev t ->
            exists n, In n ["orders"; "users"] /\ In n ["logs"; "orders"; "users"]
                      /\ query_table (ev_query ev) = Some n
                      /\ (ev_db ev = conn_db db_a \/ ev_db ev = conn_db db_b).
Proof.
  split; [reflexivity|]. split; [reflexivity|].
  exact (@compare_databases_queries ascii_runtime db_a db_b
           ["orders"; "users"] ["logs"; "orders"; "users"] eq_refl eq_refl).
Defined.

Lemma analyze_row_differences_bounds_witness :
  let found := @analyze_row_differences ascii_runtime
                 (stock_rows (VInt 110)) (stock_rows (VStr "110")) "stock" 5 in
  0 <= 5
  /\ len (type_mismatches found) <= 5
  /\ len (sample_rows_db1_only found) <= 5
  /\ len (sample_rows_db2_only found) <= 5
  /\ value_mismatches found = [].
Proof.
  intros found.
  assert (H : 0 <= 5) by (intros E; discriminate E).
  split; [exact H|].
  exact (@analyze_row_differences_bounds ascii_runtime
           (stock_rows (VInt 110)) (stock_rows (VStr "110")) "stock" 5 H).
Defined.


Lemma type_only_difference_has_no_samples_witness :
  let data1 : list row := [ [("id", VInt 1); ("qty", VInt 5)] ] in
  let data2 : list row := [ [("id", VInt 1); ("qty", VStr "5")] ] in
  let found := @analyze_row_differences ascii_runtime data1 data2 "stock" 5 in
  is_type_only_difference found = true
  /\ sample_rows_db1_only found = [] /\ sample_rows_db2_only found = []
  /\ type_mismatches found <> [].
Proof.
  intros data1 data2 found.
  assert (H : is_type_only_difference found = true) by reflexivity.
  split; [exact H|].
  exact (@type_only_difference_has_no_samples ascii_runtime data1 data2 "stock" 5 H).
Defined.

Lemma integer_stored_as_text_witness :
  let pre := [("id", VInt 1)] in
  let post := [("note", VStr "ok")] in
  let row1 : row := pre ++ ("qty", VInt 5) :: post in
  let row2 : row := pre ++ ("qty", VStr (string_of_Z 5)) :: post in
  NoDup (map fst pre ++ "qty" :: map fst post) /\ storable_row (pre ++ post)
  /\ 0 < 5
  /\ dict_get "is_data_identical" (@compare_table_data ascii_runtime [row1] [row2])
     = Some (DBool false).
Proof.
  intros pre post row1 row2.
  assert (Hnd : NoDup (map fst pre ++ "qty" :: map fst post)).
  { simpl. repeat constructor; simpl; intuition discriminate. }
  assert (Hst : storable_row (pre ++ post)).
  { intros kv [<-|[<-|[]]]; reflexivity. }
  assert (Hm : 0 < 5) by reflexivity.
  split; [exact Hnd|]. split; [exact Hst|]. split; [exact Hm|].
  exact (proj1 (@integer_stored_as_text ascii_runtime pre post "qty" 5 "stock" 5
                  Hnd Hst Hm)).
Defined.

(** ** The console report *)

(** *** Sorting *)

Lemma ascii_compare_trans_lt (a b c : ascii) :
  Ascii.compare a b = Lt -> Ascii.compare b c = Lt -> Ascii.compare a c = Lt.
Proof.
  unfold Ascii.compare. rewrite !N.compare_lt_iff. apply N.lt_trans.
Qed.

Lemma string_leb_trans (a b c : string) :
  String.leb a b = true -> String.leb b c = true -> String.leb a c = true.
Proof.
  unfold String.leb. revert b c.
  induction a as [|x a IH]; intros [|y b] [|z c]; simpl; try congruence.
  destruct (Ascii.compare x y) eqn:Exy; try congruence.
  - apply Ascii.compare_eq_iff in Exy. subst y.
    destruct (Ascii.compare x z); try congruence. apply IH.
  - destruct (Ascii.compare y z) eqn:Eyz; try congruence.
    + apply Ascii.compare_eq_iff in Eyz. subst z. now rewrite Exy.
    + now rewrite (ascii_compare_trans_lt _ _ _ Exy Eyz).
Qed.

Lemma string_leb_false (a b : string) :
  String.leb a b = false -> String.leb b a = true.
Proof.
  intros H. destruct (String.leb_total a b) as [H'|H']; congruence.
Qed.

Lemma insert_sorted_comm (x y : string) (l : list string) :
  insert_sorted x (insert_sorted y l) = insert_sorted y (insert_sorted x l).
Proof.
  induction l as [|z l IH]; simpl.
  - destruct (String.leb x y) eqn:Exy, (String.leb y x) eqn:Eyx; try reflexivity.
    + now rewrite (String.leb_antisym _ _ Exy Eyx).
    + apply string_leb_false in Exy. congruence.
  - destruct (String.leb y z) eqn:Eyz, (String.leb x z) eqn:Exz; simpl;
      rewrite ?Eyz, ?Exz.
    + destruct (String.leb x y) eqn:Exy, (String.leb y x) eqn:Eyx;
        simpl; rewrite ?Exz, ?Eyz; try reflexivity.
      * now rewrite (String.leb_antisym _ _ Exy Eyx).
      * apply string_leb_false in Exy. congruence.
    + destruct (String.leb x y) eqn:Exy; simpl; rewrite ?Exz, ?Eyz; try reflexivity.
      rewrite (string_leb_trans _ _ _ Exy Eyz) in Exz. discriminate.
    + destruct (String.leb y x) eqn:Eyx; simpl; rewrite ?Exz, ?Eyz; try reflexivity.
      rewrite (string_leb_trans _ _ _ Eyx Exz) in Eyz. discriminate.
    + now rewrite IH.
Qed.

(** The sorted list does not depend on the order of the input. *)
Lemma sorted_Permutation (l l' : list string) :
  Permutation l l' -> sorted l = sorted l'.
Proof.
  unfold sorted. induction 1; simpl; try congruence. apply insert_sorted_comm.
Qed.

Lemma insert_sorted_perm (x : string) (l : list string) :
  Permutation (insert_sorted x l) (x :: l).
Proof.
  induction l as [|y l IH]; simpl; [reflexivity|].
  destruct (String.leb x y); [reflexivity|].
  rewrite IH. apply perm_swap.
Qed.

Lemma sorted_perm (l : list string) : Permutation (sorted l) l.
Proof.
  unfold sorted. induction l as [|x l IH]; simpl; [reflexivity|].
  rewrite insert_sorted_perm. now constructor.
Qed.

Lemma sorted_In (x : string) (l : list string) : In x (sorted l) <-> In x l.
Proof.
  split; apply Permutation_in; [apply sorted_perm | apply Permutation_sym, sorted_perm].
Qed.

Lemma sorted_length (l : list string) : List.length (sorted l) = List.length l.
Proof. apply Permutation_length, sorted_perm. Qed.

(** *** Computations on the console *)

Lemma io_bind_snd {X Y : Type} (m : IO X) (f : X -> IO Y) :
  snd (io_bind m f) =
    match snd m with
    | Done a => snd (f a)
    | Fails e => Fails e
    end.
Proof. destruct m as [t [a|e]]; simpl; [destruct (f a); reflexivity | reflexivity]. Qed.

Lemma io_bind_fst {X Y : Type} (m : IO X) (f : X -> IO Y) :
  fst (io_bind m f) =
    fst m ++ match snd m with
             | Done a => fst (f a)
             | Fails _ => []
             end.
Proof.
  destruct m as [t [a|e]]; simpl; [destruct (f a); reflexivity | now rewrite app_nil_r].
Qed.

Lemma queries_of_app (t t' : list action) :
  queries_of (t ++ t') = queries_of t ++ queries_of t'.
Proof. apply flat_map_app. Qed.

Lemma queries_of_run {X : Type} (m : M X) :
  queries_of (fst (run_query m)) = fst m.
Proof.
  unfold run_query. simpl. induction (fst m) as [|ev t IH]; simpl; congruence.
Qed.

Lemma quiet_ret {X : Type} (a : X) : quiet (io_ret a).
Proof. split; [now exists a | reflexivity]. Qed.

Lemma quiet_print (object : renderable) : quiet (print object).
Proof. split; [now exists tt | reflexivity]. Qed.

Lemma quiet_print_line : quiet print_line.
Proof. split; [now exists tt | reflexivity]. Qed.

Lemma quiet_bind {X Y : Type} (m : IO X) (f : X -> IO Y) :
  quiet m -> (forall a, snd m = Done a -> quiet (f a)) -> quiet (io_bind m f).
Proof.
  intros [[a Ha] Hq] Hf. destruct (Hf a Ha) as [[b Hb] Hq'].
  split.
  - exists b. now rewrite io_bind_snd, Ha.
  - now rewrite io_bind_fst, queries_of_app, Ha, Hq, Hq'.
Qed.

Lemma quiet_for_each {X : Type} (l : list X) (body : X -> IO unit) :
  (forall x, In x l -> quiet (body x)) -> quiet (for_each l body).
Proof.
  induction l as [|x l IH]; intros H; simpl; [apply quiet_ret|].
  apply quiet_bind; [apply H; now left|].
  intros _ _. apply IH. intros y Hy. apply H. now right.
Qed.

Lemma quiet_for_fold {X S : Type} (l : list X) (body : S -> X -> IO S) :
  (forall s x, In x l -> quiet (body s x)) -> forall s, quiet (for_fold l body s).
Proof.
  induction l as [|x l IH]; intros H s; simpl; [apply quiet_ret|].
  apply quiet_bind; [apply H; now left|].
  intros s' _. apply IH. intros s0 y Hy. apply H. now right.
Qed.

(** A quiet computation returns a value. *)
Lemma quiet_Done {X : Type} (m : IO X) :
  quiet m -> exists t a, m = (t, Done a) /\ queries_of t = [].
Proof.
  destruct m as [t r]. intros [[a Ha] Hq]. simpl in *. subst r. eauto.
Qed.

(** *** What a comparison result holds *)

Section ResultFacts.
Context `{RT : PyRuntime}.

(** The counts of the result dictionary of the differ. *)
Lemma differ_outcome_counts (data1 data2 : list row) (d : dict dval) :
  differ_outcome data1 data2 d ->
  exists n1 n2 i b,
    dict_get "rows_only_in_db1" d = Some (DInt n1)
    /\ dict_get "rows_only_in_db2" d = Some (DInt n2)
    /\ dict_get "identical_rows" d = Some (DInt i)
    /\ dict_get "is_data_identical" d = Some (DBool b)
    /\ (b = false -> len data1 = len data2 -> 0 < n1 \/ 0 < n2).
Proof.
  intros [H1 H2|r e Hne Hin Hr|l1 l2 Hne H1 H2].
  - exists 0, 0, 0, true. repeat split; try reflexivity. discriminate.
  - exists (len data1), (len data2), 0, false. repeat split; try reflexivity.
    intros _ _. unfold len.
    destruct data1, data2; simpl; try lia. destruct Hne; congruence.
  - set (s1 := set_of_list frozenset_eqb l1). set (s2 := set_of_list frozenset_eqb l2).
    exists (len (set_diff frozenset_eqb s1 s2)), (len (set_diff frozenset_eqb s2 s1)),
      (len (set_inter frozenset_eqb s1 s2)),
      ((len (set_diff frozenset_eqb s1 s2) =? 0)
       && (len (set_diff frozenset_eqb s2 s1) =? 0) && (len data1 =? len data2)).
    repeat split; try reflexivity.
    intros Hb Hlen. rewrite Hlen, Z.eqb_refl, andb_true_r in Hb.
    apply andb_false_iff in Hb. rewrite !Z.eqb_neq in Hb.
    pose proof (len_nonneg (set_diff frozenset_eqb s1 s2)).
    pose proof (len_nonneg (set_diff frozenset_eqb s2 s1)). lia.
Qed.

Lemma integer_counts_nil : integer_counts [].
Proof. intros key _. now left. Qed.

Lemma compare_table_data_integer_counts (data1 data2 : list row) :
  integer_counts (compare_table_data data1 data2).
Proof.
  destruct (differ_outcome_counts _ _ _ (compare_table_data_outcome data1 data2))
    as [n1 [n2 [i [b [H1 [H2 [Hi _]]]]]]].
  intros key [<-|[<-|[<-|[]]]]; right; eauto.
Qed.

(** The fields of a table comparison that returned. *)
Lemma compare_table_shape (conn1 conn2 : connection) (name : string)
  (tc : TableComparison) :
  snd (compare_table conn1 conn2 name) = Ok tc ->
  exists schema1 schema2 count1 count2,
    q_table_info conn1 name = Ok schema1 /\ q_table_info conn2 name = Ok schema2
    /\ q_count conn1 name = Ok count1 /\ q_count conn2 name = Ok count2
    /\ schema_match tc = fst (compare_schemas schema1 schema2)
    /\ schema_diff tc = snd (compare_schemas schema1 schema2)
    /\ row_count_db1 tc = count1 /\ row_count_db2 tc = count2
    /\ is_identical tc =
         schema_match tc && (count1 =? count2)
         && match dict_get "is_data_identical" (data_differences tc) with
            | Some v => dval_truth v
            | None => false
            end
    /\ ((schema_match tc = false /\ data_differences tc = [])
        \/ (schema_match tc = true
            /\ exists fetched1 fetched2,
                 q_select_all conn1 name = Ok fetched1
                 /\ q_select_all conn2 name = Ok fetched2
                 /\ data_differences tc =
                      compare_table_data (rows_of_fetch fetched1) (rows_of_fetch fetched2))).
Proof.
  unfold compare_table, get_table_schema, get_row_count, get_table_data, execute.
  destruct (q_table_info conn1 name) as [s1|]; [|discriminate].
  destruct (q_table_info conn2 name) as [s2|]; [|discriminate].
  destruct (q_count conn1 name) as [c1|]; [|discriminate].
  destruct (q_count conn2 name) as [c2|]; [|discriminate].
  cbn [bind ret app fst snd].
  destruct (fst (compare_schemas s1 s2)) eqn:Hsm.
  - destruct (q_select_all conn1 name) as [f1|]; [|discriminate].
    destruct (q_select_all conn2 name) as [f2|]; [|discriminate].
    cbn [bind ret app fst snd]. intros [= <-]. exists s1, s2, c1, c2.
    cbn [schema_match schema_diff row_count_db1 row_count_db2 is_identical
         data_differences].
    rewrite ?Hsm. repeat (split; [reflexivity|]). right. split; [reflexivity|]. eauto.
  - cbn [bind ret app fst snd]. intros [= <-]. exists s1, s2, c1, c2.
    cbn [schema_match schema_diff row_count_db1 row_count_db2 is_identical
         data_differences].
    rewrite ?Hsm. repeat (split; [reflexivity|]). left. split; reflexivity.
Qed.

Lemma compare_table_integer_counts (conn1 conn2 : connection) (name : string)
  (tc : TableComparison) :
  snd (compare_table conn1 conn2 name) = Ok tc -> integer_counts (data_differences tc).
Proof.
  intros H. destruct (compare_table_shape _ _ _ _ H)
    as (s1 & s2 & c1 & c2 & _ & _ & _ & _ & _ & _ & _ & _ & _
        & [[_ ->]|(_ & f1 & f2 & _ & _ & ->)]).
  - apply integer_counts_nil.
  - apply compare_table_data_integer_counts.
Qed.


Lemma compare_loop_keys_NoDup (conn1 conn2 : connection) (names : list string) :
  forall (c c' : DatabaseComparison),
  snd (compare_loop conn1 conn2 names c) = Ok c' ->
  NoDup (dict_keys (table_comparisons c)) -> NoDup (dict_keys (table_comparisons c')).
Proof.
  induction names as [|n names IH]; intros c c'; simpl.
  - intros [= <-]. auto.
  - rewrite bind_snd, compare_step_snd.
    destruct (snd (compare_table conn1 conn2 n)) as [tc|]; [|discriminate].
    intros H Hnd. apply (IH _ _ H).
    destruct (negb (is_identical tc)); simpl; now apply dict_set_keys_NoDup.
Qed.

(** A run of [compare_databases] that returns lists both databases. *)
Lemma compare_databases_listed (conn1 conn2 : connection) (trace : list event)
  (result : DatabaseComparison) :
  compare_databases conn1 conn2 = (trace, Ok result) ->
  exists names1 names2,
    q_table_names conn1 = Ok names1 /\ q_table_names conn2 = Ok names2.
Proof.
  unfold compare_databases, get_table_names, execute.
  destruct (q_table_names conn1) as [n1|]; [|discriminate].
  destruct (q_table_names conn2) as [n2|]; [|discriminate]. eauto.
Qed.

(** The table comparisons of a result: one per common table, each the
    outcome of [compare_table] on that table. *)
Lemma compare_databases_entries (conn1 conn2 : connection) (trace : list event)
  (result : DatabaseComparison) :
  compare_databases conn1 conn2 = (trace, Ok result) ->
  NoDup (dict_keys (table_comparisons result))
  /\ (forall name, In name (common_tables result) ->
        exists tc, dict_get name (table_comparisons result) = Some tc)
  /\ (forall name tc, dict_get name (table_comparisons result) = Some tc ->
        In name (common_tables result)
        /\ snd (compare_table conn1 conn2 name) = Ok tc).
Proof.
  intros H. destruct (compare_databases_listed _ _ _ _ H) as [names1 [names2 [H1 H2]]].
  destruct (compare_databases_Ok _ _ _ _ _ _ H1 H2 H) as [t [c [Hloop [-> _]]]].
  destruct (compare_loop_Ok _ _ _ _ _ _ Hloop) as [_ [_ [C [D [_ [F _]]]]]].
  destruct (asymmetry_check_fields c) as [_ [_ [C' D']]]. rewrite C', D', C.
  set (start := classify_tables conn1 conn2
                  (set_of_list String.eqb names1) (set_of_list String.eqb names2)) in *.
  assert (Hmem : forall name,
            set_mem String.eqb name (py_set_order (common_tables start)) = true
            <-> In name (common_tables start)).
  { intros name. rewrite set_mem_string. split; apply Permutation_in;
      [apply py_set_order_perm | apply Permutation_sym, py_set_order_perm]. }
  split; [|split].
  - apply (compare_loop_keys_NoDup conn1 conn2 (py_set_order (common_tables start)) start c);
      [now rewrite Hloop | constructor].
  - intros name Hin. rewrite D. apply Hmem in Hin. rewrite Hin.
    apply F. now apply set_mem_string.
  - intros name tc. rewrite D.
    destruct (set_mem String.eqb name (py_set_order (common_tables start))) eqn:E.
    + intros Hres. split; [now apply Hmem|].
      unfold table_result in Hres.
      destruct (snd (compare_table conn1 conn2 name)); congruence.
    + discriminate.
Qed.

(** The tables that differ are recorded comparisons with a false verdict. *)
Lemma non_identical_tables_In (c : DatabaseComparison) (name : string) :
  NoDup (dict_keys (table_comparisons c)) ->
  In name (non_identical_tables c)
  <-> exists tc, dict_get name (table_comparisons c) = Some tc /\ is_identical tc = false.
Proof.
  intros Hnd. unfold non_identical_tables. rewrite in_map_iff. split.
  - intros [[n tc] [<- Hin]]. apply filter_In in Hin. destruct Hin as [Hin Hv].
    exists tc. split; [now apply dict_get_NoDup | now apply negb_true_iff in Hv].
  - intros [tc [Hget Hv]]. exists (name, tc). split; [reflexivity|].
    apply filter_In. split; [now apply dict_get_In | simpl; now rewrite Hv].
Qed.

(** When the result is identical, no table differs. *)
Lemma identical_no_differing_table (conn1 conn2 : connection) (trace : list event)
  (result : DatabaseComparison) :
  compare_databases conn1 conn2 = (trace, Ok result) ->
  db_is_identical result = true -> non_identical_tables result = [].
Proof.
  intros H Hid. destruct (compare_databases_listed _ _ _ _ H) as [names1 [names2 [H1 H2]]].
  destruct (compare_databases_entries _ _ _ _ H) as [Hnd [_ Hget]].
  destruct (compare_databases_Ok _ _ _ _ _ _ H1 H2 H) as [t [c [Hloop [Hres _]]]].
  destruct (compare_loop_Ok _ _ _ _ _ _ Hloop) as [_ [_ [C [_ [E _]]]]].
  subst result. apply asymmetry_check_verdict in Hid. destruct Hid as [Hid _].
  rewrite E in Hid. simpl in Hid. rewrite forallb_forall in Hid.
  destruct (asymmetry_check_fields c) as [_ [_ [C' D']]].
  destruct (non_identical_tables (asymmetry_check c)) as [|name rest] eqn:En; [reflexivity|].
  assert (Hin : In name (non_identical_tables (asymmetry_check c)))
    by (rewrite En; now left).
  apply (non_identical_tables_In _ _ Hnd) in Hin. destruct Hin as [tc [Hg Hv]].
  destruct (Hget _ _ Hg) as [Hc Htc]. rewrite C', C in Hc.
  assert (Hin' : In name (py_set_order
                            (common_tables
                               (classify_tables conn1 conn2
                                  (set_of_list String.eqb names1)
                                  (set_of_list String.eqb names2)))))
    by (eapply Permutation_in; [apply Permutation_sym, py_set_order_perm | exact Hc]).
  specialize (Hid _ Hin'). unfold table_result in Hid. rewrite Htc in Hid.
  simpl in Hid. congruence.
Qed.

End ResultFacts.

(** *** The parts of the report that send no query *)

Lemma quiet_get_positive (d : dict dval) (key : string) :
  integer_counts d -> In key count_keys -> quiet (get_positive d key).
Proof.
  intros Hd Hk. unfold get_positive.
  destruct (Hd key Hk) as [->|[n ->]]; apply quiet_ret.
Qed.

Lemma quiet_getitem_positive (d : dict dval) (key : string) :
  snd (get_positive d key) = Done true -> quiet (getitem d key).
Proof.
  unfold get_positive, getitem. destruct (dict_get key d); [intros _; apply quiet_ret|].
  discriminate.
Qed.

Lemma quiet_getitem {V : Type} (d : dict V) (key : string) (v : V) :
  dict_get key d = Some v -> quiet (getitem d key).
Proof. unfold getitem. intros ->. apply quiet_ret. Qed.

Lemma getitem_Done {V : Type} (d : dict V) (key : string) (v a : V) :
  dict_get key d = Some v -> snd (getitem d key) = Done a -> a = v.
Proof. unfold getitem. intros ->. simpl. congruence. Qed.

Lemma count_keys_1 : In "identical_rows" count_keys.
Proof. now left. Qed.

Lemma count_keys_2 : In "rows_only_in_db1" count_keys.
Proof. right. now left. Qed.

Lemma count_keys_3 : In "rows_only_in_db2" count_keys.
Proof. right. right. now left. Qed.

(** One step of a proof that a computation sends no query. *)
Ltac quiet_step :=
  match goal with
  | |- quiet (io_ret _) => apply quiet_ret
  | |- quiet (print _) => apply quiet_print
  | |- quiet print_line => apply quiet_print_line
  | H : snd (get_positive ?d ?k) = Done true |- quiet (getitem ?d ?k) =>
      exact (quiet_getitem_positive d k H)
  | H : integer_counts ?d |- quiet (get_positive ?d _) =>
      apply (quiet_get_positive _ _ H);
      first [exact count_keys_1 | exact count_keys_2 | exact count_keys_3]
  | |- quiet (io_bind _ _) =>
      apply quiet_bind; [|let a := fresh "a" in let Ha := fresh "Ha" in intros a Ha]
  | |- quiet (if ?b then _ else _) => destruct b
  | |- quiet (for_each _ _) =>
      apply quiet_for_each; let x := fresh "x" in intros x _
  end.

Lemma quiet_add_count_row (d : dict dval) (key label open close : string) (t : Table) :
  integer_counts d -> In key count_keys -> quiet (add_count_row d key label open close t).
Proof.
  intros Hd Hk. unfold add_count_row.
  apply quiet_bind; [now apply quiet_get_positive|].
  intros [|] Ha; [|apply quiet_ret].
  apply quiet_bind; [now apply quiet_getitem_positive | intros; apply quiet_ret].
Qed.

Section QuietParts.
Context `{RT : PyRuntime}.

Lemma quiet_display_type_mismatches (a : analysis) : quiet (display_type_mismatches a).
Proof.
  unfold display_type_mismatches. destruct (type_mismatches a); repeat quiet_step.
Qed.

Lemma quiet_display_row_comparisons (a : analysis) : quiet (display_row_comparisons a).
Proof.
  unfold display_row_comparisons. cbv zeta. repeat quiet_step.
Qed.

Lemma quiet_display_table_summary (name : string) (tc : TableComparison) (a : analysis) :
  integer_counts (data_differences tc) -> quiet (display_table_summary name tc a).
Proof.
  intros Hd. unfold display_table_summary. cbv zeta.
  remember (data_differences tc) as d eqn:Ed. clear Ed.
  apply quiet_bind; [|intros; repeat quiet_step].
  destruct d as [|p d]; [apply quiet_ret|].
  apply quiet_bind; [apply quiet_add_count_row; [exact Hd | exact count_keys_1]|].
  intros t1 _.
  apply quiet_bind; [apply quiet_add_count_row; [exact Hd | exact count_keys_2]|].
  intros t2 _. apply quiet_add_count_row; [exact Hd | exact count_keys_3].
Qed.

Lemma quiet_display_table (c : DatabaseComparison) (name : string) (tc : TableComparison) :
  dict_get name (table_comparisons c) = Some tc ->
  integer_counts (data_differences tc) -> quiet (display_table c name).
Proof.
  intros Hget Hd. unfold display_table.
  apply quiet_bind; [now apply (quiet_getitem _ _ tc)|].
  intros tc' Htc. apply (getitem_Done _ _ _ _ Hget) in Htc. subst tc'. cbv zeta.
  remember (data_differences tc) as d eqn:Ed. clear Ed.
  apply quiet_bind; [apply quiet_print|]. intros _ _.
  apply quiet_bind; [destruct (schema_diff tc); repeat quiet_step|]. intros _ _.
  apply quiet_bind; [|intros; apply quiet_print_line].
  destruct d as [|p d]; [apply quiet_ret|].
  apply quiet_bind; [apply quiet_add_count_row; [exact Hd | exact count_keys_1]|].
  intros t1 _.
  apply quiet_bind; [apply quiet_add_count_row; [exact Hd | exact count_keys_2]|].
  intros t2 _.
  apply quiet_bind; [apply quiet_add_count_row; [exact Hd | exact count_keys_3]|].
  intros t3 _. repeat quiet_step.
Qed.

Lemma quiet_table_node_of (c : DatabaseComparison) (name : string) (tc : TableComparison) :
  dict_get name (table_comparisons c) = Some tc ->
  integer_counts (data_differences tc) -> quiet (table_node_of c name).
Proof.
  intros Hget Hd. unfold table_node_of.
  apply quiet_bind; [now apply (quiet_getitem _ _ tc)|].
  intros tc' Htc. apply (getitem_Done _ _ _ _ Hget) in Htc. subst tc'. cbv zeta.
  remember (data_differences tc) as d eqn:Ed. clear Ed.
  apply quiet_bind; [|intros; apply quiet_ret].
  destruct d as [|p d]; [apply quiet_ret|].
  destruct (match dict_get "is_data_identical" (p :: d) with
            | Some v => dval_truth v
            | None => false
            end); [apply quiet_ret|].
  repeat quiet_step.
Qed.

Lemma quiet_issues_of (tc : TableComparison) :
  integer_counts (data_differences tc) -> quiet (issues_of tc).
Proof.
  intros Hd. unfold issues_of. cbv zeta.
  remember (data_differences tc) as d eqn:Ed. clear Ed.
  destruct d as [|p d]; [apply quiet_ret|].
  repeat quiet_step.
Qed.

Lemma quiet_summary_tree_of (c : DatabaseComparison) :
  (forall name, In name (non_identical_tables c) -> recorded_in c name) ->
  quiet (summary_tree_of c).
Proof.
  intros Hrec. unfold summary_tree_of. cbv zeta.
  destruct (db_is_identical c); [apply quiet_ret|].
  apply quiet_bind; [|intros; apply quiet_ret].
  destruct (non_identical_tables c) as [|n rest] eqn:En; [apply quiet_ret|].
  apply quiet_bind; [|intros; apply quiet_ret].
  apply quiet_for_fold. intros nodes name Hin.
  apply (proj1 (sorted_In _ _)) in Hin. destruct (Hrec name Hin) as [tc [Hget Hd]].
  apply quiet_bind; [now apply (quiet_table_node_of c name tc) | intros; apply quiet_ret].
Qed.

Lemma quiet_diff_summary_table_of (c : DatabaseComparison) :
  (forall name, In name (non_identical_tables c) -> recorded_in c name) ->
  quiet (diff_summary_table_of c).
Proof.
  intros Hrec. unfold diff_summary_table_of. cbv zeta.
  apply quiet_for_fold. intros t name Hin.
  apply (proj1 (sorted_In _ _)) in Hin. destruct (Hrec name Hin) as [tc [Hget Hd]].
  apply quiet_bind; [now apply (quiet_getitem _ _ tc)|].
  intros tc' Htc. apply (getitem_Done _ _ _ _ Hget) in Htc. subst tc'.
  apply quiet_bind; [now apply quiet_issues_of | intros; apply quiet_ret].
Qed.

End QuietParts.

(** *** How the report ends and what it queries *)

Lemma observed_bind {X Y : Type} (m : IO X) (f : X -> IO Y) :
  observed (io_bind m f) =
    match snd m with
    | Done a => (snd (f a), queries_of (fst m) ++ queries_of (fst (f a)))
    | Fails e => (Fails e, queries_of (fst m))
    end.
Proof.
  unfold observed. rewrite io_bind_snd, io_bind_fst, queries_of_app.
  destruct (snd m); simpl; [reflexivity | now rewrite app_nil_r].
Qed.

Lemma observed_quiet {X Y : Type} (m : IO X) (f : X -> IO Y) (a : X) :
  quiet m -> snd m = Done a -> observed (io_bind m f) = observed (f a).
Proof. intros [_ Hq] Ha. now rewrite observed_bind, Ha, Hq. Qed.

Lemma observed_quiet_unit {Y : Type} (m : IO unit) (f : unit -> IO Y) :
  quiet m -> observed (io_bind m f) = observed (f tt).
Proof.
  intros H. pose proof H as [[[] Ha] _]. now apply observed_quiet.
Qed.

Lemma quiet_observed (m : IO unit) : quiet m -> observed m = (Done tt, []).
Proof. intros [[[] Ha] Hq]. unfold observed. now rewrite Ha, Hq. Qed.

Lemma observed_get_table_data {Y : Type} (conn : connection) (name : string)
  (f : list row -> IO Y) :
  observed (io_bind (run_query (get_table_data conn name)) f) =
    match q_select_all conn name with
    | Ok fetched =>
        (fst (observed (f (rows_of_fetch fetched))),
         mkEvent (conn_db conn) (QSelectAll name)
         :: snd (observed (f (rows_of_fetch fetched))))
    | Raise e => (Fails (Raised e), [mkEvent (conn_db conn) (QSelectAll name)])
    end.
Proof.
  rewrite observed_bind. unfold run_query, get_table_data, execute.
  destruct (q_select_all conn name); reflexivity.
Qed.

Lemma for_each_observed {X : Type} (l : list X) (body : X -> IO unit)
  (q : X -> list event) :
  (forall x, In x l -> observed (body x) = (Done tt, q x)) ->
  observed (for_each l body) = (Done tt, flat_map q l).
Proof.
  induction l as [|x l IH]; intros H; simpl; [reflexivity|].
  rewrite observed_bind.
  pose proof (H x (or_introl eq_refl)) as Hx. unfold observed in Hx.
  injection Hx as Hs Hq. rewrite Hs, Hq.
  assert (IH' : observed (for_each l body) = (Done tt, flat_map q l))
    by (apply IH; intros y Hy; apply H; now right).
  unfold observed in IH'. injection IH' as -> ->. reflexivity.
Qed.


Lemma for_each_Done {X : Type} (l : list X) (body : X -> IO unit) :
  snd (for_each l body) = Done tt -> forall x, In x l -> snd (body x) = Done tt.
Proof.
  induction l as [|y l IH]; simpl; [intros _ x []|].
  rewrite io_bind_snd. destruct (snd (body y)) as [[]|f'] eqn:E; [|discriminate].
  intros H x [<-|Hx]; [exact E | now apply IH].
Qed.

Section ReportRuns.
Context `{RT : PyRuntime}.

(** The detailed report of one table: the rows of the first database are
    queried, then those of the second; the first query that raises ends
    the report. *)
Lemma display_table_differences_observed (conn1 conn2 : connection)
  (c : DatabaseComparison) (name : string) :
  recorded_in c name ->
  observed (display_table_differences conn1 conn2 c name) =
    match q_select_all conn1 name, q_select_all conn2 name with
    | Ok _, Ok _ => (Done tt, row_queries conn1 conn2 name)
    | Ok _, Raise e => (Fails (Raised e), row_queries conn1 conn2 name)
    | Raise e, _ => (Fails (Raised e), [mkEvent (conn_db conn1) (QSelectAll name)])
    end.
Proof.
  intros [tc [Hget Hd]]. unfold display_table_differences.
  rewrite (observed_quiet _ _ tc); [|now apply (quiet_getitem _ _ tc)
                                    |unfold getitem; now rewrite Hget].
  do 3 (rewrite observed_quiet_unit; [|apply quiet_print]).
  rewrite observed_get_table_data.
  destruct (q_select_all conn1 name) as [f1|e1]; [|reflexivity].
  rewrite observed_get_table_data.
  destruct (q_select_all conn2 name) as [f2|e2]; [|reflexivity].
  cbv zeta.
  rewrite observed_quiet_unit; [|apply quiet_display_type_mismatches].
  rewrite observed_quiet_unit; [|apply quiet_display_row_comparisons].
  rewrite quiet_observed; [reflexivity | now apply quiet_display_table_summary].
Qed.

Lemma display_detailed_differences_Done (conn1 conn2 : connection)
  (c : DatabaseComparison) :
  (forall name, In name (non_identical_tables c) ->
                recorded_in c name /\ rows_answer conn1 name /\ rows_answer conn2 name) ->
  observed (display_detailed_differences conn1 conn2 c) =
    (Done tt, flat_map (row_queries conn1 conn2) (sorted (non_identical_tables c))).
Proof.
  intros H. unfold display_detailed_differences. cbv zeta.
  destruct (non_identical_tables c) as [|n rest] eqn:En; [reflexivity|].
  do 2 (rewrite observed_quiet_unit; [|apply quiet_print]).
  apply for_each_observed. intros name Hin.
  apply (proj1 (sorted_In _ _)) in Hin.
  destruct (H name Hin) as [Hrec [[f1 H1] [f2 H2]]].
  rewrite (display_table_differences_observed _ _ _ _ Hrec), H1, H2. reflexivity.
Qed.


(** When the detailed report returns, the rows of every differing table
    were answered. *)
Lemma display_detailed_differences_returned (conn1 conn2 : connection)
  (c : DatabaseComparison) :
  (forall name, In name (non_identical_tables c) -> recorded_in c name) ->
  snd (display_detailed_differences conn1 conn2 c) = Done tt ->
  forall name, In name (non_identical_tables c) ->
    recorded_in c name /\ rows_answer conn1 name /\ rows_answer conn2 name.
Proof.
  intros Hrec Hdone name Hin. split; [now apply Hrec|].
  unfold display_detailed_differences in Hdone. cbv zeta in Hdone.
  destruct (non_identical_tables c) as [|n rest] eqn:En; [destruct Hin|].
  rewrite !io_bind_snd in Hdone. cbn [print snd] in Hdone.
  pose proof (for_each_Done _ _ Hdone name (proj2 (sorted_In _ _) Hin)) as Hx.
  pose proof (display_table_differences_observed conn1 conn2 c name (Hrec name Hin))
    as Hobs.
  unfold observed in Hobs. rewrite Hx in Hobs.
  destruct (q_select_all conn1 name) as [f1|e1] eqn:E1; [|discriminate].
  destruct (q_select_all conn2 name) as [f2|e2] eqn:E2; [|discriminate].
  split; [now exists f1 | now exists f2].
Qed.

(** Before the detailed differences, the report sends no query and cannot
    fail. *)
Lemma display_results_observed (conn1 conn2 : connection) (c : DatabaseComparison) :
  (forall name, In name (common_tables c) -> recorded_in c name) ->
  (forall name, In name (non_identical_tables c) -> recorded_in c name) ->
  (db_is_identical c = true -> non_identical_tables c = []) ->
  observed (display_results conn1 conn2 c) =
    observed (display_detailed_differences conn1 conn2 c).
Proof.
  intros Hcom Hrec Hid. unfold display_results.
  do 2 (rewrite observed_quiet_unit; [|apply quiet_print]).
  rewrite observed_quiet_unit; [|cbv zeta; apply quiet_print].
  rewrite observed_quiet_unit; [|apply quiet_print_line].
  rewrite observed_quiet_unit; [|destruct (db_is_identical c); apply quiet_print].
  rewrite observed_quiet_unit; [|apply quiet_print_line].
  rewrite observed_quiet_unit; [|apply quiet_print].
  rewrite observed_quiet_unit; [|apply quiet_print_line].
  rewrite observed_quiet_unit.
  2:{ destruct (common_tables c) as [|n rest] eqn:Ec; [apply quiet_ret|].
      apply quiet_bind; [apply quiet_print|]. intros _ _.
      apply quiet_for_each. intros name Hin.
      apply (proj1 (sorted_In _ _)) in Hin.
      assert (Hin' : In name (n :: rest))
        by (eapply Permutation_in; [apply py_set_order_perm | exact Hin]).
      destruct (Hcom name Hin') as [tc [Hget Hd]].
      now apply (quiet_display_table c name tc). }
  rewrite observed_quiet_unit; [|apply quiet_print].
  destruct (quiet_Done _ (quiet_summary_tree_of c Hrec)) as [t [tree [Htree Hq]]].
  rewrite (observed_quiet _ _ tree);
    [|now apply quiet_summary_tree_of | now rewrite Htree].
  rewrite observed_quiet_unit; [|apply quiet_print].
  rewrite observed_quiet_unit; [|apply quiet_print_line].
  destruct (db_is_identical c) eqn:E; simpl negb; cbv iota.
  - unfold display_detailed_differences. cbv zeta. now rewrite (Hid eq_refl).
  - rewrite observed_quiet_unit; [|apply quiet_print_line].
    destruct (quiet_Done _ (quiet_diff_summary_table_of c Hrec)) as [t' [tbl [Htbl Hq']]].
    rewrite (observed_quiet _ _ tbl);
      [|now apply quiet_diff_summary_table_of | now rewrite Htbl].
    rewrite observed_quiet_unit; [|apply quiet_print].
    rewrite observed_quiet_unit; [|apply quiet_print_line].
    reflexivity.
Qed.

(** Every table of a comparison result is recorded with integer counts. *)
Lemma compare_databases_recorded (conn1 conn2 : connection) (trace : list event)
  (c : DatabaseComparison) :
  compare_databases conn1 conn2 = (trace, Ok c) ->
  (forall name, In name (common_tables c) -> recorded_in c name)
  /\ (forall name, In name (non_identical_tables c) -> recorded_in c name).
Proof.
  intros H. destruct (compare_databases_entries _ _ _ _ H) as [Hnd [Hcom Hget]].
  split.
  - intros name Hin. destruct (Hcom name Hin) as [tc Htc]. exists tc. split; [exact Htc|].
    apply (compare_table_integer_counts conn1 conn2 name), (Hget _ _ Htc).
  - intros name Hin. apply (non_identical_tables_In _ _ Hnd) in Hin.
    destruct Hin as [tc [Htc _]]. exists tc. split; [exact Htc|].
    apply (compare_table_integer_counts conn1 conn2 name), (Hget _ _ Htc).
Qed.

Lemma display_results_of_comparison (conn1 conn2 : connection) (trace : list event)
  (c : DatabaseComparison) :
  compare_databases conn1 conn2 = (trace, Ok c) ->
  observed (display_results conn1 conn2 c) =
    observed (display_detailed_differences conn1 conn2 c).
Proof.
  intros H. destruct (compare_databases_recorded _ _ _ _ H) as [Hcom Hrec].
  apply display_results_observed; auto.
  apply (identical_no_differing_table conn1 conn2 trace c H).
Qed.


(** X23.  When [display_results] returns on a result of
    [compare_databases], the queries it sent are [SELECT *] on each
    non-identical table, to the first database and then to the second, the
    tables in sorted order; on an identical result it sends no query. *)
Theorem display_results_queries
  (conn1 conn2 : connection) (trace : list event) (comparison : DatabaseComparison) :
  compare_databases conn1 conn2 = (trace, Ok comparison) ->
  snd (display_results conn1 conn2 comparison) = Done tt ->
  queries_of (fst (display_results conn1 conn2 comparison)) =
    flat_map (row_queries conn1 conn2) (sorted (non_identical_tables comparison))
  /\ (db_is_identical comparison = true ->
      queries_of (fst (display_results conn1 conn2 comparison)) = []).
Proof.
  intros H Hdone.
  destruct (compare_databases_recorded _ _ _ _ H) as [Hcom Hrec].
  pose proof (display_results_of_comparison _ _ _ _ H) as Ho.
  unfold observed in Ho. injection Ho as Hs Hq. rewrite Hs in Hdone.
  pose proof (display_detailed_differences_returned _ _ _ Hrec Hdone) as Hall.
  pose proof (display_detailed_differences_Done conn1 conn2 comparison Hall) as Hd.
  unfold observed in Hd. injection Hd as _ Hd. rewrite Hq, Hd.
  split; [reflexivity|].
  intros Hid. now rewrite (identical_no_differing_table conn1 conn2 trace comparison H Hid).
Qed.

End ReportRuns.

(** *** The tables of the report *)

Lemma set_add_string_In (s : list string) (x y : string) :
  In y (set_add String.eqb s x) <-> In y s \/ y = x.
Proof.
  unfold set_add. destruct (set_mem String.eqb x s) eqn:E.
  - apply set_mem_string in E. split; [auto | intros [H| ->]; auto].
  - rewrite in_app_iff. simpl. intuition.
Qed.

Lemma set_add_string_NoDup (s : list string) (x : string) :
  NoDup s -> NoDup (set_add String.eqb s x).
Proof.
  intros Hnd. unfold set_add. destruct (set_mem String.eqb x s) eqn:E; [exact Hnd|].
  apply (Permutation_NoDup (Permutation_cons_append s x)).
  constructor; [|exact Hnd]. intros Hin. apply set_mem_string in Hin. congruence.
Qed.

Lemma set_union_In (s t : list string) (x : string) :
  In x (set_union s t) <-> In x s \/ In x t.
Proof.
  unfold set_union. revert s. induction t as [|y t IH]; intros s; simpl; [tauto|].
  rewrite IH, set_add_string_In. intuition.
Qed.

Lemma set_union_NoDup (s t : list string) : NoDup s -> NoDup (set_union s t).
Proof.
  unfold set_union. revert s. induction t as [|y t IH]; intros s H; simpl; [exact H|].
  apply IH, set_add_string_NoDup, H.
Qed.

(** A set and the union of its two parts with respect to another set list
    the same names. *)
Lemma set_union_parts (s t : list string) :
  NoDup s ->
  Permutation (set_union (set_inter String.eqb s t) (set_diff String.eqb s t)) s.
Proof.
  intros Hnd. apply NoDup_Permutation; [|exact Hnd|].
  - apply set_union_NoDup. now apply NoDup_filter.
  - intros x. rewrite set_union_In, set_inter_string_In, set_diff_string_In.
    destruct (in_dec string_dec x t); tauto.
Qed.

Lemma set_union_parts_swap (s t : list string) :
  NoDup s -> NoDup t ->
  Permutation (set_union (set_inter String.eqb s t) (set_diff String.eqb t s)) t.
Proof.
  intros Hs Ht. apply NoDup_Permutation; [|exact Ht|].
  - apply set_union_NoDup. now apply NoDup_filter.
  - intros x. rewrite set_union_In, set_inter_string_In, set_diff_string_In.
    destruct (in_dec string_dec x s); tauto.
Qed.

Lemma tbl_rows_fold_add_row {X : Type} (g : X -> list string) (l : list X) (t : Table) :
  tbl_rows (fold_left (fun t x => add_row (g x) t) l t) = tbl_rows t ++ map g l.
Proof.
  revert t. induction l as [|x l IH]; intros t; simpl; [now rewrite app_nil_r|].
  rewrite IH. simpl. now rewrite <- app_assoc.
Qed.

Section ReportTables.
Context `{RT : PyRuntime}.

(** The table classes of a comparison result, from the two listings. *)
Lemma compare_databases_classes (conn1 conn2 : connection) (names1 names2 : list string)
  (trace : list event) (result : DatabaseComparison) :
  q_table_names conn1 = Ok names1 -> q_table_names conn2 = Ok names2 ->
  compare_databases conn1 conn2 = (trace, Ok result) ->
  let tables1 := set_of_list String.eqb names1 in
  let tables2 := set_of_list String.eqb names2 in
  common_tables result = set_inter String.eqb tables1 tables2
  /\ tables_only_in_db1 result = set_diff String.eqb tables1 tables2
  /\ tables_only_in_db2 result = set_diff String.eqb tables2 tables1.
Proof.
  intros H1 H2 H.
  destruct (compare_databases_Ok _ _ _ _ _ _ H1 H2 H) as [t [c [Hloop [-> _]]]].
  destruct (compare_loop_Ok _ _ _ _ _ _ Hloop) as [A [B [C _]]].
  destruct (asymmetry_check_fields c) as [A' [B' [C' _]]].
  cbv zeta. rewrite A', B', C', A, B, C. repeat split.
Qed.

(** X24.  In the table "Table Structure Comparison" of a result of
    [compare_databases], the first row gives the number of tables of the
    first database and their names in sorted order (or "None"), the second
    row the same for the second database, whatever the order in which the
    runtime iterates a set. *)
Theorem structure_table_totals
  (conn1 conn2 : connection) (names1 names2 : list string)
  (trace : list event) (comparison : DatabaseComparison) :
  q_table_names conn1 = Ok names1 -> q_table_names conn2 = Ok names2 ->
  compare_databases conn1 conn2 = (trace, Ok comparison) ->
  let tables1 := set_of_list String.eqb names1 in
  let tables2 := set_of_list String.eqb names2 in
  exists rest,
    tbl_rows (structure_table_of comparison) =
      [ "Total Tables in DB1"; string_of_Z (len tables1);
        or_else (String.concat ", " (sorted tables1)) "None" ]
      :: [ "Total Tables in DB2"; string_of_Z (len tables2);
           or_else (String.concat ", " (sorted tables2)) "None" ]
      :: rest.
Proof.
  intros H1 H2 H tables1 tables2.
  destruct (compare_databases_classes _ _ _ _ _ _ H1 H2 H) as [Hc [Ho1 Ho2]].
  fold tables1 tables2 in Hc, Ho1, Ho2.
  assert (N1 : NoDup tables1) by apply set_of_list_string_NoDup.
  assert (N2 : NoDup tables2) by apply set_of_list_string_NoDup.
  assert (L1 : len (common_tables comparison) + len (tables_only_in_db1 comparison)
               = len tables1).
  { rewrite Hc, Ho1. pose proof (set_diff_inter_length String.eqb tables1 tables2).
    unfold len. lia. }
  assert (L2 : len (common_tables comparison) + len (tables_only_in_db2 comparison)
               = len tables2).
  { rewrite Hc, Ho2. pose proof (set_diff_inter_length String.eqb tables2 tables1) as P.
    rewrite <- (set_inter_length_sym String.eqb String.eqb_sym string_eqb_trans
                  tables1 tables2) in P.
    - unfold len. lia.
    - apply pairwise_distinct_of_list, String.eqb_sym.
    - apply pairwise_distinct_of_list, String.eqb_sym. }
  assert (S1 : sorted (py_set_order
                         (set_union (common_tables comparison)
                            (tables_only_in_db1 comparison)))
               = sorted tables1).
  { apply sorted_Permutation. rewrite py_set_order_perm, Hc, Ho1.
    now apply set_union_parts. }
  assert (S2 : sorted (py_set_order
                         (set_union (common_tables comparison)
                            (tables_only_in_db2 comparison)))
               = sorted tables2).
  { apply sorted_Permutation. rewrite py_set_order_perm, Hc, Ho2.
    now apply set_union_parts_swap. }
  unfold structure_table_of. cbv zeta. rewrite L1, L2, S1, S2.
  destruct (tables_only_in_db1 comparison), (tables_only_in_db2 comparison);
    cbn [tbl_rows add_row add_column new_Table app]; eexists; reflexivity.
Qed.

(** *** The quick overview *)

Lemma issue_head_fstr (c : ascii) (s : string) (parts : list string) :
  c <> "U"%char -> issue_head (fstr (String c s :: parts)).
Proof.
  intros Hc. unfold fstr. destruct parts as [|p parts]; simpl.
  - exists c, s. now split.
  - eexists c, _. split; [reflexivity | exact Hc].
Qed.

Lemma details_of_informative (issues : list string) :
  issues <> [] -> Forall issue_head issues -> details_of issues <> "Unknown difference".
Proof.
  destruct issues as [|x rest]; [congruence|]. intros _ Hall.
  inversion Hall as [|? ? [c [r [-> Hc]]] _]; subst.
  unfold details_of. destruct rest as [|y rest]; simpl.
  - intros [= -> _]. congruence.
  - intros [= -> _]. congruence.
Qed.

Lemma len_rows_of_fetch (fetched : list string * list (list value)) :
  len (rows_of_fetch fetched) = len (snd fetched).
Proof. unfold rows_of_fetch, len. now rewrite length_map. Qed.

(** The issues listed for a table that was found different, when
    [COUNT( * )] agrees with the rows fetched. *)
Lemma issues_of_informative (conn1 conn2 : connection) (name : string)
  (tc : TableComparison) :
  snd (compare_table conn1 conn2 name) = Ok tc ->
  count_consistent conn1 -> count_consistent conn2 ->
  is_identical tc = false ->
  exists issues,
    issues_of tc = ([], Done issues) /\ issues <> [] /\ Forall issue_head issues.
Proof.
  intros Htc K1 K2 Hv.
  destruct (compare_table_shape _ _ _ _ Htc)
    as (s1 & s2 & c1 & c2 & Hi1 & Hi2 & Hc1 & Hc2 & Hsm & Hsd & Hr1 & Hr2 & Hid & Hdata).
  assert (HS : issue_head (fstr ["Schema: "; string_of_Z (len (schema_diff tc));
                                 " difference(s)"]))
    by (apply issue_head_fstr; discriminate).
  assert (HR : issue_head (fstr ["Rows: "; string_of_Z (row_count_db1 tc); " vs ";
                                 string_of_Z (row_count_db2 tc)]))
    by (apply issue_head_fstr; discriminate).
  assert (HD : forall l, issue_head (fstr ["Data: "; String.concat ", " l]))
    by (intros l; apply issue_head_fstr; discriminate).
  unfold issues_of. cbv zeta. rewrite Hr1, Hr2 in *.
  destruct Hdata as [[Hf Hd]|[Ht [f1 [f2 [Hq1 [Hq2 Hd]]]]]].
  - rewrite Hd, Hf. cbn [negb app].
    destruct (negb (c1 =? c2)); eexists; (split; [reflexivity|]);
      (split; [discriminate|]); repeat constructor; assumption.
  - destruct (differ_outcome_counts _ _ _
                (compare_table_data_outcome (rows_of_fetch f1) (rows_of_fetch f2)))
      as (n1 & n2 & i & b & Hn1 & Hn2 & Hni & Hb & Hpos).
    rewrite <- Hd in Hn1, Hn2, Hni, Hb. rewrite Hb, Ht in Hid. simpl in Hid.
    assert (Hcase : (c1 =? c2) = false \/ 0 < n1 \/ 0 < n2).
    { destruct (c1 =? c2) eqn:Ec; [right | now left].
      rewrite Hv in Hid. simpl in Hid. apply Hpos; [congruence|].
      rewrite !len_rows_of_fetch.
      rewrite <- (K1 _ _ _ Hc1 Hq1), <- (K2 _ _ _ Hc2 Hq2). now apply Z.eqb_eq. }
    remember (data_differences tc) as d eqn:Ed. clear Ed Hd.
    destruct d as [|p d]; [discriminate|].
    unfold get_positive, getitem. rewrite Hn1, Hn2, Ht.
    cbn [negb dval_positive io_bind io_ret app dval_format].
    destruct (0 <? n1) eqn:E1, (0 <? n2) eqn:E2, (c1 =? c2) eqn:Ec;
      cbn [negb io_bind io_ret app];
      try (eexists; split; [reflexivity|]; split; [discriminate|];
           repeat constructor; auto; fail).
    exfalso. apply Z.ltb_ge in E1, E2. destruct Hcase as [?|[?|?]]; [discriminate|lia|lia].
Qed.

Lemma for_fold_add_rows {X : Type} (Q : X -> list string -> Prop) (l : list X)
  (body : Table -> X -> IO Table) :
  (forall t x, In x l -> exists cells, body t x = ([], Done (add_row cells t)) /\ Q x cells) ->
  forall t0, exists t rows,
    for_fold l body t0 = ([], Done t)
    /\ tbl_rows t = tbl_rows t0 ++ rows /\ Forall2 Q l rows.
Proof.
  induction l as [|x l IH]; intros H t0; simpl.
  - exists t0, []. rewrite app_nil_r. repeat split. constructor.
  - destruct (H t0 x (or_introl eq_refl)) as [cells [Hb HQ]].
    destruct (IH (fun t y Hy => H t y (or_intror Hy)) (add_row cells t0))
      as [t [rows [Hf [Hrows HF]]]].
    exists t, (cells :: rows). rewrite Hb. cbn [io_bind]. rewrite Hf. cbn [app].
    repeat split.
    + rewrite Hrows. simpl. now rewrite <- app_assoc.
    + now constructor.
Qed.

(** X25.  When [COUNT( * )] agrees with the rows [SELECT *] fetches, the
    quick overview of a result of [compare_databases] is built without
    error: one row per table missing on a side, then one row per
    non-identical table in sorted order, and no Details cell of these reads
    "Unknown difference". *)
Theorem overview_rows_informative
  (conn1 conn2 : connection) (trace : list event) (comparison : DatabaseComparison) :
  compare_databases conn1 conn2 = (trace, Ok comparison) ->
  count_consistent conn1 -> count_consistent conn2 ->
  exists table rows,
    diff_summary_table_of comparison = ([], Done table)
    /\ tbl_rows table =
         map (fun t => [t; "[red]Missing in DB2[/red]"; "Table exists only in Database 1"])
             (sorted (py_set_order (tables_only_in_db1 comparison)))
         ++ map (fun t => [t; "[red]Missing in DB1[/red]";
                           "Table exists only in Database 2"])
                (sorted (py_set_order (tables_only_in_db2 comparison)))
         ++ rows
    /\ Forall2 (fun name cells =>
                  exists details,
                    cells = [name; "[red]Data/Schema Diff[/red]"; details]
                    /\ details <> "Unknown difference")
               (sorted (non_identical_tables comparison)) rows.
Proof.
  intros H K1 K2.
  destruct (compare_databases_entries _ _ _ _ H) as [Hnd [_ Hget]].
  unfold diff_summary_table_of. cbv zeta.
  set (Q := fun (name : string) (cells : list string) =>
              exists details,
                cells = [name; "[red]Data/Schema Diff[/red]"; details]
                /\ details <> "Unknown difference").
  match goal with
  | |- exists table rows, for_fold _ ?body ?start = _ /\ _ =>
      set (body0 := body); set (start0 := start)
  end.
  assert (Hbody : forall t name, In name (sorted (non_identical_tables comparison)) ->
            exists cells, body0 t name = ([], Done (add_row cells t)) /\ Q name cells).
  { intros t name Hin. apply (proj1 (sorted_In _ _)) in Hin.
    apply (non_identical_tables_In _ _ Hnd) in Hin. destruct Hin as [tc [Htc Hv]].
    destruct (issues_of_informative conn1 conn2 name tc (proj2 (Hget _ _ Htc)) K1 K2 Hv)
      as [issues [Hi [Hne Hall]]].
    exists [name; "[red]Data/Schema Diff[/red]"; details_of issues].
    unfold body0, getitem. rewrite Htc. cbn [io_bind io_ret]. rewrite Hi.
    cbn [io_bind io_ret app].
    split; [reflexivity|]. exists (details_of issues). split; [reflexivity|].
    now apply details_of_informative. }
  destruct (for_fold_add_rows Q _ body0 Hbody start0) as [table [rows [Hf [Hrows HF]]]].
  exists table, rows. split; [exact Hf|]. split; [|exact HF].
  rewrite Hrows. unfold start0. rewrite !tbl_rows_fold_add_row.
  cbn [tbl_rows add_column new_Table app]. now rewrite <- app_assoc.
Qed.

End ReportTables.

(** *** The side-by-side rows *)






(** *** The report of one table *)

Section TableReport.
Context `{RT : PyRuntime}.



End TableReport.

(** *** [main] *)

Section MainRuns.
Context `{RT : PyRuntime}.
Variable py_repr : string -> string.





End MainRuns.

(** *** A table with the same rows on both sides *)

Section SameRows.
Context `{RT : PyRuntime}.

Lemma fold_check_row_same (max_samples : Z) (columns : list string) (data : list row)
  (l : list (string * row)) :
  (forall item, In item l -> In item (rows_by_key data)) ->
  forall st, fold_left (check_row max_samples columns (rows_by_key data)) l st = st.
Proof.
  induction l as [|[key r] l IH]; intros H st; simpl; [reflexivity|].
  unfold check_row at 2. cbn [fst snd].
  rewrite (dict_get_NoDup key r (rows_by_key data));
    [|apply dict_of_items_keys_NoDup | apply H; now left].
  rewrite fold_check_column_same by reflexivity.
  apply IH. intros item Hin. apply H. now right.
Qed.

(** The analysis of a table against itself finds nothing. *)
Lemma same_rows_analysis (data : list row) (table : string) (max_samples : Z) :
  analyze_row_differences data data table max_samples = mkAnalysis [] [] [] [] false.
Proof.
  destruct data as [|first rest]; [reflexivity|].
  rewrite analyze_row_differences_fields.
  rewrite fold_check_row_same by (intros item; apply slice_to_In).
  assert (Hd : forall s, set_diff String.eqb s s = [])
    by (intros s; apply set_diff_string_nil; auto).
  rewrite Hd, py_set_order_nil.
  assert (Hs : forall k, @slice_to string [] k = []).
  { intros k. unfold slice_to. destruct (0 <=? k); apply firstn_nil. }
  rewrite Hs. reflexivity.
Qed.

(** X30.  For a recorded table whose schemas differ while [SELECT *]
    fetches the same columns and rows on both sides, the detailed report is
    the three header lines, the two row queries, a summary table holding
    only the two row counts, the red conclusion "Actual data differences
    exist beyond just data types" and a blank line: no type warning and no
    side-by-side comparison. *)
Theorem schema_only_difference_report
  (conn1 conn2 : connection) (comparison : DatabaseComparison) (table_name : string)
  (table_comp : TableComparison) (fetched : list string * list (list value)) :
  dict_get table_name (table_comparisons comparison) = Some table_comp ->
  snd (compare_table conn1 conn2 table_name) = Ok table_comp ->
  schema_match table_comp = false ->
  q_select_all conn1 table_name = Ok fetched ->
  q_select_all conn2 table_name = Ok fetched ->
  exists summary,
    tbl_rows summary =
      [ [ "Total Rows in DB1";
          fstr ["[cyan]"; string_of_Z (row_count_db1 table_comp); "[/cyan]"] ];
        [ "Total Rows in DB2";
          fstr ["[magenta]"; string_of_Z (row_count_db2 table_comp); "[/magenta]"] ] ]
    /\ display_table_differences conn1 conn2 comparison table_name =
         ([ ConsolePrint
              (Some (Str (fstr [nl; "[bold yellow]"; repeat_string "=" 100;
                                "[/bold yellow]"])));
            ConsolePrint
              (Some (Str (fstr ["[bold cyan]ðŸ“‹ Table: "; table_name; "[/bold cyan]"])));
            ConsolePrint
              (Some (Str (fstr ["[bold yellow]"; repeat_string "=" 100;
                                "[/bold yellow]"; nl])));
            Query (mkEvent (conn_db conn1) (QSelectAll table_name));
            Query (mkEvent (conn_db conn2) (QSelectAll table_name));
            ConsolePrint (Some (ATable summary));
            ConsolePrint
              (Some (APanel
                       (mkPanel
                          (OfStr (fstr ["[bold red]âœ— CONCLUSION:[/bold red] ";
                                        "[red]Actual data differences exist beyond just data types.[/red]"]))
                          "red" (Some ROUNDED) None)));
            ConsolePrint None ],
          Done tt).
Proof.
  intros Hget Htc Hsm H1 H2.
  destruct (compare_table_shape _ _ _ _ Htc)
    as (s1 & s2 & c1 & c2 & _ & _ & _ & _ & _ & _ & _ & _ & _ & [[_ Hd]|[Ht _]]);
    [|congruence].
  eexists. split; [|].
  2:{ unfold display_table_differences, getitem, run_query, get_table_data, execute.
      rewrite Hget, H1, H2. cbn [io_bind io_ret print bind ret fst snd app map].
      rewrite same_rows_analysis.
      unfold display_type_mismatches, display_row_comparisons, display_table_summary,
        conclusion_panel.
      rewrite Hd.
      cbn [type_mismatches sample_rows_db1_only sample_rows_db2_only
           is_type_only_difference len List.length Z.of_nat Z.eqb negb orb
           io_bind io_ret print print_line fst snd app].
      reflexivity. }
  reflexivity.
Qed.

End SameRows.

(** ** The report on the scenario *)

Lemma count_consistent_db_a : count_consistent db_a.
Proof.
  intros name n fetched. simpl.
  destruct (String.eqb name "users"); [intros [= <-] [= <-]; reflexivity|].
  destruct (String.eqb name "orders"); [intros [= <-] [= <-]; reflexivity|].
  discriminate.
Qed.

Lemma count_consistent_db_b : count_consistent db_b.
Proof.
  intros name n fetched. simpl.
  destruct (String.eqb name "users"); [intros [= <-] [= <-]; reflexivity|].
  destruct (String.eqb name "orders"); [intros [= <-] [= <-]; reflexivity|].
  destruct (String.eqb name "logs"); [intros [= <-] [= <-]; reflexivity|].
  discriminate.
Qed.


Lemma display_results_queries_witness :
  exists trace comparison,
    @compare_databases ascii_runtime db_a db_b = (trace, Ok comparison)
    /\ snd (@display_results ascii_runtime db_a db_b comparison) = Done tt
    /\ queries_of (fst (@display_results ascii_runtime db_a db_b comparison)) =
         [ mkEvent "a.db" (QSelectAll "orders"); mkEvent "b.db" (QSelectAll "orders") ].
Proof.
  eexists. eexists. split; [reflexivity|]. split; [vm_compute; reflexivity|].
  exact (proj1 (@display_results_queries ascii_runtime db_a db_b _ _ eq_refl
                  ltac:(vm_compute; reflexivity))).
Defined.

Lemma structure_table_totals_witness :
  exists trace comparison,
    q_table_names db_a = Ok ["orders"; "users"]
    /\ q_table_names db_b = Ok ["logs"; "orders"; "users"]
    /\ @compare_databases ascii_runtime db_a db_b = (trace, Ok comparison)
    /\ exists rest,
         tbl_rows (@structure_table_of ascii_runtime comparison) =
           [ "Total Tables in DB1"; "2"; "orders, users" ]
           :: [ "Total Tables in DB2"; "3"; "logs, orders, users" ]
           :: rest.
Proof.
  eexists. eexists. split; [reflexivity|]. split; [reflexivity|]. split; [reflexivity|].
  exact (@structure_table_totals ascii_runtime db_a db_b
           ["orders"; "users"] ["logs"; "orders"; "users"] _ _ eq_refl eq_refl eq_refl).
Defined.

Lemma overview_rows_informative_witness :
  count_consistent db_a /\ count_consistent db_b
  /\ exists trace comparison,
       @compare_databases ascii_runtime db_a db_b = (trace, Ok comparison)
       /\ exists table rows,
            @diff_summary_table_of ascii_runtime comparison = ([], Done table)
            /\ tbl_rows table =
                 map (fun t => [t; "[red]Missing in DB2[/red]";
                                "Table exists only in Database 1"])
                     (sorted (@py_set_order ascii_runtime (tables_only_in_db1 comparison)))
                 ++ map (fun t => [t; "[red]Missing in DB1[/red]";
                                   "Table exists only in Database 2"])
                        (sorted (@py_set_order ascii_runtime (tables_only_in_db2 comparison)))
                 ++ rows
            /\ Forall2 (fun name cells =>
                          exists details,
                            cells = [name; "[red]Data/Schema Diff[/red]"; details]
                            /\ details <> "Unknown difference")
                       (sorted (non_identical_tables comparison)) rows.
Proof.
  split; [exact count_consistent_db_a|]. split; [exact count_consistent_db_b|].
  eexists. eexists. split; [reflexivity|].
  exact (@overview_rows_informative ascii_runtime db_a db_b _ _ eq_refl
           count_consistent_db_a count_consistent_db_b).
Defined.




Lemma schema_only_difference_report_witness :
  exists trace comparison table_comp fetched,
    @compare_databases ascii_runtime db_a db_a_retyped = (trace, Ok comparison)
    /\ dict_get "users" (table_comparisons comparison) = Some table_comp
    /\ snd (@compare_table ascii_runtime db_a db_a_retyped "users") = Ok table_comp
    /\ schema_match table_comp = false
    /\ q_select_all db_a "users" = Ok fetched
    /\ q_select_all db_a_retyped "users" = Ok fetched
    /\ exists summary,
         tbl_rows summary =
           [ ["Total Rows in DB1"; "[cyan]2[/cyan]"];
             ["Total Rows in DB2"; "[magenta]2[/magenta]"] ]
         /\ skipn 5 (fst (@display_table_differences ascii_runtime db_a db_a_retyped
                            comparison "users")) =
              [ ConsolePrint (Some (ATable summary));
                ConsolePrint
                  (Some (APanel
                           (mkPanel
                              (OfStr (fstr ["[bold red]âœ— CONCLUSION:[/bold red] ";
                                            "[red]Actual data differences exist beyond just data types.[/red]"]))
                              "red" (Some ROUNDED) None)));
                ConsolePrint None ].
Proof.
  eexists. eexists. eexists. eexists.
  split; [reflexivity|]. split; [reflexivity|]. split; [reflexivity|].
  split; [reflexivity|]. split; [reflexivity|]. split; [reflexivity|].
  match goal with
  | |- exists summary, _ /\ skipn 5 (fst (display_table_differences _ _ ?c _)) = _ =>
      destruct (@schema_only_difference_report ascii_runtime db_a db_a_retyped c "users"
                  _ _ eq_refl eq_refl eq_refl eq_refl eq_refl) as [summary [Hrows Hrun]]
  end.
  exists summary. split; [exact Hrows|]. rewrite Hrun. reflexivity.
Defined.
